(** * Catalog references and loadable strata of terriajs

    A shallow embedding of
    - [lib/Models/ArcGisPortalItemReference.ts]
      (format matching and reference resolution of ArcGIS portal items),
    - [lib/Models/SdmxJson/SdmxJsonDataflowStratum.ts]
      (the SDMX-JSON dataflow stratum),
    - [lib/Models/Catalog/Esri/ArcGisImageServerCatalogItem.ts]
      (the ImageServer stratum),
    together with the properties the specification states about them.

    Conventions.  A member that may be [undefined] is an [option] ([null] is
    not told apart from [undefined]); an [async] function that may throw is a
    function into [Result]; the mutable fields of a reference are threaded as
    explicit state.  Strings are Rocq strings (sequences of 8-bit
    characters), numbers are integers. *)

From Stdlib Require Import Ascii ZArith Bool FunctionalExtensionality.
From Stdlib Require String.
From stdpp Require Import base option list strings gmap pretty.

Set Default Proof Using "Type".

(** ** JSON values and thrown errors *)

(** [JsonValue] of [lib/Core/Json]; numbers are kept as integers. *)
#[warnings="-register-all"]
Inductive Json : Type :=
| JNull
| JBool (b : bool)
| JNumber (n : Z)
| JString (s : string)
| JArray (items : list Json)
| JObject (members : list (string * Json)).

(** [members[key]] on an association list in insertion order. *)
Fixpoint assoc {A : Type} (key : string) (members : list (string * A)) : option A :=
  match members with
  | [] => None
  | (k, v) :: rest => if String.eqb k key then Some v else assoc key rest
  end.

(** What a [throw] carries. *)
Inductive Error : Type :=
| TerriaError (title message : string)
    (* new TerriaError({title, message}) *)
| NetworkRequestError (title message : string)
    (* networkRequestError({title, message}) *)
| RequestFailed
    (* rejection of loadJson / getToken: network or parse error *)
| TypeError.
    (* property access on undefined *)

Inductive Result (A : Type) : Type :=
| Ok (a : A)
| Throw (e : Error).
Arguments Ok {A} a.
Arguments Throw {A} e.

(** JavaScript truthiness of an optional string. *)
Definition truthy (s : option string) : bool :=
  match s with
  | Some s => negb (String.eqb s EmptyString)
  | None => false
  end.

(** [a === b] on optional strings ([undefined === undefined] holds). *)
Definition strictEq (a b : option string) : bool :=
  match a, b with
  | Some x, Some y => String.eqb x y
  | None, None => true
  | _, _ => false
  end.

(** [s.includes(sub)]: [sub] occurs in [s] (case-sensitive). *)
Fixpoint startsWith (sub s : string) : bool :=
  match sub, s with
  | EmptyString, _ => true
  | String a sub', String b s' => Ascii.eqb a b && startsWith sub' s'
  | String _ _, EmptyString => false
  end.

Fixpoint includes (s sub : string) : bool :=
  startsWith sub s ||
  match s with
  | EmptyString => false
  | String _ s' => includes s' sub
  end.

(** The double quote character, as a string. *)
Definition quote : string := String (ascii_of_nat 34) EmptyString.

(** [parts.join(sep)]. *)
Fixpoint join (sep : string) (parts : list string) : string :=
  match parts with
  | [] => EmptyString
  | [p] => p
  | p :: rest => p +:+ sep +:+ join sep rest
  end.

(** ** Regular expressions

    The portal reference only constructs regular expressions with
    [new RegExp(source, "i")] and only calls [test] on them, so format
    matching is written against that interface. *)

Class RegExpOps (RegExp : Type) : Type := {
  RegExp_new_i : string → RegExp;        (* new RegExp(source, "i") *)
  RegExp_test : RegExp → string → bool   (* regex.test(s) *)
}.

(** An interpretation of the interface for the pattern language the
    default format rules are written in: alternatives separated by [|], each
    a sequence of literal characters, [\d], [\/] and the end anchor [$]. *)
Module PatternRegExp.

Inductive Atom : Type :=
| AChar (c : ascii)   (* a literal character *)
| ADigit              (* \d *)
| AEnd.               (* $ (no multiline flag: end of input) *)

(** A pattern is a disjunction of sequences of atoms. *)
Definition Pattern : Type := list (list Atom).

Definition isMeta (c : ascii) : bool :=
  existsb (Ascii.eqb c)
    ["."; "*"; "+"; "?"; "("; ")"; "["; "]"; "{"; "}"; "^"]%char.

(** Parse a source text; [None] when it leaves the fragment. [cur] is the
    alternative being read (reversed), [done] the finished ones
    (reversed). *)
Fixpoint parseFrom (src : string) (cur : list Atom) (done : Pattern)
  : option Pattern :=
  match src with
  | EmptyString => Some (rev (rev cur :: done))
  | String "|" rest => parseFrom rest [] (rev cur :: done)
  | String "$" rest => parseFrom rest (AEnd :: cur) done
  | String "\" (String "d" rest) => parseFrom rest (ADigit :: cur) done
  | String "\" (String "/" rest) => parseFrom rest (AChar "/" :: cur) done
  | String "\" _ => None
  | String c rest =>
      if isMeta c then None else parseFrom rest (AChar c :: cur) done
  end.

Definition parse (src : string) : option Pattern := parseFrom src [] [].

(** Canonicalisation under the [i] flag, on ASCII letters. *)
Definition toLower (c : ascii) : ascii :=
  let n := nat_of_ascii c in
  if (65 <=? n)%nat && (n <=? 90)%nat then ascii_of_nat (n + 32) else c.

Definition isDigit (c : ascii) : bool :=
  let n := nat_of_ascii c in (48 <=? n)%nat && (n <=? 57)%nat.

(** Does the sequence match at the start of [s]? *)
Fixpoint matchSeq (atoms : list Atom) (s : string) : bool :=
  match atoms with
  | [] => true
  | AEnd :: rest =>
      match s with
      | EmptyString => matchSeq rest s
      | String _ _ => false
      end
  | AChar c :: rest =>
      match s with
      | String x s' => Ascii.eqb (toLower c) (toLower x) && matchSeq rest s'
      | EmptyString => false
      end
  | ADigit :: rest =>
      match s with
      | String x s' => isDigit x && matchSeq rest s'
      | EmptyString => false
      end
  end.

(** [test]: some alternative matches at some position of [s]. *)
Fixpoint search (p : Pattern) (s : string) : bool :=
  existsb (fun alt => matchSeq alt s) p ||
  match s with
  | EmptyString => false
  | String _ s' => search p s'
  end.

(** A source outside the fragment is kept as [None] and matches
    nothing; every default rule parses (see [defaults_parse]). *)
#[global] Instance ops : RegExpOps (option Pattern) := {
  RegExp_new_i := parse;
  RegExp_test re s := match re with Some p => search p s | None => false end
}.

(** An alternative that ends in [$] after [n] one-character atoms. *)
Definition anchored (n : nat) (alt : list Atom) : Prop :=
  ∃ atoms, alt = atoms ++ [AEnd] ∧ length atoms = n
           ∧ Forall (λ a, a ≠ AEnd) atoms.

End PatternRegExp.

(** ** ArcGIS portal items and format rules *)

(** [ArcGisItem] of [ArcGisPortalDefinitions], the members read here. *)
Record ArcGisItem : Type := {
  item_id : string;
  item_type : string;
  item_url : string;
  item_title : string;
  item_description : string;
  item_extent : option ((Z * Z) * (Z * Z));   (* null or [[w, s], [e, n]] *)
  item_licenseInfo : option string;
  item_typeKeywords : list string
}.

(** [ArcGisPortalItemFormatTraits]: one declared format rule. *)
Record ArcGisPortalItemFormatTraits : Type := {
  format_id : option string;
  formatRegex : option string;
  urlRegex : option string;
  definition : option (list (string * Json))
}.

Section FormatMatching.
Context {RegExp : Type} `{RegExpOps RegExp}.

Record PreparedSupportedFormat : Type := {
  p_formatRegex : option RegExp;
  p_urlRegex : option RegExp;
  p_definition : list (string * Json)
}.

(** [prepareSupportedFormat]: an absent or empty source gives no regex. *)
Definition prepareSupportedFormat (format : ArcGisPortalItemFormatTraits)
  : PreparedSupportedFormat :=
  {| p_urlRegex :=
       if truthy (urlRegex format)
       then RegExp_new_i <$> urlRegex format else None;
     p_formatRegex :=
       if truthy (formatRegex format)
       then RegExp_new_i <$> formatRegex format else None;
     p_definition := default [] (definition format) |}.

(** The loop of [isItemInSupportedFormats], from index [i] on. *)
Fixpoint isItemInSupportedFormats_loop
    (item : ArcGisItem) (formats : list PreparedSupportedFormat)
  : option PreparedSupportedFormat :=
  match formats with
  | [] => None
  | format :: rest =>
      match p_formatRegex format, p_urlRegex format with
      | Some formatRe, Some urlRe =>
          if RegExp_test formatRe (item_type item)
             && RegExp_test urlRe (item_url item)
          then Some format
          else isItemInSupportedFormats_loop item rest
      | Some formatRe, None =>
          if RegExp_test formatRe (item_type item) then Some format
          else isItemInSupportedFormats_loop item rest
      | None, Some urlRe =>
          if RegExp_test urlRe (item_url item) then Some format
          else isItemInSupportedFormats_loop item rest
      | None, None => isItemInSupportedFormats_loop item rest
      end
  end.

Definition isItemInSupportedFormats
    (preparedSupportedFormats : list PreparedSupportedFormat)
    (item : option ArcGisItem) : option PreparedSupportedFormat :=
  match item with
  | None => None
  | Some item => isItemInSupportedFormats_loop item preparedSupportedFormats
  end.

(** The matching policy in the words of the specification. *)
Definition ruleMatches (item : ArcGisItem) (rule : PreparedSupportedFormat)
  : bool :=
  match p_formatRegex rule, p_urlRegex rule with
  | Some formatRe, Some urlRe =>
      (* (a) both present and both match *)
      RegExp_test formatRe (item_type item)
      && RegExp_test urlRe (item_url item)
  | Some formatRe, None =>
      (* (b) only one present, and that one matches *)
      RegExp_test formatRe (item_type item)
  | None, Some urlRe => RegExp_test urlRe (item_url item)
  | None, None => false
  end.

Lemma isItemInSupportedFormats_loop_find item formats :
  isItemInSupportedFormats_loop item formats
  = List.find (ruleMatches item) formats.
Proof.
  induction formats as [|format rest IH]; [reflexivity|].
  cbn [isItemInSupportedFormats_loop List.find]. unfold ruleMatches at 1.
  destruct (p_formatRegex format), (p_urlRegex format);
    rewrite IH; reflexivity.
Qed.

End FormatMatching.

Arguments PreparedSupportedFormat : clear implicits.

(** [ArcGisPortalItemReference.defaultSupportedFormats]. *)
Definition format (id formatRe : string) (urlRe : option string) (type : string)
  : ArcGisPortalItemFormatTraits :=
  {| format_id := Some id;
     formatRegex := Some formatRe;
     urlRegex := urlRe;
     definition := Some [("type", JString type)] |}.

Definition defaultSupportedFormats : list ArcGisPortalItemFormatTraits :=
  [ format "I3S" "Scene Service" (Some "SceneServer$|SceneServer/$") "3d-tiles";
    format "WMS" "WMS" (Some "WMSServer") "wms";
    format "ArcGIS MapServer Group" "Map Service"
           (Some "MapServer$|MapServer/$") "esri-mapServer-group";
    format "ArcGIS MapServer" "Map Service"
           (Some "MapServer\/\d") "esri-mapServer";
    format "ArcGIS FeatureServer Group" "Feature Service"
           (Some "FeatureServer$|FeatureServer/$") "esri-featureServer-group";
    format "ArcGIS FeatureServer" "Feature Service"
           (Some "FeatureServer\/\d") "esri-featureServer";
    format "Kml" "KML" None "kml" ].

(** ** Models, strata and the external collaborators *)

(** The address of a reference object: strata keep a pointer to the
    reference they were loaded for and read its current fields. *)
Definition Handle : Type := positive.

(** [ArcGisPortalCatalogGroup], the member read here. *)
Record ArcGisPortalCatalogGroup : Type := {
  group_url : option string
}.

(** The fields of an [ArcGisPortalItemStratum]. *)
Record ArcGisPortalItemStratum : Type := {
  arcgisPortalItemReference : Handle;
  arcgisPortalCatalogGroup : option ArcGisPortalCatalogGroup
}.

(** A stratum held in [model.strata]: plain trait values (definition,
    override, ...) or the loaded portal stratum. *)
Inductive Stratum : Type :=
| TraitValues (values : gmap string Json)
| PortalItemStratum (stratum : ArcGisPortalItemStratum).

Definition stratumName : string := "arcGisPortalDataset".

(** A catalog member created by [CatalogMemberFactory]. *)
Record Model : Type := {
  model_type : string;
  model_uniqueId : option string;
  model_strata : gmap string Stratum
}.

Definition set_model_strata (strata : gmap string Stratum) (model : Model)
  : Model :=
  {| model_type := model_type model;
     model_uniqueId := model_uniqueId model;
     model_strata := strata |}.

(** [model.setTrait(stratumId, trait, value)] on the strata map: the
    stratum is created when absent; [undefined] clears the trait. *)
Definition setTrait (stratumId trait : string) (value : option Json)
    (strata : gmap string Stratum) : gmap string Stratum :=
  match strata !! stratumId with
  | Some (PortalItemStratum _) => strata
  | Some (TraitValues values) =>
      <[stratumId := TraitValues (match value with
                                  | Some v => <[trait := v]> values
                                  | None => delete trait values
                                  end)]> strata
  | None =>
      <[stratumId := TraitValues (match value with
                                  | Some v => {[trait := v]}
                                  | None => ∅
                                  end)]> strata
  end.

(** The response of the [/data] endpoint. *)
Record ArcGisItemLayerInfo : Type := {
  layer_id : string
}.

Record ArcGisItemInfo : Type := {
  layers : option (list ArcGisItemLayerInfo);
  error : option (list (string * Json))
}.

(** The collaborators outside this module.  [loadJson] is given at the two
    response types it is used at; [uriSegmentJson base path] stands for
    [new URI(base).segment(path).addQuery({f: "json"}).toString()]. *)
Record Collaborators : Type := {
  loadJson_ArcGisItem : string → Result ArcGisItem;
  loadJson_ArcGisItemInfo : string → Result ArcGisItemInfo;
  uriSegmentJson : option string → string → string;
  uriItemPage : string → string → string;
    (* new URI(root).segment("/home/item.html").addQuery("id", id).toString() *)
  proxyCatalogItemUrl : string → string → string;
    (* proxyCatalogItemUrl(item, url, cacheDuration) *)
  CatalogMemberFactory_create : option Json → option string → option Model;
  i18next_t : string → string;
  DOMPurify_sanitize : string → string
}.

Section Reference.
Context {RegExp : Type} `{RegExpOps RegExp}.

(** The state of an [ArcGisPortalItemReference]: its identity, the trait
    values it resolves to, its strata and its four mutable fields.  The
    constructor sets [supportedFormats] in the defaults stratum, so the
    resolved list is always defined. *)
Record ArcGisPortalItemReference : Type := {
  this : Handle;
  uniqueId : option string;
  url : option string;
  itemId : option string;
  supportedFormats : list ArcGisPortalItemFormatTraits;
  itemProperties : option (list (string * Json));
  strata : gmap string Stratum;
  _arcgisItem : option ArcGisItem;
  _arcgisPortalCatalogGroup : option ArcGisPortalCatalogGroup;
  _supportedFormat : option (PreparedSupportedFormat RegExp);
  _portalRootUrl : option string
}.

Definition set_strata (v : gmap string Stratum) (r : ArcGisPortalItemReference)
  : ArcGisPortalItemReference :=
  {| this := this r; uniqueId := uniqueId r; url := url r; itemId := itemId r;
     supportedFormats := supportedFormats r;
     itemProperties := itemProperties r; strata := v;
     _arcgisItem := _arcgisItem r;
     _arcgisPortalCatalogGroup := _arcgisPortalCatalogGroup r;
     _supportedFormat := _supportedFormat r;
     _portalRootUrl := _portalRootUrl r |}.

Definition set_arcgisItem (v : option ArcGisItem) (r : ArcGisPortalItemReference)
  : ArcGisPortalItemReference :=
  {| this := this r; uniqueId := uniqueId r; url := url r; itemId := itemId r;
     supportedFormats := supportedFormats r;
     itemProperties := itemProperties r; strata := strata r;
     _arcgisItem := v;
     _arcgisPortalCatalogGroup := _arcgisPortalCatalogGroup r;
     _supportedFormat := _supportedFormat r;
     _portalRootUrl := _portalRootUrl r |}.

Definition set_supportedFormat (v : option (PreparedSupportedFormat RegExp))
    (r : ArcGisPortalItemReference) : ArcGisPortalItemReference :=
  {| this := this r; uniqueId := uniqueId r; url := url r; itemId := itemId r;
     supportedFormats := supportedFormats r;
     itemProperties := itemProperties r; strata := strata r;
     _arcgisItem := _arcgisItem r;
     _arcgisPortalCatalogGroup := _arcgisPortalCatalogGroup r;
     _supportedFormat := v;
     _portalRootUrl := _portalRootUrl r |}.

Definition set_portalRootUrl (v : option string) (r : ArcGisPortalItemReference)
  : ArcGisPortalItemReference :=
  {| this := this r; uniqueId := uniqueId r; url := url r; itemId := itemId r;
     supportedFormats := supportedFormats r;
     itemProperties := itemProperties r; strata := strata r;
     _arcgisItem := _arcgisItem r;
     _arcgisPortalCatalogGroup := _arcgisPortalCatalogGroup r;
     _supportedFormat := _supportedFormat r;
     _portalRootUrl := v |}.

(** A method of the reference: it may throw, and it may assign fields. *)
Definition Method (A : Type) : Type :=
  ArcGisPortalItemReference → Result A * ArcGisPortalItemReference.

#[global] Instance Method_ret : MRet Method := λ A a r, (Ok a, r).

#[global] Instance Method_bind : MBind Method :=
  λ A B k m r, match m r with
               | (Ok a, r') => k a r'
               | (Throw e, r') => (Throw e, r')
               end.

Definition throw {A : Type} (e : Error) : Method A := λ r, (Throw e, r).

Definition read {A : Type} (field : ArcGisPortalItemReference → A) : Method A :=
  λ r, (Ok (field r), r).

Definition assign (set : ArcGisPortalItemReference → ArcGisPortalItemReference)
  : Method unit :=
  λ r, (Ok tt, set r).

(** [await] of a collaborator's promise. *)
Definition await {A : Type} (promise : Result A) : Method A :=
  λ r, (promise, r).

(** [try { body } catch (err) { return handler }]. *)
Definition tryCatch {A : Type} (body : Method A) (handler : A) : Method A :=
  λ r, match body r with
       | (Ok a, r') => (Ok a, r')
       | (Throw _, r') => (Ok handler, r')
       end.

Variable env : Collaborators.

Definition preparedSupportedFormats (r : ArcGisPortalItemReference)
  : list (PreparedSupportedFormat RegExp) :=
  prepareSupportedFormat <$> supportedFormats r.

Definition setSupportedFormatFromItem (item : option ArcGisItem) : Method unit :=
  λ r, assign (set_supportedFormat
                 (isItemInSupportedFormats (preparedSupportedFormats r) item)) r.

Definition loadPortalItem : Method ArcGisItem :=
  portalRootUrl ← read _portalRootUrl;
  id ← read itemId;
  await (loadJson_ArcGisItem env
           (proxyCatalogItemUrl env
              (uriSegmentJson env portalRootUrl
                 ("/sharing/rest/content/items/"
                  +:+ default "undefined" id))
              "1d")).

Definition loadAdditionalPortalInfo : Method (option ArcGisItemInfo) :=
  arcgisItem ← read _arcgisItem;
  match arcgisItem with
  | None => mret None
  | Some arcgisItem =>
      baseUrl ← read _portalRootUrl;
      tryCatch
        (response ← await (loadJson_ArcGisItemInfo env
                             (proxyCatalogItemUrl env
                                (uriSegmentJson env baseUrl
                                   ("/sharing/rest/content/items/"
                                    +:+ item_id arcgisItem +:+ "/data"))
                                "1d"));
         mret (Some response))
        None
  end.

(** [ArcGisPortalItemStratum.load(reference, group)]. *)
Definition ArcGisPortalItemStratum_load
    (arcgisPortalCatalogGroup : option ArcGisPortalCatalogGroup)
  : Method ArcGisPortalItemStratum :=
  arcgisItem ← read _arcgisItem;
  (match arcgisItem with
   | None =>
       id ← read uniqueId;
       match id with
       | Some _ =>
           rootUrl ← read url;
           assign (set_portalRootUrl rootUrl);;
           item ← loadPortalItem;
           assign (set_arcgisItem (Some item));;
           setSupportedFormatFromItem (Some item)
       | None => mret tt
       end
   | Some _ =>
       match arcgisPortalCatalogGroup with
       | Some group => assign (set_portalRootUrl (group_url group))
       | None => mret tt
       end
   end);;
  self ← read this;
  mret {| arcgisPortalItemReference := self;
         arcgisPortalCatalogGroup := arcgisPortalCatalogGroup |}.

(** [setArcgisStrata(model)], for [model] the reference itself and for
    [model] a created target. *)
Definition setArcgisStrata_this : Method unit :=
  group ← read _arcgisPortalCatalogGroup;
  stratum ← ArcGisPortalItemStratum_load group;
  assign (λ r, set_strata (<[stratumName := PortalItemStratum stratum]> (strata r)) r).

Definition setArcgisStrata (model : Model) : Method Model :=
  group ← read _arcgisPortalCatalogGroup;
  stratum ← ArcGisPortalItemStratum_load group;
  mret (set_model_strata
         (<[stratumName := PortalItemStratum stratum]> (model_strata model))
         model).

Definition set_item_url (v : string) (item : ArcGisItem) : ArcGisItem :=
  {| item_id := item_id item; item_type := item_type item; item_url := v;
     item_title := item_title item; item_description := item_description item;
     item_extent := item_extent item; item_licenseInfo := item_licenseInfo item;
     item_typeKeywords := item_typeKeywords item |}.

(** Lines 343-350 of [forceLoadReference]: use of the [/data] response. *)
Definition refineWithItemData (itemDataInfo : option ArcGisItemInfo)
  : Method unit :=
  arcgisItem ← read _arcgisItem;
  match itemDataInfo, arcgisItem with
  | Some itemDataInfo, Some arcgisItem =>
      let refined :=
        match error itemDataInfo, layers itemDataInfo with
        | None, Some (layer :: _) =>
            set_item_url (item_url arcgisItem +:+ "/" +:+ layer_id layer)
                         arcgisItem
        | _, _ => arcgisItem
        end in
      assign (set_arcgisItem (Some refined));;
      setSupportedFormatFromItem (Some refined)
  | _, _ => mret tt
  end.

Definition isJsonString (v : option Json) (s : string) : bool :=
  match v with
  | Some (JString s') => String.eqb s' s
  | _ => false
  end.

(** Lines 352-364: tiled map services do not use a single layer. *)
Definition tiledMapServiceCatch : Method unit :=
  arcgisItem ← read _arcgisItem;
  match arcgisItem with
  | Some arcgisItem =>
      if String.eqb (item_type arcgisItem) "Map Service"
         && existsb (String.eqb "Tiled") (item_typeKeywords arcgisItem)
      then
        formats ← read preparedSupportedFormats;
        match List.filter
                (λ f, isJsonString (assoc "type" (p_definition f)) "esri-mapServer")
                formats with
        | [mapServerFormat] => assign (set_supportedFormat (Some mapServerFormat))
        | _ => mret tt
        end
      else mret tt
  | None => mret tt
  end.

(** Lines 366-391: the target model and its strata.  The definition
    stratum is one object held by both models, so clearing its [url]
    is seen by the reference as well. *)
Definition createTarget : Method (option Model) :=
  supportedFormat ← read _supportedFormat;
  match supportedFormat with
  | None => throw TypeError
  | Some supportedFormat =>
      id ← read uniqueId;
      match CatalogMemberFactory_create env
              (assoc "type" (p_definition supportedFormat)) id with
      | None => mret None
      | Some model =>
          model ← setArcgisStrata model;
          ownStrata ← read strata;
          model ←
            match ownStrata !! "definition" with
            | Some defintionStratum =>
                let shared :=
                  setTrait "definition" "url" None
                           {["definition" := defintionStratum]} in
                assign (λ r, set_strata (shared ∪ strata r) r);;
                mret (set_model_strata (shared ∪ model_strata model) model)
            | None => mret model
            end;
          properties ← read itemProperties;
          mret (Some
                 (set_model_strata
                    (foldl (λ st p, setTrait "override" p.1 (Some p.2) st)
                           (model_strata model) (default [] properties))
                    model))
      end
  end.

Definition forceLoadReference (previousTarget : option Model)
  : Method (option Model) :=
  setArcgisStrata_this;;
  supportedFormat ← read _supportedFormat;
  match supportedFormat with
  | None => mret None
  | Some _ =>
      itemDataInfo ← loadAdditionalPortalInfo;
      refineWithItemData itemDataInfo;;
      tiledMapServiceCatch;;
      createTarget
  end.

End Reference.

Arguments ArcGisPortalItemReference : clear implicits.
Arguments Method : clear implicits.

(** ** Vocabulary for the statements about reference resolution *)

Section ReferenceVocabulary.
Context {RegExp : Type} `{RegExpOps RegExp}.
Variable env : Collaborators.

Local Abbreviation Reference := (ArcGisPortalItemReference RegExp).

(** The url the [/data] request of [item] goes to. *)
Definition dataUrl (r : Reference) (item : ArcGisItem) : string :=
  proxyCatalogItemUrl env
    (uriSegmentJson env (_portalRootUrl r)
       ("/sharing/rest/content/items/" +:+ item_id item +:+ "/data"))
    "1d".

(** The url the item request of a fresh reference goes to. *)
Definition itemUrl (r : Reference) : string :=
  proxyCatalogItemUrl env
    (uriSegmentJson env (url r)
       ("/sharing/rest/content/items/" +:+ default "undefined" (itemId r)))
    "1d".

(** What [load] does to a reference that already holds its item. *)
Definition rebased (group : option ArcGisPortalCatalogGroup) (r : Reference)
  : Reference :=
  match group with
  | Some group => set_portalRootUrl (group_url group) r
  | None => r
  end.

(** After a successful load the reference holds an item unless it has no
    id, and then no later load fetches anything. *)
Definition settled (r : Reference) : Prop :=
  is_Some (_arcgisItem r) ∨ (_arcgisItem r = None ∧ uniqueId r = None).

(** The item after the [/data] response has been applied to it. *)
Definition refinedItem (info : ArcGisItemInfo) (item : ArcGisItem) : ArcGisItem :=
  match error info, layers info with
  | None, Some (layer :: _) =>
      set_item_url (item_url item +:+ "/" +:+ layer_id layer) item
  | _, _ => item
  end.

(** Does the catch for tiled map services apply to the item? *)
Definition isTiledMapService (item : ArcGisItem) : bool :=
  String.eqb (item_type item) "Map Service"
  && existsb (String.eqb "Tiled") (item_typeKeywords item).

(** The formats among which that catch looks for a single one. *)
Definition isMapServerFormat (f : PreparedSupportedFormat RegExp) : bool :=
  isJsonString (assoc "type" (p_definition f)) "esri-mapServer".

End ReferenceVocabulary.

(** ** SDMX-JSON structure messages *)

#[global] Instance Result_ret : MRet Result := λ A a, Ok a.

#[global] Instance Result_bind : MBind Result :=
  λ A B k m, match m with
             | Ok a => k a
             | Throw e => Throw e
             end.

(** [a ?? b]. *)
Definition orElse {A : Type} (a b : option A) : option A :=
  match a with
  | Some x => Some x
  | None => b
  end.
Infix "??" := orElse (at level 62, left associativity).

(** [a?.member], for a member that may itself be absent. *)
Notation "a ?. member" := (mbind (M := option) member a)
  (at level 58, left associativity).

(** [Boolean(b)] of an optional boolean. *)
Definition isTrue (b : option bool) : bool := default false b.

(** The members of [SdmxJsonStructureMessage] read by the stratum. *)
Record LocalRepresentation : Type := {
  enumeration : option string
}.

(** A dimension, time dimension, attribute or primary measure. *)
Record Component : Type := {
  comp_id : option string;
  comp_type : option string;
  comp_position : option Z;
  conceptIdentity : option string;
  localRepresentation : option LocalRepresentation
}.

Definition comp_enumeration (c : Component) : option string :=
  localRepresentation c ?. enumeration.

Record DimensionList : Type := {
  dl_dimensions : option (list Component);
  timeDimensions : option (list Component)
}.

Record AttributeList : Type := {
  attributes : option (list Component)
}.

Record MeasureList : Type := {
  primaryMeasure : option Component
}.

Record DataStructureComponents : Type := {
  attributeList : option AttributeList;
  dimensionList : DimensionList;
  measureList : MeasureList
}.

Record DataStructure : Type := {
  dataStructureComponents : option DataStructureComponents
}.

Record Dataflow : Type := {
  dataflow_id : option string;
  dataflow_description : option string
}.

Record Code : Type := {
  code_id : option string;
  code_name : option string
}.

Record Codelist : Type := {
  codelist_id : option string;
  codelist_name : option string;
  codes : option (list Code)
}.

Record Concept : Type := {
  concept_id : option string;
  concept_name : option string
}.

Record ConceptScheme : Type := {
  scheme_id : option string;
  concepts : option (list Concept)
}.

Record KeyValue : Type := {
  kv_id : option string;
  kv_values : option (list string)
}.

Record CubeRegion : Type := {
  keyValues : option (list KeyValue)
}.

Record ContentConstraint : Type := {
  constraint_type : option string;
  cubeRegions : option (list CubeRegion)
}.

(** A member that should hold an array: absent, some other value, or an
    array ([Array.isArray] tells the last from the first two). *)
Inductive ArrayMember (A : Type) : Type :=
| Absent
| NotAnArray (v : Json)
| Items (items : list A).
Arguments Absent {A}.
Arguments NotAnArray {A} v.
Arguments Items {A} items.

Record StructureData : Type := {
  dataflows : ArrayMember Dataflow;
  dataStructures : ArrayMember DataStructure;
  data_codelists : option (list Codelist);
  data_conceptSchemes : option (list ConceptScheme);
  data_contentConstraints : option (list ContentConstraint)
}.

(** [data] is [None] when the member is [undefined] or [null]. *)
Record SdmxJsonStructureMessage : Type := {
  data : option StructureData
}.

Record SdmxJsonDataflow : Type := {
  dataflow : Dataflow;
  dataStructure : DataStructure;
  codelists : option (list Codelist);
  conceptSchemes : option (list ConceptScheme);
  contentConstraints : option (list ContentConstraint)
}.

(** What [parseSdmxUrn] extracts from a URN. *)
Record SdmxUrn : Type := {
  resourceId : option string;
  descendantIds : option (list string)
}.

(** ** Traits of the SDMX catalog item *)

Record DimensionOption : Type := {
  option_id : option string;
  option_name : option string
}.

(** [SdmxDimensionTraits]. *)
Record SdmxDimension : Type := {
  sdim_id : option string;
  sdim_name : option string;
  sdim_options : list DimensionOption;
  sdim_position : option Z;
  sdim_disable : option bool;
  sdim_allowUndefined : option bool;
  sdim_selectedId : option string
}.

Record RegionTypeReplacement : Type := {
  find : option string;
  replace : option string
}.

(** [ModelOverrideTraits]. *)
Record ModelOverride : Type := {
  override_id : option string;
  override_type : option string;
  override_name : option string;
  regionType : option string;
  regionTypeReplacements : option (list RegionTypeReplacement);
  override_options : option (list DimensionOption);
  allowUndefined : option bool;
  disable : option bool;
  selectedId : option string
}.

Record ColumnTransformation : Type := {
  expression : string;
  dependencies : list string
}.

(** [TableColumnTraits], the traits set by the stratum. *)
Record TableColumnTraits : Type := {
  column_name : option string;
  column_title : option string;
  column_type : option string;
  column_regionType : option string;
  transformation : option ColumnTransformation
}.

(** A column of the loaded table, as far as it is read here. *)
Record TableColumn : Type := {
  loaded_name : option string;
  uniqueValues : list string;            (* column.uniqueValues.values *)
  valuesAsNumbers : list (option Z);     (* column.valuesAsNumbers.values *)
  column_format : option Json            (* column.traits.format *)
}.

(** The region type of the region column of the active table style. *)
Record RegionProvider : Type := {
  provider_description : option string;
  nameProp : option string
}.

Record TableChartLineStyleTraits : Type := {
  line_name : string;
  yAxisColumn : option string
}.

Record TableChartStyleTraits : Type := {
  xAxisColumn : option string;
  lines : list TableChartLineStyleTraits
}.

(** [TableStyleTraits], the traits set by the stratum. *)
Record TableStyleTraits : Type := {
  style_id : option string;
  legendTitle : string;                  (* color.legend.title *)
  timeColumn : option string;            (* time.timeColumn *)
  chart : option TableChartStyleTraits;
  regionColumn : option string
}.

Record ShortReportTraits : Type := {
  report_name : string;
  report_content : string
}.

(** The [SdmxJsonCatalogItem] a stratum belongs to, as the stratum reads
    it: its identity and connection traits, its resolved [modelOverrides]
    and [dimensions], the state of its table, and its region providers
    ([regionProviderList v] lists the region types of the providers that
    [getRegionDetails([v])] returns, in order). *)
Record SdmxJsonCatalogItem : Type := {
  sdmx_uniqueId : option string;
  sdmx_name : option string;
  baseUrl : option string;
  agencyId : option string;
  dataflowId : option string;
  modelOverrides : list ModelOverride;
  item_dimensions : option (list SdmxDimension);
  sdmxSelectableDimensions : option (list SdmxDimension);
  mapItems : nat;                        (* mapItems.length *)
  isLoading : bool;
  tableColumns : list TableColumn;
  findColumnByName : string → option TableColumn;
  activeRegionType : option RegionProvider;
    (* activeTableStyle.regionColumn?.regionType *)
  discreteTimes : option nat;            (* discreteTimes?.length *)
  regionProviderList : option (string → list string)
}.

Record SdmxJsonDataflowStratum : Type := {
  catalogItem : SdmxJsonCatalogItem;
  sdmxJsonDataflow : SdmxJsonDataflow
}.

Section SdmxStratum.

(** Collaborators: translation, the proxy, the structure request and
    [parseSdmxUrn] of [SdmxJsonServerStratum]. *)
Variable t : string → string.
Variable proxyUrl : SdmxJsonCatalogItem → string → string.
Variable loadSdmxJsonStructure : string → Result SdmxJsonStructureMessage.
Variable parseSdmxUrn : option string → option SdmxUrn.
Variable toLocaleString : Z → option Json → string.

Definition text (s : option string) : string := default "undefined" s.

(** [SdmxJsonDataflowStratum.load(catalogItem)]. *)
Definition SdmxJsonDataflowStratum_load (catalogItem : SdmxJsonCatalogItem)
  : Result SdmxJsonDataflowStratum :=
  dataflowStructure ←
    loadSdmxJsonStructure
      (proxyUrl catalogItem
         (text (baseUrl catalogItem) +:+ "/dataflow/"
          +:+ text (agencyId catalogItem) +:+ "/"
          +:+ text (dataflowId catalogItem) +:+ "?references=all"));
  match data dataflowStructure with
  | None =>
      Throw (TerriaError
               (t "models.sdmxJsonDataflowStratum.loadDataErrorTitle")
               (t "models.sdmxJsonDataflowStratum.loadDataErrorMessage.invalidResponse"))
  | Some data =>
      match dataflows data with
      | Absent | NotAnArray _ | Items [] =>
          Throw (TerriaError
                   (t "models.sdmxJsonDataflowStratum.loadDataErrorTitle")
                   (t "models.sdmxJsonDataflowStratum.loadDataErrorMessage.noDataflow"))
      | Items (dataflow0 :: _) =>
          match dataStructures data with
          | Absent | NotAnArray _ | Items [] =>
              Throw (TerriaError
                       (t "models.sdmxJsonDataflowStratum.loadDataErrorTitle")
                       (t "models.sdmxJsonDataflowStratum.loadDataErrorMessage.noDatastructure"))
          | Items (dataStructure0 :: _) =>
              Ok {| catalogItem := catalogItem;
                    sdmxJsonDataflow :=
                      {| dataflow := dataflow0;
                         dataStructure := dataStructure0;
                         codelists := data_codelists data;
                         conceptSchemes := data_conceptSchemes data;
                         contentConstraints := data_contentConstraints data |} |}
          end
      end
  end.

Variable stratum : SdmxJsonDataflowStratum.

Definition components : option DataStructureComponents :=
  dataStructureComponents (dataStructure (sdmxJsonDataflow stratum)).

(** *** Helper functions on the structure *)

Definition getConceptScheme (id : string) : option ConceptScheme :=
  conceptSchemes (sdmxJsonDataflow stratum)
  ?. List.find (λ c, strictEq (scheme_id c) (Some id)).

Definition getConceptByUrn (urn : option string) : option Concept :=
  if negb (truthy urn) then None
  else
    let conceptUrn := parseSdmxUrn urn in
    let conceptSchemeId := conceptUrn ?. resourceId in
    let conceptId := conceptUrn ?. descendantIds ?. head in
    match conceptId with
    | None => None
    | Some _ =>
        let resolvedConceptScheme := conceptSchemeId ?. getConceptScheme in
        resolvedConceptScheme ?. concepts
        ?. List.find (λ d, strictEq (concept_id d) conceptId)
    end.

Definition getCodelistByUrn (urn : option string) : option Codelist :=
  if negb (truthy urn) then None
  else
    let id := parseSdmxUrn urn ?. resourceId in
    match id with
    | None => None
    | Some _ =>
        codelists (sdmxJsonDataflow stratum)
        ?. List.find (λ c, strictEq (codelist_id c) id)
    end.

Definition hasConceptOrCodelist (id : string) (c : Component) : bool :=
  strictEq (conceptIdentity c) (Some id)
  || strictEq (comp_enumeration c) (Some id).

Definition getDimensionWithConceptOrCodelist (id : string) : option Component :=
  components ?. (dl_dimensions ∘ dimensionList)
  ?. List.find (hasConceptOrCodelist id).

Definition getAttributionWithConceptOrCodelist (id : string) : option Component :=
  components ?. attributeList ?. attributes
  ?. List.find (hasConceptOrCodelist id).

(** [filterOutUndefined(overrides.filter(type && id).map(f))]. *)
Definition overridesOfType (type : string) : list ModelOverride :=
  List.filter (λ override, strictEq (override_type override) (Some type)
                           && truthy (override_id override))
              (modelOverrides (catalogItem stratum)).

Definition getDimensionsWithOverrideType (type : string) : list SdmxDimension :=
  omap (λ override,
          item_dimensions (catalogItem stratum)
          ?. List.find (λ d,
               strictEq (sdim_id d)
                 (getDimensionWithConceptOrCodelist (text (override_id override))
                  ?. comp_id)))
       (overridesOfType type).

Definition matchRegionType (regionType : option string) : option string :=
  regionType ?. λ regionType,
  regionProviderList (catalogItem stratum) ?. λ getRegionDetails,
  head (getRegionDetails regionType).

(** *** [dimensions] *)

Definition conceptOverrideOf (dim : Component) : option ModelOverride :=
  List.find (λ concept, strictEq (override_id concept) (conceptIdentity dim))
            (modelOverrides (catalogItem stratum)).

Definition codelistOverrideOf (dim : Component) : option ModelOverride :=
  List.find (λ codelist, strictEq (override_id codelist) (comp_enumeration dim))
            (modelOverrides (catalogItem stratum)).

(** [keys.add(value)] on a set kept in insertion order. *)
Definition setAdd (keys : list string) (value : string) : list string :=
  if existsb (String.eqb value) keys then keys else keys ++ [value].

(** The union of the values the constraints allow for [dim]. *)
Definition allowedOptionIds (constraints : option (list ContentConstraint))
    (dim : Component) : option (list string) :=
  foldl (λ keys constraint,
           foldl (λ keys cubeRegion,
                    foldl (λ keys regionKey,
                             foldl setAdd keys (default [] (kv_values regionKey)))
                          keys
                          (List.filter (λ kv, strictEq (kv_id kv) (comp_id dim))
                                       (default [] (keyValues cubeRegion))))
                 keys (default [] (cubeRegions constraint)))
        [] <$> constraints.

Definition asOption (code : Code) : DimensionOption :=
  {| option_id := code_id code; option_name := code_name code |}.

(** The options of [dim]: those of an override, or else the codes of its
    codelist that the constraints allow. *)
Definition dimensionOptions (constraints : option (list ContentConstraint))
    (dim : Component) : option (list DimensionOption) :=
  let codelist := getCodelistByUrn (comp_enumeration dim) in
  let codes :=
    match allowedOptionIds constraints dim with
    | Some (id :: ids) =>
        List.filter (λ code, match code_id code with
                             | Some c => existsb (String.eqb c) (id :: ids)
                             | None => false
                             end)
        <$> codelist ?. codes
    | _ => codelist ?. codes
    end in
  let overrideOptions :=
    (codelistOverrideOf dim ?. override_options)
    ?? (conceptOverrideOf dim ?. override_options) in
  match overrideOptions with
  | Some (option :: options) =>
      Some ((λ option, {| option_id := option_id option;
                          option_name := option_name option |})
              <$> option :: options)
  | _ => fmap (M := list) asOption <$> codes
  end.

(** The callback that maps an enumerated dimension to its traits. *)
Definition dimensionTraits (constraints : option (list ContentConstraint))
    (dim : Component) : Result (option SdmxDimension) :=
  let conceptOverride := conceptOverrideOf dim in
  let codelistOverride := codelistOverrideOf dim in
  let concept := getConceptByUrn (conceptIdentity dim) in
  match dimensionOptions constraints dim with
  | Some options =>
      firstOrNone ←
        (if isTrue ((codelistOverride ?. allowUndefined)
                    ?? (conceptOverride ?. allowUndefined))
         then Ok None
         else match options with
              | first :: _ => Ok (option_id first)
              | [] => Throw TypeError
              end);
      let selectedIdOverride :=
        (codelistOverride ?. selectedId) ?? (conceptOverride ?. selectedId) in
      let selected :=
        match selectedIdOverride with
        | Some _ =>
            if existsb (λ option, strictEq (option_id option) selectedIdOverride)
                       options
            then selectedIdOverride else firstOrNone
        | None => firstOrNone
        end in
      Ok (Some {| sdim_id := comp_id dim;
                  sdim_name := (codelistOverride ?. override_name)
                               ?? (conceptOverride ?. override_name)
                               ?? (concept ?. concept_name);
                  sdim_options := options;
                  sdim_position := comp_position dim;
                  sdim_disable := (codelistOverride ?. disable)
                                  ?? (conceptOverride ?. disable);
                  sdim_allowUndefined := (codelistOverride ?. allowUndefined)
                                         ?? (conceptOverride ?. allowUndefined);
                  sdim_selectedId := selected |})
  | None => Ok None
  end.

Definition isEnumeratedDimension (dim : Component) : bool :=
  truthy (comp_id dim)
  && strictEq (comp_type dim) (Some "Dimension")
  && truthy (comp_enumeration dim).

Definition dimensions : Result (option (list SdmxDimension)) :=
  match components ?. (dl_dimensions ∘ dimensionList) with
  | None | Some [] => Ok None
  | Some dimensionList =>
      let contraints :=
        List.filter (λ c, strictEq (constraint_type c) (Some "Actual"))
        <$> contentConstraints (sdmxJsonDataflow stratum) in
      mapped ← mapM (dimensionTraits contraints)
                    (List.filter isEnumeratedDimension dimensionList);
      Ok (Some (omap id mapped))
  end.

(** *** [modelOverrides] *)

Definition commonConceptOverride (dimAttr : Component) : option ModelOverride :=
  let conceptUrn := parseSdmxUrn (conceptIdentity dimAttr) in
  let concept := conceptUrn ?. descendantIds ?. head in
  let tagged type :=
    Some {| override_id := conceptIdentity dimAttr;
            override_type := Some type;
            override_name := None; regionType := None;
            regionTypeReplacements := None; override_options := None;
            allowUndefined := None; disable := None; selectedId := None |} in
  if strictEq concept (Some "UNIT_MEASURE") then tagged "unit-measure"
  else if strictEq concept (Some "UNIT_MULT") then tagged "unit-multiplier"
  else if strictEq concept (Some "FREQ") then tagged "frequency"
  else None.

Definition stratum_modelOverrides : list ModelOverride :=
  omap commonConceptOverride
       (default [] (components ?. (dl_dimensions ∘ dimensionList))
        ++ default [] (components ?. attributeList ?. attributes)).

(** *** [unitMeasure] *)

(** The dimension or attribute a model override is about. *)
Definition dimOrAttrOf (override : ModelOverride) : option Component :=
  getAttributionWithConceptOrCodelist (text (override_id override))
  ?? getDimensionWithConceptOrCodelist (text (override_id override)).

(** What one override of type unit-measure adds to the unit string. *)
Definition unitMeasureOf (override : ModelOverride) : option string :=
  let dimOrAttr := dimOrAttrOf override in
  let column :=
    if truthy (dimOrAttr ?. comp_id)
    then findColumnByName (catalogItem stratum) (text (dimOrAttr ?. comp_id))
    else None in
  match uniqueValues <$> column with
  | Some [value] =>
      let codelist := getCodelistByUrn (dimOrAttr ?. comp_enumeration) in
      (codelist ?. codes
       ?. List.find (λ c, strictEq (code_id c) (Some value))
       ?. code_name)
      ?? Some value
  | _ => None
  end.

Definition frequencyLabel : option string :=
  let frequencyDim :=
    List.find (λ dim, bool_decide (is_Some (sdim_selectedId dim)))
              (getDimensionsWithOverrideType "frequency") in
  (frequencyDim
   ?. (λ dim, List.find (λ o, strictEq (option_id o) (sdim_selectedId dim))
                        (sdim_options dim))
   ?. option_name)
  ?? (frequencyDim ?. sdim_id).

Definition unitMeasure : string :=
  let unitMeasure := join ", " (omap unitMeasureOf (overridesOfType "unit-measure")) in
  let frequency := frequencyLabel in
  unitMeasure
  +:+ (if truthy frequency then " (" +:+ text frequency +:+ ")" else EmptyString).

(** *** Table columns *)

Definition primaryMeasureColumn : TableColumnTraits :=
  let primaryMeasure := components ?. (primaryMeasure ∘ measureList) in
  let primaryMeasureConcept := getConceptByUrn (primaryMeasure ?. conceptIdentity) in
  let unitMultiplier :=
    head (omap (λ override, dimOrAttrOf override ?. comp_id)
               (overridesOfType "unit-multiplier")) in
  {| column_name := primaryMeasure ?. comp_id;
     column_title := primaryMeasureConcept ?. concept_name;
     column_type := None;
     column_regionType := None;
     transformation :=
       if truthy unitMultiplier
       then Some {| expression := "x*(10^" +:+ text unitMultiplier +:+ ")";
                    dependencies := [text unitMultiplier] |}
       else None |}.

Definition isRegionOverride (override : option ModelOverride) : bool :=
  strictEq (override ?. override_type) (Some "region").

(** The callback that maps a dimension to its column, given the
    [dimensions] of the stratum. *)
Definition dimensionColumn (dimensions : option (list SdmxDimension))
    (dim : Component) : TableColumnTraits :=
  if isTrue (dimensions
             ?. List.find (λ d, strictEq (sdim_id d) (comp_id dim))
             ?. sdim_disable)
  then {| column_name := comp_id dim; column_title := None;
          column_type := Some "hidden"; column_regionType := None;
          transformation := None |}
  else
    let concept := getConceptByUrn (conceptIdentity dim) in
    let codelist := getCodelistByUrn (comp_enumeration dim) in
    let conceptOverride := conceptOverrideOf dim in
    let codelistOverride := codelistOverrideOf dim in
    let regionType0 :=
      matchRegionType (codelistOverride ?. regionType)
      ?? matchRegionType (conceptOverride ?. regionType) in
    let regionType1 :=
      match regionType0 with
      | None =>
          if isRegionOverride codelistOverride || isRegionOverride conceptOverride
          then matchRegionType
                 (List.find (λ d, bool_decide (is_Some (sdim_selectedId d)))
                            (getDimensionsWithOverrideType "region-type")
                  ?. sdim_selectedId)
          else None
      | Some _ => regionType0
      end in
    let regionType2 :=
      match regionType1 with
      | None =>
          matchRegionType (comp_id dim)
          ?? matchRegionType (codelist ?. codelist_name)
          ?? matchRegionType (codelist ?. codelist_id)
          ?? matchRegionType (concept ?. concept_name)
          ?? matchRegionType (concept ?. concept_id)
      | Some _ => regionType1
      end in
    let regionType3 :=
      if isRegionOverride codelistOverride || isRegionOverride conceptOverride
      then
        let replacement :=
          ((codelistOverride ?. regionTypeReplacements)
           ?? (conceptOverride ?. regionTypeReplacements))
          ?. List.find (λ r, strictEq (find r) regionType2)
          ?. replace in
        match replacement with
        | Some _ => replacement
        | None => regionType2
        end
      else regionType2 in
    {| column_name := comp_id dim;
       column_title := concept ?. concept_name;
       column_type := Some match regionType3 with
                           | Some _ => "region"
                           | None => "hidden"
                           end;
       column_regionType := regionType3;
       transformation := None |}.

Definition dimensionColumns : Result (list TableColumnTraits) :=
  match components ?. (dl_dimensions ∘ dimensionList) with
  | Some dims =>
      match List.filter (λ dim, bool_decide (is_Some (comp_id dim))) dims with
      | [] => Ok []
      | dims =>
          dimensions ← dimensions;
          Ok (dimensionColumn dimensions <$> dims)
      end
  | None => Ok []
  end.

Definition timeColumns : list TableColumnTraits :=
  default []
    (fmap (M := list)
       (λ dim, {| column_name := comp_id dim;
                  column_title := (getConceptByUrn (conceptIdentity dim)
                                   ?. concept_name) ?? comp_id dim;
                  column_type := Some "time";
                  column_regionType := None;
                  transformation := None |})
     <$> components ?. (timeDimensions ∘ dimensionList)).

Definition attributeColumns : list TableColumnTraits :=
  default []
    (fmap (M := list)
       (λ attr, {| column_name := comp_id attr; column_title := None;
                   column_type := Some "hidden"; column_regionType := None;
                   transformation := None |})
     <$> components ?. attributeList ?. attributes).

Definition columns : Result (list TableColumnTraits) :=
  dimensionColumns ← dimensionColumns;
  Ok (primaryMeasureColumn :: dimensionColumns ++ timeColumns ++ attributeColumns).

Definition description : option string :=
  dataflow_description (dataflow (sdmxJsonDataflow stratum)).

Definition activeStyle : option string := column_name primaryMeasureColumn.

(** *** [shortReportSections] *)

Definition shortReportSections : option (list ShortReportTraits) :=
  if negb (mapItems (catalogItem stratum) =? 0)%nat || isLoading (catalogItem stratum)
  then None
  else
    let primaryCol :=
      List.find (λ col, strictEq (loaded_name col) (column_name primaryMeasureColumn))
                (tableColumns (catalogItem stratum)) in
    match primaryCol with
    | Some primaryCol =>
        match valuesAsNumbers primaryCol with
        | [Some value] =>
            Some [ {| report_name := unitMeasure;
                      report_content := toLocaleString value (column_format primaryCol) |} ]
        | _ => None
        end
    | None => None
    end.

(** *** [styles] *)

Definition isRegionColumn (col : TableColumnTraits) : bool :=
  strictEq (column_type col) (Some "region").

Definition styles : Result (list TableStyleTraits) :=
  match timeColumns with
  | [] => Throw TypeError
  | firstTimeColumn :: _ =>
      dimensionColumns ← dimensionColumns;
      Ok [ {| style_id := column_name primaryMeasureColumn;
              legendTitle := unitMeasure;
              timeColumn := column_name firstTimeColumn;
              chart :=
                match List.find isRegionColumn dimensionColumns with
                | Some _ => None
                | None =>
                    Some {| xAxisColumn := column_name firstTimeColumn;
                            lines := [ {| line_name := unitMeasure;
                                          yAxisColumn :=
                                            column_name primaryMeasureColumn |} ] |}
                end;
              regionColumn :=
                List.find isRegionColumn dimensionColumns ?. column_name |} ]
  end.

(** *** [featureInfoTemplate] *)

Definition row (title value : string) : string :=
  "<tr><td style=" +:+ quote +:+ "vertical-align: middle" +:+ quote +:+ ">"
  +:+ title +:+ "</td><td>" +:+ value +:+ "</td></tr>".

(** [a || b] on optional strings. *)
Definition firstTruthy (a b : option string) : option string :=
  if truthy a then a else b.

Definition featureInfoTemplate : option string :=
  activeRegionType (catalogItem stratum) ?. λ regionType,
  let times :=
    join ", " ((λ col, row (text (column_title col ?? Some "Time"))
                           ("{{" +:+ text (column_name col) +:+ "}}"))
               <$> timeColumns) in
  let region :=
    row (text (provider_description regionType))
        ("{{" +:+ text (nameProp regionType) +:+ "}}") in
  let selected :=
    text ((λ dims,
             join EmptyString
               ((λ d,
                   let selectedOption :=
                     List.find (λ o, strictEq (option_id o) (sdim_selectedId d))
                               (sdim_options d) in
                   row (text (firstTruthy (sdim_name d) (sdim_id d)))
                       (text ((selectedOption ?. option_name) ?? sdim_selectedId d)))
                <$> List.filter
                      (λ d, truthy (firstTruthy (sdim_name d) (sdim_id d))
                            && negb (isTrue (sdim_disable d))
                            && truthy (sdim_selectedId d))
                      dims))
          <$> sdmxSelectableDimensions (catalogItem stratum)) in
  let primaryMeasureName := unitMeasure in
  let measure :=
    row EmptyString EmptyString
    +:+ row primaryMeasureName
            ("{{#terria.formatNumber}}{useGrouping: true}{{"
             +:+ text (column_name primaryMeasureColumn)
             +:+ "}}{{/terria.formatNumber}}") in
  let timeSeries :=
    match discreteTimes (catalogItem stratum) with
    | Some (S (S _)) =>
        "</table><chart id=" +:+ quote
        +:+ text (sdmx_uniqueId (catalogItem stratum)) +:+ quote
        +:+ " title=" +:+ quote +:+ text (sdmx_name (catalogItem stratum))
        +:+ ": {{" +:+ text (nameProp regionType) +:+ "}}" +:+ quote
        +:+ " x-column=" +:+ quote +:+ "{{terria.timeSeries.xName}}" +:+ quote
        +:+ " y-column=" +:+ quote +:+ unitMeasure +:+ quote
        +:+ " >{{terria.timeSeries.data}}</chart>"
    | _ => EmptyString
    end in
  Some ("<table class=" +:+ quote +:+ "cesium-infoBox-defaultTable" +:+ quote +:+ ">"
        +:+ times +:+ region +:+ selected +:+ measure +:+ timeSeries).

(** All trait values of the stratum. *)
Record SdmxTraitValues : Type := {
  sdmx_description : option string;
  sdmx_shortReportSections : option (list ShortReportTraits);
  sdmx_dimensions : Result (option (list SdmxDimension));
  sdmx_modelOverrides : list ModelOverride;
  sdmx_unitMeasure : string;
  sdmx_columns : Result (list TableColumnTraits);
  sdmx_styles : Result (list TableStyleTraits);
  sdmx_activeStyle : option string;
  sdmx_featureInfoTemplate : option string
}.

Definition SdmxJsonDataflowStratum_traits : SdmxTraitValues :=
  {| sdmx_description := description;
     sdmx_shortReportSections := shortReportSections;
     sdmx_dimensions := dimensions;
     sdmx_modelOverrides := stratum_modelOverrides;
     sdmx_unitMeasure := unitMeasure;
     sdmx_columns := columns;
     sdmx_styles := styles;
     sdmx_activeStyle := activeStyle;
     sdmx_featureInfoTemplate := featureInfoTemplate |}.

End SdmxStratum.

(** [SdmxJsonDataflowStratum.duplicateLoadableStratum(model)]. *)
Definition SdmxJsonDataflowStratum_duplicateLoadableStratum
    (stratum : SdmxJsonDataflowStratum) (model : SdmxJsonCatalogItem)
  : SdmxJsonDataflowStratum :=
  {| catalogItem := model; sdmxJsonDataflow := sdmxJsonDataflow stratum |}.

(** ** Vocabulary for the statements about the SDMX stratum *)

Definition isNonEmptyArray {A : Type} (member : ArrayMember A) : bool :=
  match member with
  | Items (_ :: _) => true
  | _ => false
  end.

Section SdmxVocabulary.
Variable proxyUrl : SdmxJsonCatalogItem → string → string.
Variable parseSdmxUrn : option string → option SdmxUrn.
Variable stratum : SdmxJsonDataflowStratum.

(** The url of the structure request of a catalog item. *)
Definition structureUrl (catalogItem : SdmxJsonCatalogItem) : string :=
  proxyUrl catalogItem
    (text (baseUrl catalogItem) +:+ "/dataflow/"
     +:+ text (agencyId catalogItem) +:+ "/"
     +:+ text (dataflowId catalogItem) +:+ "?references=all").

(** The value the overrides give a member for [dim]: that of the
    codelist-level override when it sets the member, else that of the
    concept-level override. *)
Definition overrideValue {A : Type} (member : ModelOverride → option A)
    (dim : Component) : option A :=
  match codelistOverrideOf stratum dim with
  | Some codelistOverride =>
      match member codelistOverride with
      | Some v => Some v
      | None => conceptOverrideOf stratum dim ?. member
      end
  | None => conceptOverrideOf stratum dim ?. member
  end.

(** The constraints of type "Actual" and the enumerated dimensions, which
    [dimensions] maps to traits. *)
Definition actualConstraints : option (list ContentConstraint) :=
  List.filter (λ c, strictEq (constraint_type c) (Some "Actual"))
  <$> contentConstraints (sdmxJsonDataflow stratum).

Definition enumeratedDimensions : list Component :=
  List.filter isEnumeratedDimension
    (default [] (components stratum ?. (dl_dimensions ∘ dimensionList))).

(** Is [id] the id of one of the options? *)
Definition isOptionId (id : string) (options : list DimensionOption) : Prop :=
  In (Some id) (option_id <$> options).

(** The candidates for the region type of the column of [dim], in the
    order they are tried. *)
Definition regionTypeCandidates (dim : Component) : list (option string) :=
  let codelist := getCodelistByUrn parseSdmxUrn stratum (comp_enumeration dim) in
  let concept := getConceptByUrn parseSdmxUrn stratum (conceptIdentity dim) in
  [ codelistOverrideOf stratum dim ?. regionType;
    conceptOverrideOf stratum dim ?. regionType ]
  ++ (if isRegionOverride (codelistOverrideOf stratum dim)
         || isRegionOverride (conceptOverrideOf stratum dim)
      then [ List.find (λ d, bool_decide (is_Some (sdim_selectedId d)))
                       (getDimensionsWithOverrideType stratum "region-type")
             ?. sdim_selectedId ]
      else [])
  ++ [ comp_id dim;
       codelist ?. codelist_name;
       codelist ?. codelist_id;
       concept ?. concept_name;
       concept ?. concept_id ].

(** The first candidate the region providers match. *)
Definition resolvedRegionType (dim : Component) : option string :=
  head (omap (matchRegionType stratum) (regionTypeCandidates dim)).

(** The replacement a list of find/replace aliases gives a region type. *)
Definition aliasOf (replacements : option (list RegionTypeReplacement))
    (regionType : option string) : option string :=
  match replacements ?. List.find (λ r, strictEq (find r) regionType) ?. replace with
  | Some replacement => Some replacement
  | None => regionType
  end.

(** The column of [dim] as the specification describes it: the resolved
    region type with the aliases of its overrides applied. *)
Definition claimedRegionType (dim : Component) : option string :=
  aliasOf (overrideValue regionTypeReplacements dim) (resolvedRegionType dim).

(** The same, with the aliases applied only under an override of type
    region, as the code does. *)
Definition aliasedRegionType (dim : Component) : option string :=
  if isRegionOverride (codelistOverrideOf stratum dim)
     || isRegionOverride (conceptOverrideOf stratum dim)
  then claimedRegionType dim
  else resolvedRegionType dim.

(** The table column a model override is about, and the label the
    codelist of its dimension or attribute gives a value. *)
Definition columnOf (override : ModelOverride) : option TableColumn :=
  dimOrAttrOf stratum override ?. λ dimOrAttr,
  if truthy (comp_id dimOrAttr)
  then findColumnByName (catalogItem stratum) (text (comp_id dimOrAttr))
  else None.

Definition labelOf (override : ModelOverride) (value : string) : option string :=
  getCodelistByUrn parseSdmxUrn stratum
    (dimOrAttrOf stratum override ?. comp_enumeration)
  ?. codes
  ?. List.find (λ c, strictEq (code_id c) (Some value))
  ?. code_name.

(** The frequency dimension: the first dimension under an override of type
    frequency that has a selected option. *)
Definition frequencyDimension : option SdmxDimension :=
  List.find (λ dim, bool_decide (is_Some (sdim_selectedId dim)))
            (getDimensionsWithOverrideType stratum "frequency").

Definition selectedOption (dim : SdmxDimension) : option DimensionOption :=
  List.find (λ o, strictEq (option_id o) (sdim_selectedId dim)) (sdim_options dim).

(** The dimensions of the data structure that get a column. *)
Definition columnDimensions : list Component :=
  List.filter (λ dim, bool_decide (is_Some (comp_id dim)))
    (default [] (components stratum ?. (dl_dimensions ∘ dimensionList))).

(** Is the dimension disabled in the [dimensions] of the stratum? *)
Definition isDisabled (dimensions : option (list SdmxDimension))
    (dim : Component) : bool :=
  isTrue (dimensions
          ?. List.find (λ d, strictEq (sdim_id d) (comp_id dim))
          ?. sdim_disable).

End SdmxVocabulary.

(** ** Trait values of the loaded strata *)

Record RectangleTraits : Type := {
  west : Z; south : Z; east : Z; north : Z
}.

Record InfoSectionTraits : Type := {
  info_name : option string;
  info_content : option string
}.

Section PortalItemStratum.
Context {RegExp : Type}.
Variable env : Collaborators.

(** The reference objects, by address. *)
Variable deref : Handle → ArcGisPortalItemReference RegExp.

Variable stratum : ArcGisPortalItemStratum.

Definition arcgisPortalItem : option ArcGisItem :=
  _arcgisItem (deref (arcgisPortalItemReference stratum)).

Definition portalItemUrl : option string :=
  match arcgisPortalItem,
        _portalRootUrl (deref (arcgisPortalItemReference stratum)) with
  | Some item, Some root => Some (uriItemPage env root (item_id item))
  | _, _ => None
  end.

Definition PortalItemStratum_url : option string :=
  arcgisPortalItem ?. λ item,
  if String.eqb (item_type item) "Scene Service"
  then Some ("/i3s-to-3dtiles/" +:+ item_url item)
  else Some (item_url item).

Definition PortalItemStratum_name : option string :=
  item_title <$> arcgisPortalItem.

Definition PortalItemStratum_description : option string :=
  (λ item, DOMPurify_sanitize env (item_description item)) <$> arcgisPortalItem.

Definition PortalItemStratum_rectangle : option RectangleTraits :=
  arcgisPortalItem ?. item_extent ?. λ extent,
  Some {| west := extent.1.1; south := extent.1.2;
          east := extent.2.1; north := extent.2.2 |}.

Definition PortalItemStratum_info : list InfoSectionTraits :=
  match arcgisPortalItem with
  | None => []
  | Some item =>
      match item_licenseInfo item with
      | Some licenseInfo =>
          [ {| info_name := Some (i18next_t env "models.arcgisPortal.licence");
               info_content := Some (DOMPurify_sanitize env licenseInfo) |} ]
      | None => []
      end
      ++ [ {| info_name := Some (i18next_t env "models.arcgisPortal.openInPortal");
              info_content :=
                Some ("<a href=" +:+ quote +:+ text portalItemUrl
                      +:+ quote +:+ "><button>"
                      +:+ i18next_t env "models.arcgisPortal.openInPortal"
                      +:+ "</button></a>") |} ]
  end.

(** All trait values of the stratum. *)
Record ArcGisPortalItemTraitValues : Type := {
  portal_url : option string;
  portal_name : option string;
  portal_description : option string;
  portal_rectangle : option RectangleTraits;
  portal_info : list InfoSectionTraits
}.

Definition PortalItemStratum_traits : ArcGisPortalItemTraitValues :=
  {| portal_url := PortalItemStratum_url;
     portal_name := PortalItemStratum_name;
     portal_description := PortalItemStratum_description;
     portal_rectangle := PortalItemStratum_rectangle;
     portal_info := PortalItemStratum_info |}.

End PortalItemStratum.

(** [ArcGisPortalItemStratum.duplicateLoadableStratum(newModel)]. *)
Definition PortalItemStratum_duplicateLoadableStratum
    (stratum : ArcGisPortalItemStratum) (newModel : Model)
  : ArcGisPortalItemStratum :=
  {| arcgisPortalItemReference := arcgisPortalItemReference stratum;
     arcgisPortalCatalogGroup := arcgisPortalCatalogGroup stratum |}.

(** ** The ImageServer stratum *)

Record SpatialReference : Type := {
  wkid : option Z;
  latestWkid : option Z
}.

Record Extent : Type := {
  xmin : Z; ymin : Z; xmax : Z; ymax : Z;
  spatialReference : option SpatialReference
}.

(** [ImageServer] of [ArcGisInterfaces], the members read here. *)
Record ImageServer : Type := {
  capabilities : option string;
  server_name : option string;
  maxScale : option Z;
  fullExtent : option Extent;
  serviceDescription : option string;
  server_description : option string;
  copyrightText : option string
}.

(** The [ArcGisImageServerCatalogItem] as [load] reads it. *)
Record ArcGisImageServerCatalogItem : Type := {
  image_url : option string;
  uri : option string;
  tokenUrl : option string;
  proj4ServiceBaseUrl : option string
}.

Record ImageServerStratum : Type := {
  _item : ArcGisImageServerCatalogItem;
  imageServer : ImageServer;
  _token : option string
}.

(** Collaborators of the ImageServer item.  [serviceUrl item token] is the
    proxied url of [getBaseURI(item)] with the token and [f=json] added;
    [loadJson_ImageServer] answers [None] for a [null] document. *)
Record ImageServerCollaborators : Type := {
  image_t : string → string;
  getToken : string → option string → Result string;
  serviceUrl : ArcGisImageServerCatalogItem → option string → string;
  loadJson_ImageServer : string → Result (option ImageServer);
  checkProjection : string → string → Result unit;
  replaceUnderscores : option string → option string;
  getRectangleFromLayer : option Extent → RectangleTraits
}.

Section ImageServer.
Variable env : ImageServerCollaborators.

(** [getJson(item, uri)]: a failed request gives [undefined]. *)
Definition getJson (url : string) : option ImageServer :=
  match loadJson_ImageServer env url with
  | Ok response => response
  | Throw _ => None
  end.

Definition showZ (n : option Z) : string :=
  match n with
  | Some n => (if (n <? 0)%Z then "-" else EmptyString) +:+ pretty (Z.abs_N n)
  | None => "undefined"
  end.

(** Lines 76-79 of [load]: the token, when the item has a token url. *)
Definition acquireToken (item : ArcGisImageServerCatalogItem)
  : Result (option string) :=
  match tokenUrl item with
  | Some tokenUrl =>
      token ← getToken env tokenUrl (image_url item);
      Ok (Some token)
  | None => Ok None
  end.

(** [ImageServerStratum.load(item)]. *)
Definition ImageServerStratum_load (item : ArcGisImageServerCatalogItem)
  : Result ImageServerStratum :=
  match uri item with
  | None =>
      Throw (TerriaError
               (image_t env "models.arcGisImageServerCatalogItem.invalidUrlTitle")
               (image_t env "models.arcGisImageServerCatalogItem.invalidUrlMessage"))
  | Some _ =>
      token ← acquireToken item;
      match getJson (serviceUrl env item token) with
      | None =>
          Throw (NetworkRequestError
                   (image_t env "models.arcGisService.invalidServerTitle")
                   (image_t env "models.arcGisService.invalidServerMessage"))
      | Some serviceMetadata =>
          if negb (default false
                     ((λ c, includes c "Image") <$> capabilities serviceMetadata))
          then
            Throw (TerriaError
                     (image_t env "models.arcGisImageServerCatalogItem.invalidServiceTitle")
                     (image_t env "models.arcGisImageServerCatalogItem.invalidServiceMessage"))
          else
            let stratum := {| _item := item; imageServer := serviceMetadata;
                              _token := token |} in
            if truthy (proj4ServiceBaseUrl item)
            then
              match fullExtent serviceMetadata with
              | None => Throw TypeError
              | Some fullExtent =>
                  checkProjection env (text (proj4ServiceBaseUrl item))
                    ("EPSG:" +:+ showZ (spatialReference fullExtent ?. latestWkid));;
                  Ok stratum
              end
            else Ok stratum
      end
  end.

Record ImageServerTraitValues : Type := {
  image_maximumScale : option Z;
  image_name : option string;
  image_rectangle : RectangleTraits;
  image_info : list InfoSectionTraits;
  image_attribution : option string;
  image_token : option string
}.

Definition ImageServerStratum_traits (stratum : ImageServerStratum)
  : ImageServerTraitValues :=
  {| image_maximumScale := maxScale (imageServer stratum);
     image_name := replaceUnderscores env (server_name (imageServer stratum));
     image_rectangle := getRectangleFromLayer env (fullExtent (imageServer stratum));
     image_info :=
       [ {| info_name :=
              Some (image_t env "models.arcGisImageServerCatalogItem.serviceDescription");
            info_content := serviceDescription (imageServer stratum) |};
         {| info_name :=
              Some (image_t env "models.arcGisImageServerCatalogItem.description");
            info_content := server_description (imageServer stratum) |} ];
     image_attribution := copyrightText (imageServer stratum);
     image_token := _token stratum |}.

End ImageServer.

(** [ImageServerStratum.duplicateLoadableStratum(newModel)]. *)
Definition ImageServerStratum_duplicateLoadableStratum
    (stratum : ImageServerStratum) (newModel : ArcGisImageServerCatalogItem)
  : ImageServerStratum :=
  {| _item := newModel;
     imageServer := imageServer stratum;
     _token := _token stratum |}.

(** ** Resolved trait values *)

(** Modelled from the spec: the trait resolution engine of [CreateModel]
    and [StratumOrder] (section 4.1).  [stratumOrder] lists the stratum names
    from lowest to highest priority; the resolved value of a trait is its
    value in the highest-priority stratum that defines it. *)
Definition resolve {S V : Type} (stratumOrder : list string)
    (strata : gmap string S) (trait : S → option V) : option V :=
  head (omap (λ name, strata !! name ≫= trait) (reverse stratumOrder)).

(** Modelled from the spec: a list-valued trait accumulates the values of
    all strata in ascending priority, unless a stratum replaces what the
    strata below it gave ([trait] returns the values and that flag). *)
Definition resolveList {S V : Type} (stratumOrder : list string)
    (strata : gmap string S) (trait : S → option (list V * bool)) : list V :=
  foldl (λ values name,
           match strata !! name ≫= trait with
           | Some (own, true) => own
           | Some (own, false) => values ++ own
           | None => values
           end)
        [] stratumOrder.

(** Two catalog items that give the stratum the same readings. *)
Definition sameReadings (a b : SdmxJsonCatalogItem) : Prop :=
  sdmx_uniqueId a = sdmx_uniqueId b
  ∧ sdmx_name a = sdmx_name b
  ∧ baseUrl a = baseUrl b
  ∧ agencyId a = agencyId b
  ∧ dataflowId a = dataflowId b
  ∧ modelOverrides a = modelOverrides b
  ∧ item_dimensions a = item_dimensions b
  ∧ sdmxSelectableDimensions a = sdmxSelectableDimensions b
  ∧ mapItems a = mapItems b
  ∧ isLoading a = isLoading b
  ∧ tableColumns a = tableColumns b
  ∧ (∀ name, findColumnByName a name = findColumnByName b name)
  ∧ activeRegionType a = activeRegionType b
  ∧ discreteTimes a = discreteTimes b
  ∧ match regionProviderList a, regionProviderList b with
    | Some f, Some g => ∀ name, f name = g name
    | None, None => True
    | _, _ => False
    end.

(** The stratum order of the examples. *)
Definition exampleStratumOrder : list string :=
  ["defaults"; "definition"; "sdmxJsonDataflow"; "user"; "override"].

(** ** Vocabulary for further statements *)

(** A non-empty string of decimal digits, such as a layer id. *)
Fixpoint allDigits (s : string) : bool :=
  match s with
  | EmptyString => true
  | String c s' => PatternRegExp.isDigit c && allDigits s'
  end.

Definition isLayerNumber (s : string) : bool :=
  match s with
  | EmptyString => false
  | String _ _ => allDigits s
  end.

(** What resolution leaves alone in a reference: its identity, its catalog
    group, its unique id, its format rules and its item properties. *)
Definition sameIdentity {RegExp : Type} (r r' : ArcGisPortalItemReference RegExp)
  : Prop :=
  this r' = this r
  ∧ _arcgisPortalCatalogGroup r' = _arcgisPortalCatalogGroup r
  ∧ uniqueId r' = uniqueId r
  ∧ supportedFormats r' = supportedFormats r
  ∧ itemProperties r' = itemProperties r.

(** The portal stratum [load] makes for a reference. *)
Definition portalStratumOf {RegExp : Type} (r : ArcGisPortalItemReference RegExp)
  : Stratum :=
  PortalItemStratum
    {| arcgisPortalItemReference := this r;
       arcgisPortalCatalogGroup := _arcgisPortalCatalogGroup r |}.

(** ** The ImageServer legend stratum and the imagery provider *)

(** [Legends] of [ArcGisInterfaces], the members read here. *)
Record LegendEntry : Type := {
  label : string;
  contentType : string;
  imageData : string;
  legend_width : option Z;
  legend_height : option Z
}.

Record LegendLayer : Type := {
  layerName : string;
  legend : option (list LegendEntry)
}.

Record Legends : Type := {
  legend_layers : option (list LegendLayer)
}.

(** [LegendItemTraits], the traits set by the stratum. *)
Record LegendItemTraits : Type := {
  legend_title : string;
  imageUrl : string;
  imageWidth : option Z;
  imageHeight : option Z
}.

Record LegendTraits : Type := {
  legend_items : list LegendItemTraits
}.

Record ImageServerLegendStratum : Type := {
  legend_item : ArcGisImageServerCatalogItem;
  _legends : option Legends
}.

(** [uniqWith(array, comparator)] of lodash: an element is kept unless an
    element kept before it compares equal. *)
Definition uniqWith {A : Type} (comparator : A → A → bool) (array : list A)
  : list A :=
  foldl (λ kept a, if existsb (λ b, comparator b a) kept then kept else kept ++ [a])
        [] array.

Section ImageServerLegend.

(** Collaborators: translation; the proxied url of the legend request,
    [getBaseURI(item).segment("legend")] with the parameters, the token and
    [f=json] added; the request; [replaceUnderscores] on a string; and the
    tests of the regular expressions [/^No[\s_-]?Data$/i] and [/_Labels$/]. *)
Variable t : string → string.
Variable legendUrl : ArcGisImageServerCatalogItem → string.
Variable loadJson_Legends : string → Result (option Legends).
Variable replaceUnderscoresIn : string → string.
Variable noDataRegex_test : string → bool.
Variable labelsRegex_test : string → bool.

(** [ImageServerLegendStratum.load(item)]. *)
Definition ImageServerLegendStratum_load (item : ArcGisImageServerCatalogItem)
  : Result ImageServerLegendStratum :=
  match uri item with
  | None =>
      Throw (TerriaError
               (t "models.arcGisImageServerCatalogItem.invalidUrlTitle")
               (t "models.arcGisImageServerCatalogItem.invalidUrlMessage"))
  | Some _ =>
      let legendMetadata :=
        match loadJson_Legends (legendUrl item) with
        | Ok response => response
        | Throw _ => None
        end in
      Ok {| legend_item := item; _legends := legendMetadata |}
  end.

(** The legend item of one entry of a layer. *)
Definition legendItemOf (l : LegendLayer) (leg : LegendEntry) : LegendItemTraits :=
  {| legend_title :=
       replaceUnderscoresIn
         (if negb (String.eqb (label leg) EmptyString) then label leg
          else layerName l);
     imageUrl := "data:" +:+ contentType leg +:+ ";base64," +:+ imageData leg;
     imageWidth := legend_width leg;
     imageHeight := legend_height leg |}.

(** The items of one layer: none when a regular expression matches its
    name. *)
Definition layerItems (l : LegendLayer) : list LegendItemTraits :=
  if noDataRegex_test (layerName l) || labelsRegex_test (layerName l) then []
  else legendItemOf l <$> default [] (legend l).

(** The items pushed by the two nested [forEach] loops. *)
Definition pushedLegendItems (layers : list LegendLayer) : list LegendItemTraits :=
  foldl (λ items l,
           if noDataRegex_test (layerName l) || labelsRegex_test (layerName l)
           then items
           else foldl (λ items leg, items ++ [legendItemOf l leg])
                      items (default [] (legend l)))
        [] layers.

(** The [legends] trait of the stratum. *)
Definition ImageServerLegendStratum_legends (stratum : ImageServerLegendStratum)
  : list LegendTraits :=
  let items :=
    pushedLegendItems (default [] (_legends stratum ?. legend_layers)) in
  [ {| legend_items :=
         uniqWith (λ a b, String.eqb (imageUrl a) (imageUrl b)) items |} ].

End ImageServerLegend.

(** [ImageServerLegendStratum.duplicateLoadableStratum(newModel)]. *)
Definition ImageServerLegendStratum_duplicateLoadableStratum
    (stratum : ImageServerLegendStratum) (newModel : ArcGisImageServerCatalogItem)
  : ImageServerLegendStratum :=
  {| legend_item := newModel; _legends := _legends stratum |}.

(** The tiling scheme of an imagery provider. *)
Inductive TilingScheme : Type :=
| WebMercatorTilingScheme
| GeographicTilingScheme.

(** The members of the item that [_createImageryProvider] reads: resolved
    traits and the [flattenedParameters] of the item. *)
Record ImageServerItemTraits : Type := {
  traits_url : option string;
  traits_wkid : option Z;
  traits_maximumScale : option Z;
  traits_tileHeight : option Z;
  traits_tileWidth : option Z;
  traits_allowFeaturePicking : bool;
  traits_token : option string;
  traits_attribution : option string;
  flattenedParameters : list (string * Json)
}.

(** The options given to [new ArcGisImageServerImageryProvider]. *)
Record ImageryProviderOptions : Type := {
  provider_url : string;
  tilingScheme : TilingScheme;
  maximumLevel : option Z;
  tileHeight : option Z;
  tileWidth : option Z;
  parameters : list (string * Json);
  enablePickFeatures : bool;
  provider_token : option string;
  credit : string
}.

(** [object[key] = value] on the members of an object: an existing member
    keeps its place. *)
Fixpoint setMember {A : Type} (key : string) (value : A)
    (members : list (string * A)) : list (string * A) :=
  match members with
  | [] => [(key, value)]
  | (k, v) :: rest =>
      if String.eqb k key then (k, value) :: rest
      else (k, v) :: setMember key value rest
  end.

(** [this.wkid === n]. *)
Definition wkidIs (item : ImageServerItemTraits) (n : Z) : bool :=
  match traits_wkid item with
  | Some wkid => (wkid =? n)%Z
  | None => false
  end.

Section ImageryProvider.

(** Collaborators: [cleanAndProxyUrl], [scaleDenominatorToLevel(scale, true,
    false)] and [TerriaError.from] on a message. *)
Variable cleanAndProxyUrl : string → string.
Variable scaleDenominatorToLevel : option Z → option Z.
Variable TerriaError_from : string → Error.

Definition _createImageryProvider (item : ImageServerItemTraits)
    (time : option string) : Result (option ImageryProviderOptions) :=
  match traits_url item with
  | None => Ok None
  | Some url =>
      let params :=
        match time with
        | Some time =>
            if negb (String.eqb time EmptyString)
            then setMember "time" (JString time) (flattenedParameters item)
            else flattenedParameters item
        | None => flattenedParameters item
        end in
      let maximumLevel := scaleDenominatorToLevel (traits_maximumScale item) in
      tilingScheme ←
        (if wkidIs item 102100 || wkidIs item 102113
         then Ok WebMercatorTilingScheme
         else if wkidIs item 4326
         then Ok GeographicTilingScheme
         else
           Throw (TerriaError_from
                    ("Tile spatial reference WKID "
                     +:+ showZ (traits_wkid item) +:+ " is not supported.")));
      Ok (Some {| provider_url := cleanAndProxyUrl url;
                  tilingScheme := tilingScheme;
                  maximumLevel := maximumLevel;
                  tileHeight := traits_tileHeight item;
                  tileWidth := traits_tileWidth item;
                  parameters := params;
                  enablePickFeatures := traits_allowFeaturePicking item;
                  provider_token := traits_token item;
                  credit := default EmptyString (traits_attribution item) |})
  end.

End ImageryProvider.

(** ** More vocabulary for the SDMX stratum *)

(** A step that adds to a set kept in insertion order the values [S x]. *)
Definition adds {X : Type} (S : X → string → Prop)
    (step : list string → X → list string) : Prop :=
  ∀ keys x,
    (NoDup keys → NoDup (step keys x))
    ∧ ∀ v, In v (step keys x) ↔ In v keys ∨ S x v.

(** Is [value] listed for [dim] by one of the constraints? *)
Definition listedBy (constraints : list ContentConstraint) (dim : Component)
    (value : string) : Prop :=
  ∃ constraint cubeRegion regionKey,
    In constraint constraints
    ∧ In cubeRegion (default [] (cubeRegions constraint))
    ∧ In regionKey (default [] (keyValues cubeRegion))
    ∧ strictEq (kv_id regionKey) (comp_id dim) = true
    ∧ In value (default [] (kv_values regionKey)).


(** ** The WMS group: the layers of a GetCapabilities response *)

(** The bounding boxes of a layer, as [xml2json] gives them. *)
Record GeographicBoundingBox : Type := {
  westBoundLongitude : option string;
  southBoundLatitude : option string;
  eastBoundLongitude : option string;
  northBoundLatitude : option string
}.

Record LatLonBox : Type := {
  minx : option string;
  miny : option string;
  maxx : option string;
  maxy : option string
}.

(** A layer of the capabilities document.  [xml2json] gives the member
    [Layer] as an object for one sub-layer and as an array for several;
    [addLayersRecursively] wraps the object into an array first, and so does
    this type. *)
#[local] Unset Elimination Schemes.
Inductive WmsLayer : Type := mkWmsLayer {
  Title : option string;
  Name : option string;
  Abstract : option string;
  queryable : option Json;
  EX_GeographicBoundingBox : option GeographicBoundingBox;
  LatLonBoundingBox : option LatLonBox;
  Layer : option (list WmsLayer)
}.
#[local] Set Elimination Schemes.

(** The members of the group that the functions read. *)
Record WebMapServiceGroupViewModel : Type := {
  wms_url : string;
  wms_description : option string;
  wms_dataCustodian : option string
}.

(** The members of a [WebMapServiceDataSourceViewModel] that
    [createWmsDataSource] sets. *)
Record WebMapServiceDataSourceViewModel (Rectangle : Type) : Type := {
  source_name : option string;
  source_description : string;
  source_dataCustodian : option string;
  source_url : string;
  source_layers : option string;
  getFeatureInfoAsGeoJson : Json;
  getFeatureInfoAsXml : Json;
  source_rectangle : option Rectangle
}.
Arguments source_name {Rectangle} _.
Arguments source_description {Rectangle} _.
Arguments source_dataCustodian {Rectangle} _.
Arguments source_url {Rectangle} _.
Arguments source_layers {Rectangle} _.
Arguments getFeatureInfoAsGeoJson {Rectangle} _.
Arguments getFeatureInfoAsXml {Rectangle} _.
Arguments source_rectangle {Rectangle} _.

(** Truthiness of a JavaScript value, and [a && b]. *)
Definition truthyJson (v : Json) : bool :=
  match v with
  | JNull => false
  | JBool b => b
  | JNumber n => negb (n =? 0)%Z
  | JString s => negb (String.eqb s EmptyString)
  | JArray _ | JObject _ => true
  end.

Definition andJs (a b : Json) : Json := if truthyJson a then b else a.

(** [defined(s) && s.length > 0]. *)
Definition nonEmpty (s : option string) : bool :=
  match s with
  | Some s => negb (String.eqb s EmptyString)
  | None => false
  end.

(** [getInheritableProperty(layer, name)]: [layer] is given with its chain
    of parents, nearest first, which the loop walks through [layer.parent]. *)
Fixpoint getInheritableProperty {A : Type} (layer : list WmsLayer)
    (name : WmsLayer → option A) : option A :=
  match layer with
  | [] => None
  | layer :: parent =>
      match name layer with
      | Some value => Some value
      | None => getInheritableProperty parent name
      end
  end.

Section WebMapServiceGroup.

(** [Rectangle.fromDegrees] of Cesium. *)
Context {Rectangle : Type}.
Variable Rectangle_fromDegrees :
  option string → option string → option string → option string → Rectangle.

Variable viewModel : WebMapServiceGroupViewModel.

(** [createWmsDataSource(viewModel, layer, supportsJsonGetFeatureInfo,
    dataCustodian)], for a layer given with its parents. *)
Definition createWmsDataSource (layer : WmsLayer) (parent : list WmsLayer)
    (supportsJsonGetFeatureInfo : bool) (dataCustodian : option string)
  : WebMapServiceDataSourceViewModel Rectangle :=
  let viewModelHasDescription := nonEmpty (wms_description viewModel) in
  let layerHasAbstract := nonEmpty (Abstract layer) in
  let description := EmptyString in
  let description :=
    if viewModelHasDescription
    then description +:+ default EmptyString (wms_description viewModel)
    else description in
  let description :=
    if viewModelHasDescription && layerHasAbstract
    then description +:+ "<br/>" else description in
  let description :=
    if layerHasAbstract
    then description +:+ default EmptyString (Abstract layer)
    else description in
  let queryable :=
    default (JBool false) (getInheritableProperty (layer :: parent) queryable) in
  let rectangle :=
    match getInheritableProperty (layer :: parent) EX_GeographicBoundingBox with
    | Some egbb =>
        Some (Rectangle_fromDegrees (westBoundLongitude egbb)
                (southBoundLatitude egbb) (eastBoundLongitude egbb)
                (northBoundLatitude egbb))
    | None =>
        match getInheritableProperty (layer :: parent) LatLonBoundingBox with
        | Some llbb =>
            Some (Rectangle_fromDegrees (minx llbb) (miny llbb) (maxx llbb)
                    (maxy llbb))
        | None => None
        end
    end in
  {| source_name := Title layer;
     source_description := description;
     source_dataCustodian := dataCustodian;
     source_url := wms_url viewModel;
     source_layers := Name layer;
     getFeatureInfoAsGeoJson := andJs queryable (JBool supportsJsonGetFeatureInfo);
     getFeatureInfoAsXml := queryable;
     source_rectangle := rectangle |}.

(** The body of the loop of [addLayersRecursively] for one layer; [items] is
    the array that the sources are pushed to. *)
Fixpoint addLayer (supportsJsonGetFeatureInfo : bool)
    (dataCustodian : option string) (parent : list WmsLayer)
    (items : list (WebMapServiceDataSourceViewModel Rectangle))
    (layer : WmsLayer) {struct layer}
  : list (WebMapServiceDataSourceViewModel Rectangle) :=
  match Layer layer with
  | Some layers =>
      let items :=
        if nonEmpty (Name layer)
        then items ++ [createWmsDataSource layer parent supportsJsonGetFeatureInfo
                         dataCustodian]
        else items in
      fold_left (addLayer supportsJsonGetFeatureInfo dataCustodian (layer :: parent))
                layers items
  | None =>
      items ++ [createWmsDataSource layer parent supportsJsonGetFeatureInfo
                  dataCustodian]
  end.

(** [addLayersRecursively(viewModel, layers, items, parent,
    supportsJsonGetFeatureInfo, dataCustodian)]. *)
Definition addLayersRecursively (layers : list WmsLayer)
    (items : list (WebMapServiceDataSourceViewModel Rectangle))
    (parent : list WmsLayer) (supportsJsonGetFeatureInfo : bool)
    (dataCustodian : option string)
  : list (WebMapServiceDataSourceViewModel Rectangle) :=
  fold_left (addLayer supportsJsonGetFeatureInfo dataCustodian parent) layers items.

(** The sources of a layer: its own source, when it has no sub-layers or a
    name, before those of its sub-layers. *)
Fixpoint layerSources (supportsJsonGetFeatureInfo : bool)
    (dataCustodian : option string) (parent : list WmsLayer) (layer : WmsLayer)
    {struct layer}
  : list (WebMapServiceDataSourceViewModel Rectangle) :=
  match Layer layer with
  | Some layers =>
      (if nonEmpty (Name layer)
       then [createWmsDataSource layer parent supportsJsonGetFeatureInfo
               dataCustodian]
       else [])
      ++ flat_map (layerSources supportsJsonGetFeatureInfo dataCustodian
                     (layer :: parent)) layers
  | None =>
      [createWmsDataSource layer parent supportsJsonGetFeatureInfo dataCustodian]
  end.

End WebMapServiceGroup.

(** ** Concrete inputs *)

(** The prepared default rule "ArcGIS FeatureServer" (single layer). *)
Definition featureServerFormat : PreparedSupportedFormat (option PatternRegExp.Pattern) :=
  prepareSupportedFormat
    (format "ArcGIS FeatureServer" "Feature Service"
            (Some "FeatureServer\/\d") "esri-featureServer").

(** A single feature layer of a feature service. *)
Definition layer3 : ArcGisItem :=
  {| item_id := "0123abcd";
     item_type := "Feature Service";
     item_url := "https://example.com/arcgis/rest/services/Foo/FeatureServer/3";
     item_title := "Foo";
     item_description := "A feature layer";
     item_extent := None;
     item_licenseInfo := None;
     item_typeKeywords := ["ArcGIS Server"; "Data"; "Feature Service"] |}.


(** Collaborators for the examples: a portal at [https://portal.example.com]
    that serves one item and one [/data] response, a proxy that leaves urls
    alone, and a factory that knows the target types of the default rules. *)
Definition examplePortal (item : ArcGisItem) (info : Result ArcGisItemInfo)
  : Collaborators :=
  {| loadJson_ArcGisItem url :=
       if String.eqb url
            ("https://portal.example.com/sharing/rest/content/items/"
             +:+ item_id item +:+ "?f=json")
       then Ok item else Throw RequestFailed;
     loadJson_ArcGisItemInfo url :=
       if String.eqb url
            ("https://portal.example.com/sharing/rest/content/items/"
             +:+ item_id item +:+ "/data?f=json")
       then info else Throw RequestFailed;
     uriSegmentJson base path := default "undefined" base +:+ path +:+ "?f=json";
     uriItemPage root id := root +:+ "/home/item.html?id=" +:+ id;
     proxyCatalogItemUrl url cacheDuration := url;
     CatalogMemberFactory_create type id :=
       match type with
       | Some (JString type) =>
           if existsb (String.eqb type)
                ["3d-tiles"; "wms"; "esri-mapServer-group"; "esri-mapServer";
                 "esri-featureServer-group"; "esri-featureServer"; "kml"]
           then Some {| model_type := type; model_uniqueId := id;
                        model_strata := ∅ |}
           else None
       | _ => None
       end;
     i18next_t key := key;
     DOMPurify_sanitize html := html |}.

(** A freshly constructed reference to the item [id] of that portal. *)
Definition exampleReference (id : string)
  : ArcGisPortalItemReference (option PatternRegExp.Pattern) :=
  {| this := 1%positive;
     uniqueId := Some ("portal/" +:+ id);
     url := Some "https://portal.example.com";
     itemId := Some id;
     supportedFormats := defaultSupportedFormats;
     itemProperties := None;
     strata := ∅;
     _arcgisItem := None;
     _arcgisPortalCatalogGroup := None;
     _supportedFormat := None;
     _portalRootUrl := None |}.

(** A tiled map service whose url is its WMTS endpoint. *)
Definition tiledBasemap : ArcGisItem :=
  {| item_id := "7e57ab1e";
     item_type := "Map Service";
     item_url := "https://tiles.example.com/arcgis/rest/services/Basemap/MapServer/WMTS";
     item_title := "Basemap";
     item_description := "Cached basemap";
     item_extent := None;
     item_licenseInfo := None;
     item_typeKeywords := ["ArcGIS Server"; "Map Service"; "Tiled"] |}.

(** A tiled map service published at its service root. *)
Definition tiledService : ArcGisItem :=
  {| item_id := "5e41ce00";
     item_type := "Map Service";
     item_url := "https://tiles.example.com/arcgis/rest/services/Topo/MapServer";
     item_title := "Topo";
     item_description := "Cached topographic map";
     item_extent := Some ((112, -44), (154, -9))%Z;
     item_licenseInfo := Some "CC-BY";
     item_typeKeywords := ["ArcGIS Server"; "Map Service"; "Tiled"] |}.

(** A feature service published at its service root. *)
Definition featureService : ArcGisItem :=
  {| item_id := "fea70000";
     item_type := "Feature Service";
     item_url := "https://example.com/arcgis/rest/services/Foo/FeatureServer";
     item_title := "Foo";
     item_description := "A feature service";
     item_extent := None;
     item_licenseInfo := None;
     item_typeKeywords := ["ArcGIS Server"; "Data"; "Feature Service"] |}.

(** An item of a type no default rule knows. *)
Definition webMap : ArcGisItem :=
  {| item_id := "0eb0a900";
     item_type := "Web Map";
     item_url := "https://example.com/home/webmap/viewer.html";
     item_title := "A web map";
     item_description := "Roads and places";
     item_extent := None;
     item_licenseInfo := None;
     item_typeKeywords := ["Map"; "Web Map"] |}.

Definition mapServerFormat : PreparedSupportedFormat (option PatternRegExp.Pattern) :=
  prepareSupportedFormat
    (format "ArcGIS MapServer" "Map Service" (Some "MapServer\/\d") "esri-mapServer").

Definition mapServerGroupFormat
  : PreparedSupportedFormat (option PatternRegExp.Pattern) :=
  prepareSupportedFormat
    (format "ArcGIS MapServer Group" "Map Service"
            (Some "MapServer$|MapServer/$") "esri-mapServer-group").

Definition featureServerGroupFormat
  : PreparedSupportedFormat (option PatternRegExp.Pattern) :=
  prepareSupportedFormat
    (format "ArcGIS FeatureServer Group" "Feature Service"
            (Some "FeatureServer$|FeatureServer/$") "esri-featureServer-group").

(** The portal serves the tiled basemap; its [/data] endpoint is blank. *)
Definition basemapPortal : Collaborators :=
  examplePortal tiledBasemap (Throw RequestFailed).

Definition basemapReference := exampleReference (item_id tiledBasemap).

(** The portal serves the tiled service; its [/data] endpoint is blank. *)
Definition topoPortal : Collaborators :=
  examplePortal tiledService (Throw RequestFailed).

Definition topoReference := exampleReference (item_id tiledService).

(** [/data] lists one layer of the feature service. *)
Definition layer0 : ArcGisItemInfo :=
  {| layers := Some [ {| layer_id := "0" |} ]; error := None |}.

Definition featurePortal : Collaborators :=
  examplePortal featureService (Ok layer0).

(** [/data] lists one layer and also reports an error. *)
Definition layer0WithError : ArcGisItemInfo :=
  {| layers := Some [ {| layer_id := "0" |} ];
     error := Some [("code", JNumber 498); ("message", JString "Invalid token.")] |}.

Definition featureErrorPortal : Collaborators :=
  examplePortal featureService (Ok layer0WithError).

Definition featureReference := exampleReference (item_id featureService).

(** The portal serves the web map. *)
Definition webMapPortal : Collaborators :=
  examplePortal webMap (Throw RequestFailed).

Definition webMapReference := exampleReference (item_id webMap).

(** *** An SDMX dataflow: observations by state and frequency *)

Definition urnConcept (id : string) : string :=
  "urn:sdmx:org.sdmx.infomodel.conceptscheme.Concept=ABS:CS_COMMON(1.0.0)." +:+ id.

Definition urnCodelist (id : string) : string :=
  "urn:sdmx:org.sdmx.infomodel.codelist.Codelist=ABS:" +:+ id +:+ "(1.0.0)".

(** [parseSdmxUrn] on the URNs of the example. *)
Definition exampleParseSdmxUrn (urn : option string) : option SdmxUrn :=
  urn ?. λ urn,
  assoc urn
    (((λ id, (urnConcept id,
              {| resourceId := Some "CS_COMMON"; descendantIds := Some [id] |}))
        <$> ["STATE"; "FREQ"; "UNIT_MEASURE"; "OBS_VALUE"; "TIME_PERIOD"])
     ++ ((λ id, (urnCodelist id,
                 {| resourceId := Some id; descendantIds := None |}))
           <$> ["CL_STATE"; "CL_FREQ"])).

Definition enumerated (id codelist : string) (position : Z) : Component :=
  {| comp_id := Some id; comp_type := Some "Dimension";
     comp_position := Some position;
     conceptIdentity := Some (urnConcept id);
     localRepresentation := Some {| enumeration := Some (urnCodelist codelist) |} |}.

Definition plain (id type : string) : Component :=
  {| comp_id := Some id; comp_type := Some type; comp_position := None;
     conceptIdentity := Some (urnConcept id);
     localRepresentation := None |}.

Definition stateDimension : Component := enumerated "STATE" "CL_STATE" 0.
Definition freqDimension : Component := enumerated "FREQ" "CL_FREQ" 1.

Definition exampleDataflow : SdmxJsonDataflow :=
  {| dataflow := {| dataflow_id := Some "RT";
                    dataflow_description := Some "Retail turnover" |};
     dataStructure :=
       {| dataStructureComponents :=
            Some {| attributeList :=
                      Some {| attributes := Some [plain "UNIT_MEASURE" "Attribute"] |};
                    dimensionList :=
                      {| dl_dimensions := Some [stateDimension; freqDimension];
                         timeDimensions := Some [plain "TIME_PERIOD" "TimeDimension"] |};
                    measureList :=
                      {| primaryMeasure := Some (plain "OBS_VALUE" "PrimaryMeasure") |} |} |};
     codelists :=
       Some [ {| codelist_id := Some "CL_STATE"; codelist_name := Some "State";
                 codes := Some [ {| code_id := Some "1"; code_name := Some "New South Wales" |};
                                 {| code_id := Some "2"; code_name := Some "Victoria" |} ] |};
              {| codelist_id := Some "CL_FREQ"; codelist_name := Some "Frequency";
                 codes := Some [ {| code_id := Some "A"; code_name := Some "Annual" |};
                                 {| code_id := Some "Q"; code_name := Some "Quarterly" |} ] |} ];
     conceptSchemes :=
       Some [ {| scheme_id := Some "CS_COMMON";
                 concepts :=
                   Some [ {| concept_id := Some "STATE"; concept_name := Some "State" |};
                          {| concept_id := Some "FREQ"; concept_name := Some "Frequency" |};
                          {| concept_id := Some "UNIT_MEASURE";
                             concept_name := Some "Unit of measure" |};
                          {| concept_id := Some "OBS_VALUE";
                             concept_name := Some "Observation value" |} ] |} ];
     contentConstraints := None |}.

Definition override (id : string) (type : option string) : ModelOverride :=
  {| override_id := Some id; override_type := type; override_name := None;
     regionType := None; regionTypeReplacements := None;
     override_options := None; allowUndefined := None; disable := None;
     selectedId := None |}.

(** The UNIT_MEASURE column of the loaded table. *)
Definition unitColumn (units : list string) : TableColumn :=
  {| loaded_name := Some "UNIT_MEASURE"; uniqueValues := units;
     valuesAsNumbers := []; column_format := None |}.

(** The catalog item of the example with the model overrides [user] set by
    the user and the unique values [units] in its UNIT_MEASURE column: its
    [modelOverrides] are those of the stratum followed by [user], its
    [dimensions] those of the stratum. *)
Definition exampleItem (user : list ModelOverride) (units : list string)
  : SdmxJsonCatalogItem :=
  let item dimensions :=
    {| baseUrl := Some "https://api.data.abs.gov.au";
       agencyId := Some "ABS";
       dataflowId := Some "RT";
       modelOverrides :=
         [ override (urnConcept "FREQ") (Some "frequency");
           override (urnConcept "UNIT_MEASURE") (Some "unit-measure") ] ++ user;
       item_dimensions := dimensions;
       sdmx_uniqueId := Some "retail-turnover";
       sdmx_name := Some "Retail turnover";
       sdmxSelectableDimensions := dimensions;
       mapItems := 0;
       isLoading := false;
       tableColumns := [unitColumn units];
       findColumnByName name :=
         if String.eqb name "UNIT_MEASURE" then Some (unitColumn units) else None;
       activeRegionType := None;
       discreteTimes := Some 8;
       regionProviderList :=
         Some (λ name, if String.eqb name "STATE" then ["STE_2016"] else []) |} in
  item match dimensions exampleParseSdmxUrn
               {| catalogItem := item None; sdmxJsonDataflow := exampleDataflow |} with
       | Ok dimensions => dimensions
       | Throw _ => None
       end.

Definition exampleStratum (user : list ModelOverride) (units : list string)
  : SdmxJsonDataflowStratum :=
  {| catalogItem := exampleItem user units; sdmxJsonDataflow := exampleDataflow |}.

(** The user disables the state dimension. *)
Definition stateDisabled : ModelOverride :=
  {| override_id := Some (urnCodelist "CL_STATE"); override_type := None;
     override_name := None; regionType := None; regionTypeReplacements := None;
     override_options := None; allowUndefined := None; disable := Some true;
     selectedId := None |}.

(** The user lists an alias for the state regions without giving the
    override the type region. *)
Definition stateAliased (type : option string) : ModelOverride :=
  {| override_id := Some (urnCodelist "CL_STATE"); override_type := type;
     override_name := None; regionType := None;
     regionTypeReplacements :=
       Some [ {| find := Some "STE_2016"; replace := Some "STE_2011" |} ];
     override_options := None; allowUndefined := None; disable := None;
     selectedId := None |}.

(** The user selects quarterly data. *)
Definition quarterly : ModelOverride :=
  {| override_id := Some (urnCodelist "CL_FREQ"); override_type := None;
     override_name := None; regionType := None; regionTypeReplacements := None;
     override_options := None; allowUndefined := None; disable := None;
     selectedId := Some "Q" |}.

(** Structure responses. *)
Definition emptyResponse : SdmxJsonStructureMessage := {| data := None |}.

Definition noDataflowResponse : SdmxJsonStructureMessage :=
  {| data := Some {| dataflows := Items [];
                     dataStructures := Items [dataStructure exampleDataflow];
                     data_codelists := None; data_conceptSchemes := None;
                     data_contentConstraints := None |} |}.

(** The structure endpoint answers the request of the example item with
    [response]; translation and proxying leave their argument alone. *)
Definition exampleStructureEndpoint (response : SdmxJsonStructureMessage)
    (url : string) : Result SdmxJsonStructureMessage :=
  if String.eqb url "https://api.data.abs.gov.au/dataflow/ABS/RT?references=all"
  then Ok response else Throw RequestFailed.

Definition exampleT (key : string) : string := key.

Definition exampleProxyUrl (catalogItem : SdmxJsonCatalogItem) (url : string)
  : string := url.

Definition unitMeasureOverride : ModelOverride :=
  override (urnConcept "UNIT_MEASURE") (Some "unit-measure").

Definition hiddenColumn (name : string) (title : option string)
  : TableColumnTraits :=
  {| column_name := Some name; column_title := title;
     column_type := Some "hidden"; column_regionType := None;
     transformation := None |}.

Definition regionTyped (name title regionType : string) : TableColumnTraits :=
  {| column_name := Some name; column_title := Some title;
     column_type := Some "region"; column_regionType := Some regionType;
     transformation := None |}.

(** *** An image service and a map service behind the same interface *)

Definition exampleImageCollaborators (response : Result (option ImageServer))
  : ImageServerCollaborators :=
  {| image_t key := key;
     getToken tokenUrl url := Ok "t0ken";
     serviceUrl item token :=
       text (image_url item) +:+ "?"
       +:+ match token with
           | Some token => "token=" +:+ token +:+ "&"
           | None => EmptyString
           end
       +:+ "f=json";
     loadJson_ImageServer url :=
       if String.eqb url "https://example.com/arcgis/rest/services/Elevation/ImageServer?f=json"
       then response else Throw RequestFailed;
     checkProjection baseUrl code := Ok tt;
     replaceUnderscores name := name;
     getRectangleFromLayer extent :=
       match extent with
       | Some extent => {| west := xmin extent; south := ymin extent;
                           east := xmax extent; north := ymax extent |}
       | None => {| west := 0; south := 0; east := 0; north := 0 |}
       end |}.

Definition elevationItem : ArcGisImageServerCatalogItem :=
  {| image_url := Some "https://example.com/arcgis/rest/services/Elevation/ImageServer";
     uri := Some "https://example.com/arcgis/rest/services/Elevation/ImageServer";
     tokenUrl := None;
     proj4ServiceBaseUrl := None |}.

(** The metadata of a map service. *)
Definition mapServiceMetadata : ImageServer :=
  {| capabilities := Some "Map,Query,Data";
     server_name := Some "Elevation";
     maxScale := Some 0%Z;
     fullExtent := None;
     serviceDescription := None;
     server_description := None;
     copyrightText := None |}.

(** The new model of the round trip: the example item after the user
    selected quarterly data. *)
Definition duplicatedStratum : SdmxJsonDataflowStratum :=
  SdmxJsonDataflowStratum_duplicateLoadableStratum
    (exampleStratum [] ["AUD"]) (exampleItem [quarterly] ["AUD"]).

(** The strata of an SDMX catalog item: the loaded stratum, or model
    overrides set by the user. *)
Inductive SdmxItemStratum : Type :=
| LoadedDataflow (stratum : SdmxJsonDataflowStratum)
| UserOverrides (overrides : list ModelOverride).

Definition dimensionsTrait (stratum : SdmxItemStratum)
  : option (list SdmxDimension) :=
  match stratum with
  | LoadedDataflow stratum =>
      match dimensions exampleParseSdmxUrn stratum with
      | Ok dimensions => dimensions
      | Throw _ => None
      end
  | UserOverrides _ => None
  end.

Definition modelOverridesTrait (stratum : SdmxItemStratum)
  : option (list ModelOverride * bool) :=
  match stratum with
  | LoadedDataflow stratum =>
      Some (stratum_modelOverrides exampleParseSdmxUrn stratum, false)
  | UserOverrides overrides => Some (overrides, false)
  end.

(** The original model holds the loaded stratum; the new model holds its
    duplicate and the selection of the user. *)
Definition originalStrata : gmap string SdmxItemStratum :=
  {[ "sdmxJsonDataflow" := LoadedDataflow (exampleStratum [] ["AUD"]) ]}.

Definition newStrata : gmap string SdmxItemStratum :=
  {[ "sdmxJsonDataflow" := LoadedDataflow duplicatedStratum;
     "user" := UserOverrides [quarterly] ]}.

Definition selectedIds (dimensions : option (list SdmxDimension))
  : option (list (option string)) :=
  fmap (M := list) sdim_selectedId <$> dimensions.

(** The example item once more, as a second model object: its table is
    searched by column name. *)
Definition exampleItemAgain : SdmxJsonCatalogItem :=
  let item := exampleItem [] ["AUD"] in
  {| sdmx_uniqueId := sdmx_uniqueId item;
     sdmx_name := sdmx_name item;
     baseUrl := baseUrl item;
     agencyId := agencyId item;
     dataflowId := dataflowId item;
     modelOverrides := modelOverrides item;
     item_dimensions := item_dimensions item;
     sdmxSelectableDimensions := sdmxSelectableDimensions item;
     mapItems := mapItems item;
     isLoading := isLoading item;
     tableColumns := tableColumns item;
     findColumnByName name :=
       List.find (λ column, strictEq (Some name) (loaded_name column))
                 (tableColumns item);
     activeRegionType := activeRegionType item;
     discreteTimes := discreteTimes item;
     regionProviderList := regionProviderList item |}.

Definition exampleToLocaleString (value : Z) (format : option Json) : string :=
  showZ (Some value).

(** The scene service of section 8 of the specification. *)
Definition sceneService : ArcGisItem :=
  {| item_id := "5ce7e000";
     item_type := "Scene Service";
     item_url := "https://x/arcgis/rest/services/Foo/SceneServer";
     item_title := "Foo";
     item_description := "A scene layer";
     item_extent := None;
     item_licenseInfo := None;
     item_typeKeywords := ["Scene Service"] |}.

Definition scenePortal : Collaborators :=
  examplePortal sceneService (Throw RequestFailed).

Definition sceneReference := exampleReference (item_id sceneService).

Definition i3sFormat : PreparedSupportedFormat (option PatternRegExp.Pattern) :=
  prepareSupportedFormat
    (format "I3S" "Scene Service" (Some "SceneServer$|SceneServer/$") "3d-tiles").

Definition kmlFormat : PreparedSupportedFormat (option PatternRegExp.Pattern) :=
  prepareSupportedFormat (format "Kml" "KML" None "kml").

(** [/data] lists a layer whose id is not a number. *)
Definition layerRoads : ArcGisItemInfo :=
  {| layers := Some [ {| layer_id := "roads" |} ]; error := None |}.

Definition roadsPortal : Collaborators :=
  examplePortal featureService (Ok layerRoads).

(** A portal that answers no request. *)
Definition offlinePortal : Collaborators :=
  {| loadJson_ArcGisItem url := Throw RequestFailed;
     loadJson_ArcGisItemInfo url := Throw RequestFailed;
     uriSegmentJson := uriSegmentJson featurePortal;
     uriItemPage := uriItemPage featurePortal;
     proxyCatalogItemUrl := proxyCatalogItemUrl featurePortal;
     CatalogMemberFactory_create := CatalogMemberFactory_create featurePortal;
     i18next_t := i18next_t featurePortal;
     DOMPurify_sanitize := DOMPurify_sanitize featurePortal |}.

(** A reference without unique id. *)
Definition anonymousReference
  : ArcGisPortalItemReference (option PatternRegExp.Pattern) :=
  {| this := 2%positive;
     uniqueId := None;
     url := Some "https://portal.example.com";
     itemId := Some (item_id featureService);
     supportedFormats := defaultSupportedFormats;
     itemProperties := None;
     strata := ∅;
     _arcgisItem := None;
     _arcgisPortalCatalogGroup := None;
     _supportedFormat := None;
     _portalRootUrl := None |}.

(** The reference to the tiled service as the catalog defines it. *)
Definition definedValues : gmap string Json :=
  {[ "url" := JString "https://portal.example.com";
     "itemId" := JString (item_id tiledService) ]}.

Definition definedReference
  : ArcGisPortalItemReference (option PatternRegExp.Pattern) :=
  set_strata {[ "definition" := TraitValues definedValues ]} topoReference.

(** *** An image service with a legend *)

Definition imageServiceMetadata : ImageServer :=
  {| capabilities := Some "Image,Metadata,Catalog";
     server_name := Some "Elevation";
     maxScale := Some 0%Z;
     fullExtent := None;
     serviceDescription := None;
     server_description := None;
     copyrightText := None |}.

Definition swatch (label data : string) : LegendEntry :=
  {| label := label; contentType := "image/png"; imageData := data;
     legend_width := Some 20%Z; legend_height := Some 20%Z |}.

(** Two layers that share the swatch [iVBORw0]; a no-data layer. *)
Definition elevationLegends : Legends :=
  {| legend_layers :=
       Some [ {| layerName := "Elevation";
                 legend := Some [swatch "Low" "iVBORw0"; swatch "High" "iVBORw1"] |};
              {| layerName := "NoData";
                 legend := Some [swatch "None" "iVBORw2"] |};
              {| layerName := "Hillshade";
                 legend := Some [swatch EmptyString "iVBORw0"] |} ] |}.

Definition exampleNoDataTest (name : string) : bool :=
  String.eqb name "NoData".

Definition exampleLegendUrl (item : ArcGisImageServerCatalogItem) : string :=
  default "undefined" (image_url item) +:+ "/legend?f=json".

Definition elevationLegendStratum : ImageServerLegendStratum :=
  {| legend_item := elevationItem; _legends := Some elevationLegends |}.

(** The resolved traits of the item, tiled in web mercator. *)
Definition elevationTraits : ImageServerItemTraits :=
  {| traits_url := image_url elevationItem;
     traits_wkid := Some 102100%Z;
     traits_maximumScale := None;
     traits_tileHeight := Some 256%Z;
     traits_tileWidth := Some 256%Z;
     traits_allowFeaturePicking := true;
     traits_token := None;
     traits_attribution := None;
     flattenedParameters := [("time", JString "0"); ("format", JString "lerc")] |}.

(** The same item in a national grid. *)
Definition gridTraits : ImageServerItemTraits :=
  {| traits_url := traits_url elevationTraits;
     traits_wkid := Some 3857%Z;
     traits_maximumScale := None;
     traits_tileHeight := Some 256%Z;
     traits_tileWidth := Some 256%Z;
     traits_allowFeaturePicking := true;
     traits_token := None;
     traits_attribution := None;
     flattenedParameters := [] |}.

(** *** Variants of the example dataflow *)

Definition stateCodes : list Code :=
  [ {| code_id := Some "1"; code_name := Some "New South Wales" |};
    {| code_id := Some "2"; code_name := Some "Victoria" |} ].

(** The example dataflow with other time dimensions, codes of the state
    codelist and content constraints. *)
Definition variantDataflow (time : option (list Component)) (states : list Code)
    (constraints : option (list ContentConstraint)) : SdmxJsonDataflow :=
  {| dataflow := dataflow exampleDataflow;
     dataStructure :=
       {| dataStructureComponents :=
            Some {| attributeList :=
                      Some {| attributes := Some [plain "UNIT_MEASURE" "Attribute"] |};
                    dimensionList :=
                      {| dl_dimensions := Some [stateDimension; freqDimension];
                         timeDimensions := time |};
                    measureList :=
                      {| primaryMeasure := Some (plain "OBS_VALUE" "PrimaryMeasure") |} |} |};
     codelists :=
       Some [ {| codelist_id := Some "CL_STATE"; codelist_name := Some "State";
                 codes := Some states |};
              {| codelist_id := Some "CL_FREQ"; codelist_name := Some "Frequency";
                 codes := Some [ {| code_id := Some "A"; code_name := Some "Annual" |};
                                 {| code_id := Some "Q"; code_name := Some "Quarterly" |} ] |} ];
     conceptSchemes := conceptSchemes exampleDataflow;
     contentConstraints := constraints |}.

Definition variantStratum (flow : SdmxJsonDataflow) : SdmxJsonDataflowStratum :=
  {| catalogItem := exampleItem [] ["AUD"]; sdmxJsonDataflow := flow |}.

(** Data exist for Victoria only: the actual constraint lists state 2,
    twice, and a state 9 that the codelist does not have. *)
Definition victoriaOnly : list ContentConstraint :=
  [ {| constraint_type := Some "Actual";
       cubeRegions :=
         Some [ {| keyValues :=
                     Some [ {| kv_id := Some "STATE";
                               kv_values := Some ["2"; "9"] |};
                            {| kv_id := Some "FREQ"; kv_values := Some ["Q"] |} ] |};
                {| keyValues :=
                     Some [ {| kv_id := Some "STATE";
                               kv_values := Some ["2"] |} ] |} ] |} ].

Definition timeDimension : Component := plain "TIME_PERIOD" "TimeDimension".

Definition constrainedStratum : SdmxJsonDataflowStratum :=
  variantStratum (variantDataflow (Some [timeDimension]) stateCodes
                    (Some victoriaOnly)).

(** No time dimension. *)
Definition timelessStratum : SdmxJsonDataflowStratum :=
  variantStratum (variantDataflow None stateCodes None).

(** A state codelist without codes. *)
Definition statelessStratum : SdmxJsonDataflowStratum :=
  variantStratum (variantDataflow (Some [timeDimension]) [] None).

Definition option_ (id name : string) : DimensionOption :=
  {| option_id := Some id; option_name := Some name |}.

Definition exampleResponse : SdmxJsonStructureMessage :=
  {| data := Some {| dataflows := Items [dataflow exampleDataflow];
                     dataStructures := Items [dataStructure exampleDataflow];
                     data_codelists := codelists exampleDataflow;
                     data_conceptSchemes := conceptSchemes exampleDataflow;
                     data_contentConstraints := None |} |}.

(** *** A WMS group: a named group of two layers under an unnamed root *)

Definition wmsLeaf (name : string) (box : option LatLonBox) : WmsLayer :=
  {| Title := Some name; Name := Some name; Abstract := None;
     queryable := None; EX_GeographicBoundingBox := None;
     LatLonBoundingBox := box; Layer := None |}.

Definition australia : GeographicBoundingBox :=
  {| westBoundLongitude := Some "112"; southBoundLatitude := Some "-44";
     eastBoundLongitude := Some "154"; northBoundLatitude := Some "-9" |}.

Definition tasmania : LatLonBox :=
  {| minx := Some "143"; miny := Some "-44"; maxx := Some "149";
     maxy := Some "-39" |}.

Definition wmsGroup : WmsLayer :=
  {| Title := Some "Hydrology"; Name := Some "hydro"; Abstract := None;
     queryable := Some (JString "1");
     EX_GeographicBoundingBox := Some australia;
     LatLonBoundingBox := None;
     Layer := Some [wmsLeaf "rivers" (Some tasmania); wmsLeaf "lakes" None] |}.

Definition wmsRoot : WmsLayer :=
  {| Title := Some "Example WMS"; Name := None; Abstract := None;
     queryable := None; EX_GeographicBoundingBox := None;
     LatLonBoundingBox := None; Layer := Some [wmsGroup] |}.

Definition exampleGroup : WebMapServiceGroupViewModel :=
  {| wms_url := "https://example.com/wms"; wms_description := None;
     wms_dataCustodian := None |}.

(** A rectangle as the four arguments of [Rectangle.fromDegrees]. *)
Definition degrees (west south east north : option string)
  : list (option string) := [west; south; east; north].
(** ** Format matching: first match wins *)

Section PatternFacts.
Import PatternRegExp.

Lemma append_cons c (s t : string) : String c s +:+ t = String c (s +:+ t).
Proof. reflexivity. Qed.

Lemma length_append (s t : string) :
  String.length (s +:+ t) = String.length s + String.length t.
Proof. induction s as [|c s IH]; [reflexivity|]. rewrite append_cons. cbn. lia. Qed.

(** A match found in a suffix is found in the whole string. *)
Lemma search_suffix p (pre t : string) :
  search p t = true → search p (pre +:+ t) = true.
Proof.
  intros Ht. induction pre as [|c pre IH]; [exact Ht|].
  rewrite append_cons. cbn [search]. rewrite IH. apply orb_true_r.
Qed.

Lemma matchSeq_anchored_length n alt s :
  anchored n alt → matchSeq alt s = true → String.length s = n.
Proof.
  intros (atoms & -> & <- & Hcons). revert s.
  induction Hcons as [|a atoms Ha _ IH]; intros s Hm.
  - destruct s; [reflexivity|discriminate].
  - destruct a; try congruence; destruct s as [|x s]; try discriminate;
      cbn in Hm; apply andb_prop in Hm as [_ Hm];
      cbn; f_equal; apply IH, Hm.
Qed.

(** A pattern whose alternatives are all anchored and shorter than [t]
    cannot match a string that ends in [t] unless it matches inside [t]. *)
Lemma search_anchored_suffix p (pre t : string) (bound : nat) :
  Forall (λ alt, ∃ n, n < bound ∧ anchored n alt) p →
  bound ≤ String.length t →
  search p t = false →
  search p (pre +:+ t) = false.
Proof.
  intros Hp Hlen Ht. induction pre as [|c pre IH]; [exact Ht|].
  rewrite append_cons. cbn [search]. rewrite IH, orb_false_r.
  apply not_true_is_false. intros Hex.
  apply existsb_exists in Hex as (alt & Hin & Hm).
  rewrite Forall_forall in Hp.
  destruct (Hp alt (proj2 (list_elem_of_In _ _) Hin)) as (n & Hn & Hanch).
  apply (matchSeq_anchored_length _ _ _ Hanch) in Hm.
  rewrite <- append_cons, length_append in Hm. cbn in Hm. lia.
Qed.

Lemma defaults_parse :
  Forall (λ f, (∀ src, formatRegex f = Some src → is_Some (parse src))
               ∧ (∀ src, urlRegex f = Some src → is_Some (parse src)))
         defaultSupportedFormats.
Proof.
  repeat constructor; intros src [= <-]; vm_compute; eauto.
Qed.

Lemma featureServerGroup_rejects_layer_url pre :
  RegExp_test (RegExp_new_i "FeatureServer$|FeatureServer/$")
              (pre +:+ "/FeatureServer/3") = false.
Proof.
  change (search [ (AChar <$> String.list_ascii_of_string "FeatureServer") ++ [AEnd];
                   (AChar <$> String.list_ascii_of_string "FeatureServer/") ++ [AEnd] ]
                 (pre +:+ "/FeatureServer/3") = false).
  apply (search_anchored_suffix _ _ _ 15); [| vm_compute; lia | reflexivity].
  repeat constructor.
  - exists 13. split; [lia|]. eexists. split; [reflexivity|]. split; [reflexivity|].
    repeat constructor; discriminate.
  - exists 14. split; [lia|]. eexists. split; [reflexivity|]. split; [reflexivity|].
    repeat constructor; discriminate.
Qed.

Lemma featureServer_accepts_layer_url pre :
  RegExp_test (RegExp_new_i "FeatureServer\/\d")
              (pre +:+ "/FeatureServer/3") = true.
Proof.
  change (search [ (AChar <$> String.list_ascii_of_string "FeatureServer/") ++ [ADigit] ]
                 (pre +:+ "/FeatureServer/3") = true).
  apply search_suffix. reflexivity.
Qed.

End PatternFacts.

(** [List.find] returns the first element that satisfies the test. *)
Lemma find_first {A : Type} (test : A → bool) (l : list A) :
  match List.find test l with
  | Some x =>
      ∃ before after,
        l = before ++ x :: after ∧ test x = true
        ∧ Forall (λ y, test y = false) before
  | None => Forall (λ y, test y = false) l
  end.
Proof.
  induction l as [|y l IH]; [constructor|].
  cbn [List.find]. destruct (test y) eqn:Hy.
  - exists [], l. repeat split; [exact Hy|constructor].
  - destruct (List.find test l) as [x|].
    + destruct IH as (before & after & -> & Hx & Hbefore).
      exists (y :: before), after. repeat split; [exact Hx|].
      constructor; assumption.
    + constructor; assumption.
Qed.

Lemma ruleMatches_format {RegExp : Type} `{RegExpOps RegExp}
    (item : ArcGisItem) (id formatRe urlRe type : string) :
  truthy (Some formatRe) = true → truthy (Some urlRe) = true →
  ruleMatches item (prepareSupportedFormat (format id formatRe (Some urlRe) type))
  = RegExp_test (RegExp_new_i formatRe) (item_type item)
    && RegExp_test (RegExp_new_i urlRe) (item_url item).
Proof.
  intros Hf Hu. unfold ruleMatches, prepareSupportedFormat, format.
  cbn [p_formatRegex p_urlRegex formatRegex urlRegex]. rewrite Hf, Hu. reflexivity.
Qed.

(** C1.  [isItemInSupportedFormats] returns the first rule, in declaration
    order, that matches the item, where a rule matches when both of its
    regular expressions are present and both match, or only one is present
    and that one matches (for every implementation of regular
    expressions).  Under the default rule order an item of type
    "Feature Service" whose url ends in "/FeatureServer/3" is matched by
    "ArcGIS FeatureServer", whose definition type is "esri-featureServer",
    and not by "ArcGIS FeatureServer Group". *)
Theorem isItemInSupportedFormats_first_match :
  (∀ (RegExp : Type) (ops : RegExpOps RegExp)
     (item : ArcGisItem) (formats : list (PreparedSupportedFormat RegExp)),
      match isItemInSupportedFormats formats (Some item) with
      | Some rule =>
          ∃ before after,
            formats = before ++ rule :: after
            ∧ ruleMatches item rule = true
            ∧ Forall (λ earlier, ruleMatches item earlier = false) before
      | None => Forall (λ rule, ruleMatches item rule = false) formats
      end)
  ∧ (∀ (item : ArcGisItem) (pre : string),
        item_type item = "Feature Service" →
        item_url item = pre +:+ "/FeatureServer/3" →
        isItemInSupportedFormats
          (prepareSupportedFormat <$> defaultSupportedFormats) (Some item)
        = Some featureServerFormat
        ∧ assoc "type" (p_definition featureServerFormat)
          = Some (JString "esri-featureServer")).
Proof.
  split.
  - intros. cbn [isItemInSupportedFormats].
    rewrite isItemInSupportedFormats_loop_find. apply find_first.
  - intros item pre Htype Hurl. split; [|reflexivity].
    cbn [isItemInSupportedFormats]. rewrite isItemInSupportedFormats_loop_find.
    cbn [fmap list_fmap defaultSupportedFormats List.find].
    rewrite !ruleMatches_format by reflexivity. rewrite Htype, Hurl.
    rewrite featureServerGroup_rejects_layer_url, featureServer_accepts_layer_url.
    repeat match goal with
    | |- context [RegExp_test (RegExp_new_i ?src) "Feature Service"] =>
        let b := eval vm_compute in
                   (RegExp_test (RegExp_new_i src) "Feature Service") in
        change (RegExp_test (RegExp_new_i src) "Feature Service") with b
    end.
    reflexivity.
Qed.

Lemma isItemInSupportedFormats_first_match_layer3 :
  isItemInSupportedFormats
    (prepareSupportedFormat <$> defaultSupportedFormats) (Some layer3)
  = Some featureServerFormat
  ∧ assoc "type" (p_definition featureServerFormat)
    = Some (JString "esri-featureServer").
Proof.
  apply (proj2 isItemInSupportedFormats_first_match layer3
           "https://example.com/arcgis/rest/services/Foo");
    reflexivity.
Defined.

(** ** Reference resolution *)

Section ReferenceFacts.
Context {RegExp : Type} `{RegExpOps RegExp}.
Variable env : Collaborators.

Local Abbreviation Reference := (ArcGisPortalItemReference RegExp).

(** Unfolding of the method combinators. *)
Ltac run :=
  unfold mbind, Method_bind, mret, Method_ret, read, assign, await, throw,
    tryCatch; cbn beta iota.

Lemma load_held (group : option ArcGisPortalCatalogGroup) (r : Reference) item :
  _arcgisItem r = Some item →
  ArcGisPortalItemStratum_load env group r
  = (Ok {| arcgisPortalItemReference := this r;
           arcgisPortalCatalogGroup := group |}, rebased group r).
Proof.
  intros Hitem. unfold ArcGisPortalItemStratum_load. run. rewrite Hitem.
  destruct group; reflexivity.
Qed.

Lemma load_anonymous (group : option ArcGisPortalCatalogGroup) (r : Reference) :
  _arcgisItem r = None → uniqueId r = None →
  ArcGisPortalItemStratum_load env group r
  = (Ok {| arcgisPortalItemReference := this r;
           arcgisPortalCatalogGroup := group |}, r).
Proof.
  intros Hitem Hid. unfold ArcGisPortalItemStratum_load. run.
  rewrite Hitem, Hid. reflexivity.
Qed.

Lemma load_fresh (group : option ArcGisPortalCatalogGroup) (r : Reference) id :
  _arcgisItem r = None → uniqueId r = Some id →
  ArcGisPortalItemStratum_load env group r
  = match loadJson_ArcGisItem env (itemUrl env r) with
    | Ok item =>
        (Ok {| arcgisPortalItemReference := this r;
               arcgisPortalCatalogGroup := group |},
         set_supportedFormat
           (isItemInSupportedFormats (preparedSupportedFormats r) (Some item))
           (set_arcgisItem (Some item) (set_portalRootUrl (url r) r)))
    | Throw e => (Throw e, set_portalRootUrl (url r) r)
    end.
Proof.
  intros Hitem Hid. unfold ArcGisPortalItemStratum_load, loadPortalItem,
    setSupportedFormatFromItem, itemUrl. run.
  rewrite Hitem, Hid. cbn.
  destruct (loadJson_ArcGisItem env _); reflexivity.
Qed.

Lemma load_settled group (r r1 : Reference) stratum :
  ArcGisPortalItemStratum_load env group r = (Ok stratum, r1) → settled r1.
Proof.
  destruct (_arcgisItem r) as [item|] eqn:Hitem.
  - rewrite (load_held _ _ _ Hitem). intros [= _ <-]. left.
    destruct group; cbn; rewrite Hitem; eauto.
  - destruct (uniqueId r) as [id|] eqn:Hid.
    + rewrite (load_fresh _ _ _ Hitem Hid).
      destruct (loadJson_ArcGisItem env _); [|discriminate].
      intros [= _ <-]. left. cbn. eauto.
    + rewrite (load_anonymous _ _ Hitem Hid). intros [= _ <-]. right. auto.
Qed.

Lemma load_settled_ok group (r : Reference) :
  settled r →
  ∃ r', ArcGisPortalItemStratum_load env group r
        = (Ok {| arcgisPortalItemReference := this r;
                 arcgisPortalCatalogGroup := group |}, r')
        ∧ _arcgisItem r' = _arcgisItem r
        ∧ _supportedFormat r' = _supportedFormat r.
Proof.
  intros [[item Hitem]|[Hitem Hid]].
  - rewrite (load_held _ _ _ Hitem). eexists. split; [reflexivity|].
    destruct group; auto.
  - rewrite (load_anonymous _ _ Hitem Hid). eauto.
Qed.

Lemma setArcgisStrata_this_inv (r r1 : Reference) :
  setArcgisStrata_this env r = (Ok tt, r1) →
  ∃ stratum r0,
    ArcGisPortalItemStratum_load env (_arcgisPortalCatalogGroup r) r
    = (Ok stratum, r0)
    ∧ r1 = set_strata (<[stratumName := PortalItemStratum stratum]> (strata r0)) r0.
Proof.
  unfold setArcgisStrata_this. run.
  destruct (ArcGisPortalItemStratum_load env _ r) as [[stratum|e] r0];
    [|discriminate].
  intros [= <-]. eauto.
Qed.

Lemma setArcgisStrata_this_settled (r r1 : Reference) :
  setArcgisStrata_this env r = (Ok tt, r1) → settled r1.
Proof.
  intros (stratum & r0 & Hload & ->)%setArcgisStrata_this_inv.
  apply load_settled in Hload. exact Hload.
Qed.

(** Creating the target of a settled reference that has a format never
    throws and leaves the item and the format alone. *)
Lemma createTarget_ok (r : Reference) format :
  settled r → _supportedFormat r = Some format →
  ∃ target r', createTarget env r = (Ok target, r')
               ∧ _arcgisItem r' = _arcgisItem r
               ∧ _supportedFormat r' = Some format
               ∧ (target = None ↔
                  CatalogMemberFactory_create env
                    (assoc "type" (p_definition format)) (uniqueId r) = None).
Proof.
  intros Hsettled Hformat. unfold createTarget, setArcgisStrata. run.
  rewrite Hformat.
  destruct (CatalogMemberFactory_create env _ _) as [model|]; run.
  2:{ exists None, r. auto. }
  destruct (load_settled_ok (_arcgisPortalCatalogGroup r) r Hsettled)
    as (r' & -> & Hitem & Hfmt).
  destruct (strata r' !! "definition"); run;
    eexists _, _; (split; [reflexivity|]); cbn;
    rewrite ?Hitem, ?Hfmt, ?Hformat; repeat split; discriminate.
Qed.

(** The [/data] request never makes [loadAdditionalPortalInfo] throw. *)
Lemma loadAdditionalPortalInfo_held (r : Reference) item :
  _arcgisItem r = Some item →
  loadAdditionalPortalInfo env r
  = (Ok match loadJson_ArcGisItemInfo env (dataUrl env r item) with
        | Ok response => Some response
        | Throw _ => None
        end, r).
Proof.
  intros Hitem. unfold loadAdditionalPortalInfo, dataUrl. run. rewrite Hitem.
  run. destruct (loadJson_ArcGisItemInfo env _); reflexivity.
Qed.

Lemma refineWithItemData_held (r : Reference) info item :
  _arcgisItem r = Some item →
  refineWithItemData (Some info) r
  = (Ok tt,
     set_supportedFormat
       (isItemInSupportedFormats (preparedSupportedFormats r)
          (Some (refinedItem info item)))
       (set_arcgisItem (Some (refinedItem info item)) r)).
Proof.
  intros Hitem. unfold refineWithItemData, setSupportedFormatFromItem. run.
  rewrite Hitem. reflexivity.
Qed.

Lemma refineWithItemData_absent (r : Reference) :
  refineWithItemData None r = (Ok tt, r).
Proof. unfold refineWithItemData. run. reflexivity. Qed.

Lemma refinedItem_type info item :
  item_type (refinedItem info item) = item_type item.
Proof. unfold refinedItem. destruct (error info), (layers info) as [[|? ?]|]; reflexivity. Qed.

Lemma refinedItem_typeKeywords info item :
  item_typeKeywords (refinedItem info item) = item_typeKeywords item.
Proof. unfold refinedItem. destruct (error info), (layers info) as [[|? ?]|]; reflexivity. Qed.

Lemma tiledMapServiceCatch_forced (r : Reference) item mapServer :
  _arcgisItem r = Some item → isTiledMapService item = true →
  List.filter isMapServerFormat (preparedSupportedFormats r) = [mapServer] →
  tiledMapServiceCatch r = (Ok tt, set_supportedFormat (Some mapServer) r).
Proof.
  intros Hitem Htiled Hone. unfold tiledMapServiceCatch. run. rewrite Hitem.
  unfold isTiledMapService in Htiled. rewrite Htiled.
  unfold isMapServerFormat in Hone. run. rewrite Hone. reflexivity.
Qed.

Lemma tiledMapServiceCatch_keeps (r : Reference) :
  ∃ r', tiledMapServiceCatch r = (Ok tt, r')
        ∧ _arcgisItem r' = _arcgisItem r
        ∧ uniqueId r' = uniqueId r
        ∧ (is_Some (_supportedFormat r) → is_Some (_supportedFormat r')).
Proof.
  unfold tiledMapServiceCatch. run.
  destruct (_arcgisItem r) as [item|] eqn:Hitem; [|exists r; auto].
  destruct (_ && _); [|exists r; auto]. run.
  destruct (List.filter _ _) as [|f [|? ?]]; run;
    eexists; (split; [reflexivity|]); cbn; rewrite ?Hitem; repeat split; eauto.
Qed.

(** [forceLoadReference] once the portal stratum has been loaded. *)
Lemma forceLoadReference_loaded previousTarget (r r1 : Reference) :
  setArcgisStrata_this env r = (Ok tt, r1) →
  forceLoadReference env previousTarget r
  = match _supportedFormat r1 with
    | None => (Ok None, r1)
    | Some _ =>
        (itemDataInfo ← loadAdditionalPortalInfo env;
         refineWithItemData itemDataInfo;;
         tiledMapServiceCatch;;
         createTarget env) r1
    end.
Proof.
  intros Hload. unfold forceLoadReference.
  unfold mbind at 1, Method_bind at 1. rewrite Hload.
  unfold mbind at 1, Method_bind at 1, read at 1. cbn beta iota.
  destruct (_supportedFormat r1); reflexivity.
Qed.

Lemma isTiledMapService_true item :
  item_type item = "Map Service" → In "Tiled" (item_typeKeywords item) →
  isTiledMapService item = true.
Proof.
  intros Htype Hin. unfold isTiledMapService. rewrite Htype. cbn.
  apply existsb_exists. exists "Tiled". split; [exact Hin|reflexivity].
Qed.

(** C2, amended.  Once the primary metadata of a reference has matched
    some format, so that resolution goes on, an item of type "Map Service"
    whose type keywords contain "Tiled" has its selected format set to the
    esri-mapServer format whenever exactly one prepared format has that
    definition type (as in the default rules), whatever the regular
    expressions selected before or after the [/data] refinement; the target
    is created from that format. *)
Theorem forceLoadReference_tiled_forces_mapServer
    (r r1 : Reference) (item : ArcGisItem)
    (primary mapServer : PreparedSupportedFormat RegExp)
    (previousTarget : option Model) :
  setArcgisStrata_this env r = (Ok tt, r1) →
  _arcgisItem r1 = Some item →
  _supportedFormat r1 = Some primary →
  item_type item = "Map Service" →
  In "Tiled" (item_typeKeywords item) →
  List.filter isMapServerFormat (preparedSupportedFormats r1) = [mapServer] →
  ∃ target r',
    forceLoadReference env previousTarget r = (Ok target, r')
    ∧ _supportedFormat r' = Some mapServer
    ∧ (target = None ↔
       CatalogMemberFactory_create env
         (assoc "type" (p_definition mapServer)) (uniqueId r1) = None).
Proof.
  intros Hload Hitem Hprimary Htype Hkw Hone.
  pose proof (setArcgisStrata_this_settled _ _ Hload) as Hsettled.
  assert (∀ r2 item2, _arcgisItem r2 = Some item2 →
            item_type item2 = "Map Service" →
            In "Tiled" (item_typeKeywords item2) →
            preparedSupportedFormats r2 = preparedSupportedFormats r1 →
            uniqueId r2 = uniqueId r1 →
            ∃ target r',
              (tiledMapServiceCatch ;; createTarget env) r2 = (Ok target, r')
              ∧ _supportedFormat r' = Some mapServer
              ∧ (target = None ↔
                 CatalogMemberFactory_create env
                   (assoc "type" (p_definition mapServer)) (uniqueId r1) = None))
    as Hfinish.
  { intros r2 item2 Hitem2 Htype2 Hkw2 Hformats Hid. run.
    rewrite (tiledMapServiceCatch_forced r2 item2 mapServer Hitem2
               (isTiledMapService_true _ Htype2 Hkw2)) by (rewrite Hformats; exact Hone).
    destruct (createTarget_ok (set_supportedFormat (Some mapServer) r2) mapServer)
      as (target & r' & -> & _ & Hfmt & Hnone); [left; cbn; eauto|reflexivity|].
    exists target, r'. cbn in Hnone. rewrite Hid in Hnone. auto. }
  rewrite (forceLoadReference_loaded _ _ _ Hload), Hprimary. run.
  rewrite (loadAdditionalPortalInfo_held _ _ Hitem).
  destruct (loadJson_ArcGisItemInfo env _) as [info|e].
  - rewrite (refineWithItemData_held _ _ _ Hitem).
    apply (Hfinish _ (refinedItem info item)); try reflexivity.
    + rewrite refinedItem_type. exact Htype.
    + rewrite refinedItem_typeKeywords. exact Hkw.
  - rewrite refineWithItemData_absent. apply (Hfinish _ item); auto.
Qed.

(** C3, amended.  The request to the [/data] endpoint is best effort: when
    it fails, [loadAdditionalPortalInfo] returns [undefined] and
    [forceLoadReference] goes on with the primary metadata only and does
    not throw; when the response has no [error] member and a non-empty
    [layers] array, the id of the first layer is appended to the url of the
    item after a "/" and format matching is run again on the modified item;
    when it has an [error] member, or no layer, the item is left as it is
    (and format matching is run again on it). *)
Theorem forceLoadReference_data_best_effort
    (r r1 : Reference) (item : ArcGisItem)
    (primary : PreparedSupportedFormat RegExp)
    (previousTarget : option Model) :
  setArcgisStrata_this env r = (Ok tt, r1) →
  _arcgisItem r1 = Some item →
  _supportedFormat r1 = Some primary →
  (∀ e, loadJson_ArcGisItemInfo env (dataUrl env r1 item) = Throw e →
        loadAdditionalPortalInfo env r1 = (Ok None, r1)
        ∧ forceLoadReference env previousTarget r
          = (tiledMapServiceCatch ;; createTarget env) r1
        ∧ ∃ target r',
            forceLoadReference env previousTarget r = (Ok target, r')
            ∧ _arcgisItem r' = Some item)
  ∧ (∀ info, loadJson_ArcGisItemInfo env (dataUrl env r1 item) = Ok info →
        let refined :=
          match error info, layers info with
          | None, Some (layer :: _) =>
              set_item_url (item_url item +:+ "/" +:+ layer_id layer) item
          | _, _ => item
          end in
        forceLoadReference env previousTarget r
        = (tiledMapServiceCatch ;; createTarget env)
            (set_supportedFormat
               (isItemInSupportedFormats (preparedSupportedFormats r1)
                  (Some refined))
               (set_arcgisItem (Some refined) r1))).
Proof.
  intros Hload Hitem Hprimary.
  pose proof (setArcgisStrata_this_settled _ _ Hload) as Hsettled.
  rewrite (forceLoadReference_loaded _ _ _ Hload), Hprimary.
  split.
  - intros e Hfail.
    assert (loadAdditionalPortalInfo env r1 = (Ok None, r1)) as Hinfo.
    { rewrite (loadAdditionalPortalInfo_held _ _ Hitem), Hfail. reflexivity. }
    split; [exact Hinfo|].
    assert ((itemDataInfo ← loadAdditionalPortalInfo env;
             refineWithItemData itemDataInfo;;
             tiledMapServiceCatch;; createTarget env) r1
            = (tiledMapServiceCatch ;; createTarget env) r1) as ->.
    { unfold mbind at 1, Method_bind at 1. rewrite Hinfo.
      unfold mbind at 1, Method_bind at 1. rewrite refineWithItemData_absent.
      reflexivity. }
    split; [reflexivity|]. run.
    destruct (tiledMapServiceCatch_keeps r1) as (r2 & -> & Hitem2 & Hid2 & Hfmt2).
    destruct (Hfmt2 (ex_intro _ _ Hprimary)) as [format Hformat].
    destruct (createTarget_ok r2 format) as (target & r' & -> & Hitem' & _);
      [left; rewrite Hitem2, Hitem; eauto|exact Hformat|].
    exists target, r'. split; [reflexivity|]. congruence.
  - intros info Hinfo refined.
    unfold mbind at 1, Method_bind at 1.
    rewrite (loadAdditionalPortalInfo_held _ _ Hitem), Hinfo.
    unfold mbind at 1, Method_bind at 1.
    rewrite (refineWithItemData_held _ _ _ Hitem). reflexivity.
Qed.

(** C4.  When the metadata of the portal item matches no supported
    format rule, [forceLoadReference] returns [undefined] and does not
    throw: both for a reference that fetches its item and for one that was
    handed its item together with the format selected from it. *)
Theorem forceLoadReference_no_match
    (r : Reference) (item : ArcGisItem) (previousTarget : option Model) :
  isItemInSupportedFormats (preparedSupportedFormats r) (Some item) = None →
  (_arcgisItem r = None ∧ is_Some (uniqueId r)
   ∧ loadJson_ArcGisItem env (itemUrl env r) = Ok item)
  ∨ (_arcgisItem r = Some item
     ∧ _supportedFormat r
       = isItemInSupportedFormats (preparedSupportedFormats r) (Some item)) →
  ∃ r', forceLoadReference env previousTarget r = (Ok None, r')
        ∧ _arcgisItem r' = Some item
        ∧ _supportedFormat r' = None.
Proof.
  intros Hnone Hcase.
  assert (∃ r1, setArcgisStrata_this env r = (Ok tt, r1)
                ∧ _arcgisItem r1 = Some item
                ∧ _supportedFormat r1 = None) as (r1 & Hload & Hitem & Hfmt).
  { unfold setArcgisStrata_this. run.
    destruct Hcase as [(Hfresh & [id Hid] & Hfetch)|[Hheld Hformat]].
    - rewrite (load_fresh _ _ _ Hfresh Hid), Hfetch.
      eexists. split; [reflexivity|]. cbn. auto.
    - rewrite (load_held _ _ _ Hheld).
      eexists. split; [reflexivity|]. cbn.
      destruct (_arcgisPortalCatalogGroup r); cbn; rewrite Hheld, Hformat; auto. }
  exists r1. rewrite (forceLoadReference_loaded _ _ _ Hload), Hfmt. auto.
Qed.

End ReferenceFacts.

(** *** Resolution of the example references *)

(** C2 as stated fails: the tiled map service [tiledBasemap] matches no
    default rule, so [forceLoadReference] returns before the tiled catch and
    no format is selected, although exactly one default format is the
    esri-mapServer one. *)
Lemma forceLoadReference_tiled_unmatched :
  item_type tiledBasemap = "Map Service"
  ∧ In "Tiled" (item_typeKeywords tiledBasemap)
  ∧ List.filter isMapServerFormat (preparedSupportedFormats basemapReference)
    = [mapServerFormat]
  ∧ (forceLoadReference basemapPortal None basemapReference).1 = Ok None
  ∧ _arcgisItem (forceLoadReference basemapPortal None basemapReference).2
    = Some tiledBasemap
  ∧ _supportedFormat (forceLoadReference basemapPortal None basemapReference).2
    ≠ Some mapServerFormat.
Proof.
  split; [reflexivity|]. split; [cbn; auto|].
  split; [vm_compute; reflexivity|]. split; [vm_compute; reflexivity|].
  split; [vm_compute; reflexivity|]. vm_compute. discriminate.
Qed.

Lemma forceLoadReference_tiled_forces_mapServer_topo :
  ∃ target r',
    forceLoadReference topoPortal None topoReference = (Ok target, r')
    ∧ _supportedFormat r' = Some mapServerFormat
    ∧ (target = None ↔
       CatalogMemberFactory_create topoPortal
         (assoc "type" (p_definition mapServerFormat))
         (uniqueId (setArcgisStrata_this topoPortal topoReference).2) = None).
Proof.
  apply (forceLoadReference_tiled_forces_mapServer topoPortal topoReference
           (setArcgisStrata_this topoPortal topoReference).2
           tiledService mapServerGroupFormat mapServerFormat None).
  - vm_compute. reflexivity.
  - vm_compute. reflexivity.
  - vm_compute. reflexivity.
  - reflexivity.
  - simpl. auto.
  - vm_compute. reflexivity.
Defined.

(** C3 as stated fails: the [/data] response [layer0WithError] has a
    non-empty [layers] array, yet the url of the item is left alone and the
    target is the feature service group. *)
Lemma forceLoadReference_data_error_keeps_url :
  layers layer0WithError = Some [ {| layer_id := "0" |} ]
  ∧ loadJson_ArcGisItemInfo featureErrorPortal
      (dataUrl featureErrorPortal
         (setArcgisStrata_this featureErrorPortal featureReference).2
         featureService)
    = Ok layer0WithError
  ∧ item_url <$> _arcgisItem
      (forceLoadReference featureErrorPortal None featureReference).2
    = Some "https://example.com/arcgis/rest/services/Foo/FeatureServer"
  ∧ _supportedFormat (forceLoadReference featureErrorPortal None featureReference).2
    = Some featureServerGroupFormat.
Proof.
  split; [reflexivity|]. split; [vm_compute; reflexivity|].
  split; vm_compute; reflexivity.
Qed.

Lemma forceLoadReference_data_best_effort_feature :
  forceLoadReference featurePortal None featureReference
  = (tiledMapServiceCatch ;; createTarget featurePortal)
      (set_supportedFormat (Some featureServerFormat)
         (set_arcgisItem
            (Some (set_item_url
                     "https://example.com/arcgis/rest/services/Foo/FeatureServer/0"
                     featureService))
            (setArcgisStrata_this featurePortal featureReference).2)).
Proof.
  refine (proj2 (forceLoadReference_data_best_effort featurePortal
                   featureReference
                   (setArcgisStrata_this featurePortal featureReference).2
                   featureService featureServerGroupFormat None _ _ _)
                layer0 _).
  - vm_compute. reflexivity.
  - vm_compute. reflexivity.
  - vm_compute. reflexivity.
  - vm_compute. reflexivity.
Defined.

Lemma forceLoadReference_no_match_webMap :
  ∃ r', forceLoadReference webMapPortal None webMapReference = (Ok None, r')
        ∧ _arcgisItem r' = Some webMap
        ∧ _supportedFormat r' = None.
Proof.
  apply (forceLoadReference_no_match webMapPortal webMapReference webMap None).
  - vm_compute. reflexivity.
  - left. split; [reflexivity|]. split; [eexists; reflexivity|].
    vm_compute. reflexivity.
Defined.

(** The scene service resolves to a 3d-tiles item whose url gets the
    [/i3s-to-3dtiles/] prefix. *)
Lemma sceneService_resolves_to_3d_tiles :
  model_type <$> match (forceLoadReference scenePortal None sceneReference).1 with
                 | Ok target => target
                 | Throw _ => None
                 end
  = Some "3d-tiles"
  ∧ PortalItemStratum_url
      (λ _, (forceLoadReference scenePortal None sceneReference).2)
      {| arcgisPortalItemReference := this sceneReference;
         arcgisPortalCatalogGroup := None |}
    = Some "/i3s-to-3dtiles/https://x/arcgis/rest/services/Foo/SceneServer".
Proof. split; vm_compute; reflexivity. Qed.

(** ** The SDMX-JSON dataflow stratum *)

Lemma orElse_overrideValue {A : Type} (stratum : SdmxJsonDataflowStratum)
    (member : ModelOverride → option A) (dim : Component) :
  (codelistOverrideOf stratum dim ?. member)
  ?? (conceptOverrideOf stratum dim ?. member)
  = overrideValue stratum member dim.
Proof.
  unfold overrideValue, orElse.
  destruct (codelistOverrideOf stratum dim) as [o|]; cbn; [|reflexivity].
  destruct (member o); reflexivity.
Qed.

Lemma mapM_Ok {A B : Type} (f : A → Result B) (l : list A) (k : list B) :
  mapM f l = Ok k → Forall2 (λ x y, f x = Ok y) l k.
Proof.
  revert k. induction l as [|x l IH]; intros k.
  - intros [= <-]. constructor.
  - cbn. destruct (f x) as [y|e] eqn:Hx; cbn; [|discriminate].
    destruct (mapM f l) as [k'|e]; cbn; [|discriminate].
    intros [= <-]. constructor; [exact Hx|]. apply IH. reflexivity.
Qed.

Section SdmxFacts.
Variable t : string → string.
Variable proxyUrl : SdmxJsonCatalogItem → string → string.
Variable loadSdmxJsonStructure : string → Result SdmxJsonStructureMessage.
Variable parseSdmxUrn : option string → option SdmxUrn.

(** C5.  [SdmxJsonDataflowStratum.load] throws a [TerriaError] with the
    fixed title and one of three message keys, and so returns no stratum,
    whenever the fetched structure message has no [data] member, or its
    [dataflows] member is not a non-empty array, or its [dataStructures]
    member is not a non-empty array. *)
Theorem SdmxJsonDataflowStratum_load_rejects
    (catalogItem : SdmxJsonCatalogItem) (message : SdmxJsonStructureMessage) :
  loadSdmxJsonStructure (structureUrl proxyUrl catalogItem) = Ok message →
  data message = None
  ∨ (∃ d, data message = Some d
          ∧ (isNonEmptyArray (dataflows d) = false
             ∨ isNonEmptyArray (dataStructures d) = false)) →
  ∃ key,
    SdmxJsonDataflowStratum_load t proxyUrl loadSdmxJsonStructure catalogItem
    = Throw (TerriaError
               (t "models.sdmxJsonDataflowStratum.loadDataErrorTitle")
               (t ("models.sdmxJsonDataflowStratum.loadDataErrorMessage." +:+ key)))
    ∧ In key ["invalidResponse"; "noDataflow"; "noDatastructure"].
Proof.
  intros Hfetch Hbad. unfold SdmxJsonDataflowStratum_load.
  fold (structureUrl proxyUrl catalogItem). rewrite Hfetch. cbn.
  destruct Hbad as [-> | (d & -> & Hbad)].
  - exists "invalidResponse". cbn. auto.
  - destruct (dataflows d) as [|v|[|dataflow0 flows]];
      try (exists "noDataflow"; cbn; auto; fail).
    destruct Hbad as [Hbad|Hbad]; [discriminate|].
    destruct (dataStructures d) as [|v|[|dataStructure0 structures]];
      try discriminate; exists "noDatastructure"; cbn; auto.
Qed.

(** A response with a dataflow and a data structure is accepted: the
    stratum keeps the first of each. *)
Lemma SdmxJsonDataflowStratum_load_accepts
    (catalogItem : SdmxJsonCatalogItem) (d : StructureData)
    (flow : Dataflow) (flows : list Dataflow)
    (structure : DataStructure) (structures : list DataStructure) :
  loadSdmxJsonStructure (structureUrl proxyUrl catalogItem)
  = Ok {| data := Some d |} →
  dataflows d = Items (flow :: flows) →
  dataStructures d = Items (structure :: structures) →
  SdmxJsonDataflowStratum_load t proxyUrl loadSdmxJsonStructure catalogItem
  = Ok {| catalogItem := catalogItem;
          sdmxJsonDataflow :=
            {| dataflow := flow; dataStructure := structure;
               codelists := data_codelists d;
               conceptSchemes := data_conceptSchemes d;
               contentConstraints := data_contentConstraints d |} |}.
Proof.
  intros Hfetch Hflows Hstructures. unfold SdmxJsonDataflowStratum_load.
  fold (structureUrl proxyUrl catalogItem). rewrite Hfetch. cbn.
  rewrite Hflows, Hstructures. reflexivity.
Qed.

Variable stratum : SdmxJsonDataflowStratum.

(** C6.  For an enumerated dimension whose resolved option list is not
    empty, the callback of [dimensions] returns traits whose options are
    that list and whose [selectedId] is the [selectedId] of the overrides
    (codelist-level before concept-level) when that is the id of one of the
    options, and otherwise the default: undefined when the overrides
    (codelist-level before concept-level) set [allowUndefined], else the id
    of the first option. *)
Theorem dimensions_default_selectedId
    (constraints : option (list ContentConstraint)) (dim : Component)
    (first : DimensionOption) (others : list DimensionOption) :
  dimensionOptions parseSdmxUrn stratum constraints dim = Some (first :: others) →
  ∃ traits,
    dimensionTraits parseSdmxUrn stratum constraints dim = Ok (Some traits)
    ∧ sdim_options traits = first :: others
    ∧ (∀ id, overrideValue stratum selectedId dim = Some id →
             isOptionId id (first :: others) →
             sdim_selectedId traits = Some id)
    ∧ (overrideValue stratum selectedId dim = None
       ∨ (∃ id, overrideValue stratum selectedId dim = Some id
                ∧ ¬ isOptionId id (first :: others)) →
       sdim_selectedId traits
       = if isTrue (overrideValue stratum allowUndefined dim)
         then None else option_id first).
Proof.
  intros Hoptions. unfold dimensionTraits. rewrite Hoptions.
  rewrite !orElse_overrideValue.
  set (fallback := if isTrue (overrideValue stratum allowUndefined dim)
                   then None else option_id first).
  assert ((if isTrue (overrideValue stratum allowUndefined dim)
           then Ok None else Ok (option_id first)) = Ok fallback) as ->.
  { unfold fallback. destruct (isTrue _); reflexivity. }
  cbn [mbind Result_bind]. eexists. split; [reflexivity|].
  cbn [sdim_options sdim_selectedId]. split; [reflexivity|].
  assert (∀ id, existsb (λ option, strictEq (option_id option) (Some id))
                        (first :: others) = true
                ↔ isOptionId id (first :: others)) as Hmem.
  { intros id. unfold isOptionId. rewrite existsb_exists, in_map_iff.
    split.
    - intros (o & Hin & Heq). exists o. split; [|exact Hin].
      destruct (option_id o) as [x|]; [|discriminate].
      cbn in Heq. apply String.eqb_eq in Heq. congruence.
    - intros (o & Heq & Hin). exists o. split; [exact Hin|].
      rewrite Heq. cbn. apply String.eqb_refl. }
  split.
  - intros id Hid Hin. rewrite Hid. apply Hmem in Hin.
    rewrite Hin. reflexivity.
  - intros [Hnone | (id & Hid & Hnotin)].
    + rewrite Hnone. reflexivity.
    + rewrite Hid.
      destruct (existsb _ _) eqn:Hex; [|reflexivity].
      apply Hmem in Hex. contradiction.
Qed.

(** The traits in [dimensions] are those the callback returns for the
    enumerated dimensions, in order. *)
Lemma dimensions_elements (own : list SdmxDimension) :
  dimensions parseSdmxUrn stratum = Ok (Some own) →
  ∃ mapped,
    Forall2 (λ dim traits,
               dimensionTraits parseSdmxUrn stratum (actualConstraints stratum) dim
               = Ok traits)
            (enumeratedDimensions stratum) mapped
    ∧ own = omap id mapped.
Proof.
  unfold dimensions, enumeratedDimensions.
  destruct (components stratum ?. (dl_dimensions ∘ dimensionList)) as [[|dim dims]|];
    try discriminate.
  unfold default; cbn [from_option id]. fold (actualConstraints stratum).
  destruct (mapM _ _) as [mapped|e] eqn:Hmapped; [|discriminate].
  intros [= <-]. exists mapped. split; [|reflexivity].
  apply mapM_Ok. exact Hmapped.
Qed.

Lemma unitMeasureOf_column (override : ModelOverride) :
  unitMeasureOf parseSdmxUrn stratum override
  = match uniqueValues <$> columnOf stratum override with
    | Some [value] =>
        Some (default value (labelOf parseSdmxUrn stratum override value))
    | _ => None
    end.
Proof.
  unfold unitMeasureOf, columnOf, labelOf.
  destruct (dimOrAttrOf stratum override) as [dimOrAttr|]; cbn; [|reflexivity].
  destruct (truthy (comp_id dimOrAttr)); [|reflexivity].
  destruct (findColumnByName _ _) as [column|]; cbn; [|reflexivity].
  destruct (uniqueValues column) as [|value [|? ?]]; try reflexivity.
  destruct (getCodelistByUrn _ _ _ ?. codes ?. _ ?. code_name); reflexivity.
Qed.

(** C7.  The unit string is the contributions of the overrides of type
    unit-measure, joined by ", ", followed by the frequency in parentheses
    when there is one.  An override contributes the single unique value of
    its column, or the label its codelist gives that value; it contributes
    nothing when the column does not have exactly one unique value.  So a
    column with the values ["AUD"] and no codelist contributes "AUD", and a
    column with the values ["AUD"; "USD"] contributes nothing.  The
    frequency is the label of the selected option of the frequency
    dimension when that option has one. *)
Theorem unitMeasure_composition :
  (∀ override column value,
      columnOf stratum override = Some column →
      uniqueValues column = [value] →
      (∀ label, labelOf parseSdmxUrn stratum override value = Some label →
                unitMeasureOf parseSdmxUrn stratum override = Some label)
      ∧ (labelOf parseSdmxUrn stratum override value = None →
         unitMeasureOf parseSdmxUrn stratum override = Some value))
  ∧ (∀ override column,
        columnOf stratum override = Some column →
        length (uniqueValues column) ≠ 1 →
        unitMeasureOf parseSdmxUrn stratum override = None)
  ∧ (∀ override column,
        columnOf stratum override = Some column →
        getCodelistByUrn parseSdmxUrn stratum
          (dimOrAttrOf stratum override ?. comp_enumeration) = None →
        (uniqueValues column = ["AUD"] →
         unitMeasureOf parseSdmxUrn stratum override = Some "AUD")
        ∧ (uniqueValues column = ["AUD"; "USD"] →
           unitMeasureOf parseSdmxUrn stratum override = None))
  ∧ (∀ dim option label,
        frequencyDimension stratum = Some dim →
        selectedOption dim = Some option →
        option_name option = Some label →
        frequencyLabel stratum = Some label)
  ∧ unitMeasure parseSdmxUrn stratum
    = join ", " (omap (unitMeasureOf parseSdmxUrn stratum)
                      (overridesOfType stratum "unit-measure"))
      +:+ match frequencyLabel stratum with
          | Some (String c label) => " (" +:+ String c label +:+ ")"
          | _ => EmptyString
          end.
Proof.
  split; [|split; [|split; [|split]]].
  - intros override column value Hcolumn Hvalues.
    rewrite unitMeasureOf_column, Hcolumn. cbn. rewrite Hvalues.
    split; [intros label Hlabel|intros Hlabel]; rewrite Hlabel; reflexivity.
  - intros override column Hcolumn Hlength.
    rewrite unitMeasureOf_column, Hcolumn. cbn.
    destruct (uniqueValues column) as [|value [|? ?]]; try reflexivity.
    contradiction Hlength. reflexivity.
  - intros override column Hcolumn Hcodelist.
    rewrite unitMeasureOf_column, Hcolumn. cbn.
    split; intros Hvalues; rewrite Hvalues; [|reflexivity].
    unfold labelOf. rewrite Hcodelist. reflexivity.
  - intros dim option label Hdim Hoption Hlabel.
    unfold frequencyLabel. fold (frequencyDimension stratum). rewrite Hdim.
    cbn. fold (selectedOption dim). rewrite Hoption. cbn. rewrite Hlabel.
    reflexivity.
  - unfold unitMeasure. destruct (frequencyLabel stratum) as [[|c label]|];
      reflexivity.
Qed.

Lemma orElse_assoc {A : Type} (a b c : option A) : a ?? b ?? c = a ?? (b ?? c).
Proof. destruct a; reflexivity. Qed.

Lemma orElse_match {A : Type} (a b : option A) :
  match a with Some _ => a | None => b end = a ?? b.
Proof. destruct a; reflexivity. Qed.

Lemma head_omap_cons {A B : Type} (f : A → option B) (x : A) (l : list A) :
  head (omap f (x :: l)) = f x ?? head (omap f l).
Proof. cbn. destruct (f x); reflexivity. Qed.

Lemma head_omap_app {A B : Type} (f : A → option B) (l k : list A) :
  head (omap f (l ++ k)) = head (omap f l) ?? head (omap f k).
Proof.
  induction l as [|x l IH]; [reflexivity|].
  rewrite <- app_comm_cons, !head_omap_cons, IH, orElse_assoc. reflexivity.
Qed.

(** C8, amended.  The column of a non-time dimension that is disabled in
    the [dimensions] of the stratum is hidden and has no region type.  For
    every other non-time dimension the region type of the column is the
    first match, by the region providers, among: the [regionType] of the
    codelist override and of the concept override; when one of these
    overrides has type region, the selected value of the first dimension
    under an override of type region-type; the dimension id; the codelist
    name and id; the concept name and id; to which, when one of the overrides
    has type region, the find/replace aliases of the overrides (codelist
    before concept) are applied.  The column has type "region" exactly
    when that gives a region type, and "hidden" otherwise. *)
Theorem dimensionColumns_regionType :
  (∀ dimensions dim,
      isDisabled dimensions dim = true →
      dimensionColumn parseSdmxUrn stratum dimensions dim
      = {| column_name := comp_id dim; column_title := None;
           column_type := Some "hidden"; column_regionType := None;
           transformation := None |})
  ∧ (∀ dimensions dim,
        isDisabled dimensions dim = false →
        column_regionType (dimensionColumn parseSdmxUrn stratum dimensions dim)
        = aliasedRegionType parseSdmxUrn stratum dim
        ∧ column_type (dimensionColumn parseSdmxUrn stratum dimensions dim)
          = Some match aliasedRegionType parseSdmxUrn stratum dim with
                 | Some _ => "region"
                 | None => "hidden"
                 end)
  ∧ (∀ columns own,
        dimensionColumns parseSdmxUrn stratum = Ok columns →
        dimensions parseSdmxUrn stratum = Ok own →
        columns
        = dimensionColumn parseSdmxUrn stratum own <$> columnDimensions stratum).
Proof.
  split; [|split].
  - intros dimensions dim Hdisabled. unfold dimensionColumn.
    fold (isDisabled dimensions dim). rewrite Hdisabled. reflexivity.
  - intros dimensions dim Hdisabled.
    assert (column_regionType (dimensionColumn parseSdmxUrn stratum dimensions dim)
            = aliasedRegionType parseSdmxUrn stratum dim) as Hregion.
    { unfold dimensionColumn. fold (isDisabled dimensions dim).
      rewrite Hdisabled. cbn [column_regionType].
      unfold aliasedRegionType, claimedRegionType, aliasOf, resolvedRegionType,
        regionTypeCandidates.
      rewrite <- orElse_overrideValue, !orElse_match.
      destruct (isRegionOverride (codelistOverrideOf stratum dim)
                || isRegionOverride (conceptOverrideOf stratum dim));
        rewrite ?head_omap_app, ?head_omap_cons;
        repeat match goal with
        | |- context [matchRegionType stratum ?candidate] =>
            destruct (matchRegionType stratum candidate)
        end; reflexivity. }
    split; [exact Hregion|].
    rewrite <- Hregion. unfold dimensionColumn. fold (isDisabled dimensions dim).
    rewrite Hdisabled. reflexivity.
  - intros columns own. unfold dimensionColumns, columnDimensions.
    destruct (components stratum ?. (dl_dimensions ∘ dimensionList)) as [dims|];
      unfold default; cbn [from_option id]; [|intros [= <-]; reflexivity].
    destruct (List.filter _ dims) as [|dim dims'].
    + intros [= <-] _. reflexivity.
    + intros Hcolumns Hdimensions. rewrite Hdimensions in Hcolumns.
      injection Hcolumns as <-. reflexivity.
Qed.

End SdmxFacts.

(** *** The example dataflow *)

Lemma SdmxJsonDataflowStratum_load_rejects_noDataflow :
  ∃ key,
    SdmxJsonDataflowStratum_load exampleT exampleProxyUrl
      (exampleStructureEndpoint noDataflowResponse) (exampleItem [] [])
    = Throw (TerriaError
               (exampleT "models.sdmxJsonDataflowStratum.loadDataErrorTitle")
               (exampleT ("models.sdmxJsonDataflowStratum.loadDataErrorMessage."
                          +:+ key)))
    ∧ In key ["invalidResponse"; "noDataflow"; "noDatastructure"].
Proof.
  apply (SdmxJsonDataflowStratum_load_rejects exampleT exampleProxyUrl
           (exampleStructureEndpoint noDataflowResponse) (exampleItem [] [])
           noDataflowResponse).
  - vm_compute. reflexivity.
  - right. eexists. split; [reflexivity|]. left. reflexivity.
Defined.

Lemma dimensions_default_selectedId_frequency :
  ∃ traits,
    dimensionTraits exampleParseSdmxUrn (exampleStratum [quarterly] ["AUD"])
      None freqDimension = Ok (Some traits)
    ∧ sdim_options traits
      = [ {| option_id := Some "A"; option_name := Some "Annual" |};
          {| option_id := Some "Q"; option_name := Some "Quarterly" |} ]
    ∧ (∀ id, overrideValue (exampleStratum [quarterly] ["AUD"]) selectedId
               freqDimension = Some id →
             isOptionId id
               [ {| option_id := Some "A"; option_name := Some "Annual" |};
                 {| option_id := Some "Q"; option_name := Some "Quarterly" |} ] →
             sdim_selectedId traits = Some id)
    ∧ (overrideValue (exampleStratum [quarterly] ["AUD"]) selectedId
         freqDimension = None
       ∨ (∃ id, overrideValue (exampleStratum [quarterly] ["AUD"]) selectedId
                  freqDimension = Some id
                ∧ ¬ isOptionId id
                      [ {| option_id := Some "A"; option_name := Some "Annual" |};
                        {| option_id := Some "Q"; option_name := Some "Quarterly" |} ]) →
       sdim_selectedId traits
       = if isTrue (overrideValue (exampleStratum [quarterly] ["AUD"])
                      allowUndefined freqDimension)
         then None else Some "A").
Proof.
  apply (dimensions_default_selectedId exampleParseSdmxUrn
           (exampleStratum [quarterly] ["AUD"]) None freqDimension).
  vm_compute. reflexivity.
Defined.

Lemma unitMeasure_composition_AUD :
  unitMeasureOf exampleParseSdmxUrn (exampleStratum [quarterly] ["AUD"])
    unitMeasureOverride = Some "AUD".
Proof.
  apply (proj1 (unitMeasure_composition exampleParseSdmxUrn
                  (exampleStratum [quarterly] ["AUD"]))
           unitMeasureOverride (unitColumn ["AUD"]) "AUD").
  - vm_compute. reflexivity.
  - reflexivity.
  - vm_compute. reflexivity.
Defined.

(** The unit string of the example: "AUD (Quarterly)"; with a second
    currency in the column the unit is left out. *)
Lemma unitMeasure_example :
  unitMeasure exampleParseSdmxUrn (exampleStratum [quarterly] ["AUD"])
  = "AUD (Quarterly)"
  ∧ unitMeasure exampleParseSdmxUrn (exampleStratum [quarterly] ["AUD"; "USD"])
    = " (Quarterly)".
Proof. split; vm_compute; reflexivity. Qed.

(** C8 as stated fails.  The state dimension is disabled by an override:
    its column is hidden and has no region type, although the region
    providers match the dimension id.  And an alias listed by an override
    that does not have the type region is not applied. *)
Lemma dimensionColumns_disabled_or_unaliased :
  (dimensionColumns exampleParseSdmxUrn (exampleStratum [stateDisabled] ["AUD"])
   = Ok [ hiddenColumn "STATE" None; hiddenColumn "FREQ" (Some "Frequency") ]
   ∧ claimedRegionType exampleParseSdmxUrn
       (exampleStratum [stateDisabled] ["AUD"]) stateDimension
     = Some "STE_2016")
  ∧ (dimensionColumns exampleParseSdmxUrn
       (exampleStratum [stateAliased None] ["AUD"])
     = Ok [ regionTyped "STATE" "State" "STE_2016";
            hiddenColumn "FREQ" (Some "Frequency") ]
     ∧ claimedRegionType exampleParseSdmxUrn
         (exampleStratum [stateAliased None] ["AUD"]) stateDimension
       = Some "STE_2011").
Proof. repeat split; vm_compute; reflexivity. Qed.

Lemma dimensionColumns_regionType_aliased :
  column_regionType
    (dimensionColumn exampleParseSdmxUrn
       (exampleStratum [stateAliased (Some "region")] ["AUD"])
       (item_dimensions (exampleItem [stateAliased (Some "region")] ["AUD"]))
       stateDimension)
  = aliasedRegionType exampleParseSdmxUrn
      (exampleStratum [stateAliased (Some "region")] ["AUD"]) stateDimension
  ∧ column_type
      (dimensionColumn exampleParseSdmxUrn
         (exampleStratum [stateAliased (Some "region")] ["AUD"])
         (item_dimensions (exampleItem [stateAliased (Some "region")] ["AUD"]))
         stateDimension)
    = Some match aliasedRegionType exampleParseSdmxUrn
                   (exampleStratum [stateAliased (Some "region")] ["AUD"])
                   stateDimension with
           | Some _ => "region"
           | None => "hidden"
           end.
Proof.
  apply (proj1 (proj2 (dimensionColumns_regionType exampleParseSdmxUrn
                         (exampleStratum [stateAliased (Some "region")] ["AUD"])))).
  vm_compute. reflexivity.
Defined.

(** ** Loading rejects services that are not image services *)

(** C10.  When the item has a uri, the token (if any) was obtained and the
    service metadata was fetched, [ImageServerStratum.load] throws the
    titled "invalid service" error, and returns no stratum, whenever the
    [capabilities] of the metadata are absent or do not include "Image". *)
Theorem ImageServerStratum_load_rejects_other_services
    (env : ImageServerCollaborators) (item : ArcGisImageServerCatalogItem)
    (token : option string) (serviceMetadata : ImageServer) :
  is_Some (uri item) →
  acquireToken env item = Ok token →
  loadJson_ImageServer env (serviceUrl env item token) = Ok (Some serviceMetadata) →
  (∀ c, capabilities serviceMetadata = Some c → includes c "Image" = false) →
  ImageServerStratum_load env item
  = Throw (TerriaError
             (image_t env "models.arcGisImageServerCatalogItem.invalidServiceTitle")
             (image_t env "models.arcGisImageServerCatalogItem.invalidServiceMessage")).
Proof.
  intros [u Huri] Htoken Hfetch Hcapabilities.
  unfold ImageServerStratum_load. rewrite Huri, Htoken. cbn [mbind Result_bind].
  unfold getJson. rewrite Hfetch.
  destruct (capabilities serviceMetadata) as [c|] eqn:Hc; cbn.
  - rewrite (Hcapabilities c eq_refl). reflexivity.
  - reflexivity.
Qed.

(** An image service is accepted (here without a projection service). *)
Lemma ImageServerStratum_load_accepts
    (env : ImageServerCollaborators) (item : ArcGisImageServerCatalogItem)
    (token : option string) (serviceMetadata : ImageServer) (c : string) :
  is_Some (uri item) →
  acquireToken env item = Ok token →
  loadJson_ImageServer env (serviceUrl env item token) = Ok (Some serviceMetadata) →
  capabilities serviceMetadata = Some c → includes c "Image" = true →
  proj4ServiceBaseUrl item = None →
  ImageServerStratum_load env item
  = Ok {| _item := item; imageServer := serviceMetadata; _token := token |}.
Proof.
  intros [u Huri] Htoken Hfetch Hc Himage Hproj.
  unfold ImageServerStratum_load. rewrite Huri, Htoken. cbn [mbind Result_bind].
  unfold getJson. rewrite Hfetch, Hc, Hproj. cbn. rewrite Himage. reflexivity.
Qed.

Lemma ImageServerStratum_load_rejects_map_service :
  ImageServerStratum_load (exampleImageCollaborators (Ok (Some mapServiceMetadata)))
    elevationItem
  = Throw (TerriaError "models.arcGisImageServerCatalogItem.invalidServiceTitle"
                       "models.arcGisImageServerCatalogItem.invalidServiceMessage").
Proof.
  apply (ImageServerStratum_load_rejects_other_services
           (exampleImageCollaborators (Ok (Some mapServiceMetadata)))
           elevationItem None mapServiceMetadata).
  - eexists. reflexivity.
  - reflexivity.
  - vm_compute. reflexivity.
  - intros c [= <-]. vm_compute. reflexivity.
Defined.

(** ** Duplicating a loaded stratum *)

Lemma sameReadings_eq (a b : SdmxJsonCatalogItem) : sameReadings a b → a = b.
Proof.
  destruct a as [? ? ? ? ? ? ? ? ? ? ? fa ? ? pa],
           b as [? ? ? ? ? ? ? ? ? ? ? fb ? ? pb].
  unfold sameReadings. cbn.
  intros (-> & -> & -> & -> & -> & -> & -> & -> & -> & -> & -> & Hf & -> & -> & Hp).
  assert (fa = fb) as -> by (apply functional_extensionality; exact Hf).
  assert (pa = pb) as ->; [|reflexivity].
  destruct pa as [f|], pb as [g|]; try contradiction; [|reflexivity].
  f_equal. apply functional_extensionality. exact Hp.
Qed.

Lemma resolve_insert_same {S V : Type} (stratumOrder : list string)
    (strata : gmap string S) (name : string) (original duplicate : S)
    (trait : S → option V) :
  strata !! name = Some original →
  trait duplicate = trait original →
  resolve stratumOrder (<[name := duplicate]> strata) trait
  = resolve stratumOrder strata trait.
Proof.
  intros Hlookup Htrait. unfold resolve. f_equal.
  induction (reverse stratumOrder) as [|other names IH]; [reflexivity|].
  cbn. rewrite IH. destruct (decide (name = other)) as [<-|Hne].
  - rewrite lookup_insert_eq, Hlookup. cbn. rewrite Htrait. reflexivity.
  - rewrite lookup_insert_ne by exact Hne. reflexivity.
Qed.

Lemma resolveList_insert_same {S V : Type} (stratumOrder : list string)
    (strata : gmap string S) (name : string) (original duplicate : S)
    (trait : S → option (list V * bool)) :
  strata !! name = Some original →
  trait duplicate = trait original →
  resolveList stratumOrder (<[name := duplicate]> strata) trait
  = resolveList stratumOrder strata trait.
Proof.
  intros Hlookup Htrait. unfold resolveList. generalize (@nil V).
  induction stratumOrder as [|other names IH]; intros values; [reflexivity|].
  cbn. rewrite <- IH. f_equal. destruct (decide (name = other)) as [<-|Hne].
  - rewrite lookup_insert_eq, Hlookup. cbn. rewrite Htrait. reflexivity.
  - rewrite lookup_insert_ne by exact Hne. reflexivity.
Qed.

(** C9 as stated fails for the SDMX stratum: the duplicate reads the model
    it is given.  The new model holds the duplicate of the stratum of the
    example under the same name, and model overrides of its user that select
    quarterly data; it resolves [dimensions], which only the loaded stratum
    defines, with the frequency "Q" selected, the original model with "A". *)
Lemma duplicateLoadableStratum_reads_new_model :
  sdmxJsonDataflow duplicatedStratum = sdmxJsonDataflow (exampleStratum [] ["AUD"])
  ∧ modelOverrides (catalogItem duplicatedStratum)
    = resolveList exampleStratumOrder newStrata modelOverridesTrait
  ∧ selectedIds (resolve exampleStratumOrder originalStrata dimensionsTrait)
    = Some [Some "1"; Some "A"]
  ∧ selectedIds (resolve exampleStratumOrder newStrata dimensionsTrait)
    = Some [Some "1"; Some "Q"].
Proof. repeat split; vm_compute; reflexivity. Qed.

(** C9, amended.  The duplicate of a portal item stratum and the duplicate
    of an ImageServer stratum have the trait values of the original,
    whatever the new model is.  The duplicate of an SDMX stratum keeps the
    fetched dataflow and reads the new model: it has the trait values of the
    original whenever the new model gives the stratum the same readings as
    the original model.  A model that holds a duplicate with the trait values
    of the original under the name of the original, next to the same other
    strata, resolves every trait to the same value (without refetching). *)
Theorem duplicateLoadableStratum_round_trip :
  (∀ (RegExp : Type) (env : Collaborators)
     (deref : Handle → ArcGisPortalItemReference RegExp)
     (stratum : ArcGisPortalItemStratum) (newModel : Model),
      PortalItemStratum_traits env deref
        (PortalItemStratum_duplicateLoadableStratum stratum newModel)
      = PortalItemStratum_traits env deref stratum)
  ∧ (∀ (env : ImageServerCollaborators) (stratum : ImageServerStratum)
       (newModel : ArcGisImageServerCatalogItem),
        ImageServerStratum_traits env
          (ImageServerStratum_duplicateLoadableStratum stratum newModel)
        = ImageServerStratum_traits env stratum)
  ∧ (∀ (parseSdmxUrn : option string → option SdmxUrn)
       (toLocaleString : Z → option Json → string)
       (stratum : SdmxJsonDataflowStratum) (model : SdmxJsonCatalogItem),
        sameReadings model (catalogItem stratum) →
        SdmxJsonDataflowStratum_traits parseSdmxUrn toLocaleString
          (SdmxJsonDataflowStratum_duplicateLoadableStratum stratum model)
        = SdmxJsonDataflowStratum_traits parseSdmxUrn toLocaleString stratum)
  ∧ (∀ (S V : Type) (stratumOrder : list string) (strata : gmap string S)
       (name : string) (original duplicate : S),
        strata !! name = Some original →
        (∀ trait : S → option V,
            trait duplicate = trait original →
            resolve stratumOrder (<[name := duplicate]> strata) trait
            = resolve stratumOrder strata trait)
        ∧ (∀ trait : S → option (list V * bool),
              trait duplicate = trait original →
              resolveList stratumOrder (<[name := duplicate]> strata) trait
              = resolveList stratumOrder strata trait)).
Proof.
  split; [|split; [|split]].
  - intros. reflexivity.
  - intros. reflexivity.
  - intros parseSdmxUrn toLocaleString stratum model Hsame.
    apply sameReadings_eq in Hsame as ->. destruct stratum. reflexivity.
  - intros S V stratumOrder strata name original duplicate Hlookup. split.
    + intros trait. apply resolve_insert_same. exact Hlookup.
    + intros trait. apply resolveList_insert_same. exact Hlookup.
Qed.

Lemma duplicateLoadableStratum_round_trip_example :
  SdmxJsonDataflowStratum_traits exampleParseSdmxUrn exampleToLocaleString
    (SdmxJsonDataflowStratum_duplicateLoadableStratum
       (exampleStratum [] ["AUD"]) exampleItemAgain)
  = SdmxJsonDataflowStratum_traits exampleParseSdmxUrn exampleToLocaleString
      (exampleStratum [] ["AUD"]).
Proof.
  apply (proj1 (proj2 (proj2 duplicateLoadableStratum_round_trip))).
  repeat split; reflexivity.
Defined.

(** ** More on format matching *)

(** X1.  A format rule is only ever selected through a regular expression
    it declares: the selected rule comes from a declared format with a
    non-empty [formatRegex] or [urlRegex], and each of the two that is
    non-empty matches the type, respectively the url, of the item.  So a
    format that declares no pattern (or only empty ones) is never
    selected. *)
Theorem isItemInSupportedFormats_selected_by_pattern
    {RegExp : Type} `{RegExpOps RegExp}
    (formats : list ArcGisPortalItemFormatTraits) (item : ArcGisItem)
    (selected : PreparedSupportedFormat RegExp) :
  isItemInSupportedFormats (prepareSupportedFormat <$> formats) (Some item)
  = Some selected →
  ∃ declared,
    In declared formats
    ∧ selected = prepareSupportedFormat declared
    ∧ (truthy (formatRegex declared) = true ∨ truthy (urlRegex declared) = true)
    ∧ (∀ src, formatRegex declared = Some src → src ≠ EmptyString →
              RegExp_test (RegExp_new_i src) (item_type item) = true)
    ∧ (∀ src, urlRegex declared = Some src → src ≠ EmptyString →
              RegExp_test (RegExp_new_i src) (item_url item) = true).
Proof.
  cbn [isItemInSupportedFormats]. rewrite isItemInSupportedFormats_loop_find.
  intros Hfind. apply find_some in Hfind as [Hin Hmatch].
  apply in_map_iff in Hin as (declared & <- & Hin).
  exists declared. split; [exact Hin|]. split; [reflexivity|].
  unfold ruleMatches, prepareSupportedFormat in Hmatch.
  cbn [p_formatRegex p_urlRegex] in Hmatch.
  assert (∀ src : string, src ≠ EmptyString → truthy (Some src) = true) as Htruthy.
  { intros src Hsrc. cbn. apply negb_true_iff, String.eqb_neq. exact Hsrc. }
  destruct (formatRegex declared) as [formatRe|] eqn:Hformat,
           (urlRegex declared) as [urlRe|] eqn:Hurl.
  - destruct (truthy (Some formatRe)) eqn:Hf, (truthy (Some urlRe)) eqn:Hu;
      cbn in Hmatch; try discriminate.
    + apply andb_prop in Hmatch as [Ht Hu']. repeat split; auto.
      * intros src [= <-] _. exact Ht.
      * intros src [= <-] _. exact Hu'.
    + repeat split; auto.
      * intros src [= <-] _. exact Hmatch.
      * intros src [= <-] Hsrc. rewrite (Htruthy _ Hsrc) in Hu. discriminate.
    + repeat split; auto.
      * intros src [= <-] Hsrc. rewrite (Htruthy _ Hsrc) in Hf. discriminate.
      * intros src [= <-] _. exact Hmatch.
  - destruct (truthy (Some formatRe)) eqn:Hf; cbn in Hmatch; try discriminate.
    repeat split; auto; [|discriminate].
    intros src [= <-] _. exact Hmatch.
  - destruct (truthy (Some urlRe)) eqn:Hu; cbn in Hmatch; try discriminate.
    repeat split; auto; [discriminate|].
    intros src [= <-] _. exact Hmatch.
  - cbn in Hmatch. discriminate.
Qed.

Lemma isItemInSupportedFormats_selected_by_pattern_layer3 :
  ∃ declared,
    In declared defaultSupportedFormats
    ∧ featureServerFormat = prepareSupportedFormat declared
    ∧ (truthy (formatRegex declared) = true ∨ truthy (urlRegex declared) = true)
    ∧ (∀ src, formatRegex declared = Some src → src ≠ EmptyString →
              RegExp_test (RegExp_new_i src) (item_type layer3) = true)
    ∧ (∀ src, urlRegex declared = Some src → src ≠ EmptyString →
              RegExp_test (RegExp_new_i src) (item_url layer3) = true).
Proof.
  apply (isItemInSupportedFormats_selected_by_pattern defaultSupportedFormats layer3).
  vm_compute. reflexivity.
Defined.

Section DefaultRules.
Import PatternRegExp.

Local Abbreviation defaults := (prepareSupportedFormat <$> defaultSupportedFormats).

(** Evaluate the tests of the patterns on a type that is known. *)
Ltac test_type type :=
  repeat match goal with
  | |- context [RegExp_test (RegExp_new_i ?src) type] =>
      let b := eval vm_compute in (RegExp_test (RegExp_new_i src) type) in
      change (RegExp_test (RegExp_new_i src) type) with b
  end.

Lemma ruleMatches_format_only (item : ArcGisItem) (id formatRe type : string) :
  truthy (Some formatRe) = true →
  ruleMatches item (prepareSupportedFormat (format id formatRe None type))
  = RegExp_test (RegExp_new_i formatRe) (item_type item).
Proof.
  intros Hf. unfold ruleMatches, prepareSupportedFormat, format.
  cbn [p_formatRegex p_urlRegex formatRegex urlRegex]. rewrite Hf. reflexivity.
Qed.

(** X2.  The KML rule of the default formats has no url pattern: an item
    of type "KML" is matched by it whatever its url is. *)
Theorem defaultSupportedFormats_kml_any_url (item : ArcGisItem) :
  item_type item = "KML" →
  isItemInSupportedFormats defaults (Some item) = Some kmlFormat
  ∧ assoc "type" (p_definition kmlFormat) = Some (JString "kml").
Proof.
  intros Htype. split; [|reflexivity].
  cbn [isItemInSupportedFormats]. rewrite isItemInSupportedFormats_loop_find.
  cbn [fmap list_fmap defaultSupportedFormats List.find].
  rewrite !ruleMatches_format, ruleMatches_format_only by reflexivity.
  rewrite Htype. test_type "KML". reflexivity.
Qed.

Lemma defaultSupportedFormats_kml_any_url_example :
  isItemInSupportedFormats defaults
    (Some (set_item_url "ftp://files.example.com/tracks"
             {| item_id := "4b1d0000"; item_type := "KML";
                item_url := "https://example.com/doc.kml";
                item_title := "Tracks"; item_description := "Walking tracks";
                item_extent := None; item_licenseInfo := None;
                item_typeKeywords := ["KML"] |}))
  = Some kmlFormat
  ∧ assoc "type" (p_definition kmlFormat) = Some (JString "kml").
Proof. apply defaultSupportedFormats_kml_any_url. reflexivity. Defined.

Lemma sceneServer_accepts pre :
  RegExp_test (RegExp_new_i "SceneServer$|SceneServer/$") (pre +:+ "SceneServer")
  = true
  ∧ RegExp_test (RegExp_new_i "SceneServer$|SceneServer/$") (pre +:+ "SceneServer/")
    = true.
Proof.
  change (search [ (AChar <$> String.list_ascii_of_string "SceneServer") ++ [AEnd];
                   (AChar <$> String.list_ascii_of_string "SceneServer/") ++ [AEnd] ]
                 (pre +:+ "SceneServer") = true
          ∧ search [ (AChar <$> String.list_ascii_of_string "SceneServer") ++ [AEnd];
                     (AChar <$> String.list_ascii_of_string "SceneServer/") ++ [AEnd] ]
                   (pre +:+ "SceneServer/") = true).
  split; apply search_suffix; reflexivity.
Qed.

(** X3.  A scene service whose url ends in "SceneServer" or "SceneServer/"
    is matched by the first default rule (3d-tiles), and the portal stratum
    of a reference that holds it gives the url with the prefix
    "/i3s-to-3dtiles/". *)
Theorem sceneService_3d_tiles (env : Collaborators)
    (deref : Handle → ArcGisPortalItemReference (option Pattern))
    (stratum : ArcGisPortalItemStratum) (item : ArcGisItem) (pre : string) :
  item_type item = "Scene Service" →
  item_url item = pre +:+ "SceneServer" ∨ item_url item = pre +:+ "SceneServer/" →
  _arcgisItem (deref (arcgisPortalItemReference stratum)) = Some item →
  isItemInSupportedFormats defaults (Some item) = Some i3sFormat
  ∧ assoc "type" (p_definition i3sFormat) = Some (JString "3d-tiles")
  ∧ PortalItemStratum_url deref stratum
    = Some ("/i3s-to-3dtiles/" +:+ item_url item).
Proof.
  intros Htype Hurl Hitem. split; [|split; [reflexivity|]].
  - cbn [isItemInSupportedFormats]. rewrite isItemInSupportedFormats_loop_find.
    cbn [fmap list_fmap defaultSupportedFormats List.find].
    rewrite !ruleMatches_format by reflexivity. rewrite Htype.
    destruct (sceneServer_accepts pre) as [Hplain Hslash].
    destruct Hurl as [-> | ->]; rewrite ?Hplain, ?Hslash;
      test_type "Scene Service"; reflexivity.
  - unfold PortalItemStratum_url, arcgisPortalItem. rewrite Hitem. cbn.
    rewrite Htype. reflexivity.
Qed.

Lemma sceneService_3d_tiles_example :
  isItemInSupportedFormats defaults (Some sceneService) = Some i3sFormat
  ∧ assoc "type" (p_definition i3sFormat) = Some (JString "3d-tiles")
  ∧ PortalItemStratum_url
      (λ _, set_arcgisItem (Some sceneService) sceneReference)
      {| arcgisPortalItemReference := 1%positive;
         arcgisPortalCatalogGroup := None |}
    = Some ("/i3s-to-3dtiles/" +:+ item_url sceneService).
Proof.
  apply (sceneService_3d_tiles scenePortal _ _ sceneService
           "https://x/arcgis/rest/services/Foo/").
  - reflexivity.
  - left. reflexivity.
  - reflexivity.
Defined.

Lemma append_assoc (a b c : string) : (a +:+ b) +:+ c = a +:+ (b +:+ c).
Proof.
  induction a as [|x a IH]; [reflexivity|].
  rewrite !append_cons, IH. reflexivity.
Qed.

Lemma append_empty (s : string) : EmptyString +:+ s = s.
Proof. reflexivity. Qed.

Lemma search_cons p (c : ascii) (s : string) :
  search p (String c s)
  = existsb (λ alt, matchSeq alt (String c s)) p || search p s.
Proof. reflexivity. Qed.

(** A digit is no letter, whatever the case. *)
Lemma digit_not_letter (x : ascii) :
  isDigit x = true → Ascii.eqb (toLower "F") (toLower x) = false.
Proof.
  destruct x as [[] [] [] [] [] [] [] []]; intros Hx;
    try discriminate Hx; reflexivity.
Qed.

(** The group pattern finds nothing in a string of digits. *)
Lemma search_digits (digits : string) :
  allDigits digits = true →
  search [ (AChar <$> String.list_ascii_of_string "FeatureServer") ++ [AEnd];
           (AChar <$> String.list_ascii_of_string "FeatureServer/") ++ [AEnd] ]
         digits = false.
Proof.
  induction digits as [|x digits IH]; intros Hdigits; [reflexivity|].
  cbn [allDigits] in Hdigits. apply andb_prop in Hdigits as [Hx Hdigits].
  cbn [search]. rewrite (IH Hdigits), orb_false_r.
  cbn [existsb matchSeq fmap list_fmap String.list_ascii_of_string app].
  rewrite (digit_not_letter x Hx). reflexivity.
Qed.

Lemma featureServerGroup_rejects_numbered_layer pre id :
  isLayerNumber id = true →
  RegExp_test (RegExp_new_i "FeatureServer$|FeatureServer/$")
              (pre +:+ "/FeatureServer/" +:+ id) = false.
Proof.
  intros Hid.
  change (search [ (AChar <$> String.list_ascii_of_string "FeatureServer") ++ [AEnd];
                   (AChar <$> String.list_ascii_of_string "FeatureServer/") ++ [AEnd] ]
                 (pre +:+ "/FeatureServer/" +:+ id) = false).
  destruct id as [|d rest]; [discriminate|]. cbn [isLayerNumber] in Hid.
  apply (search_anchored_suffix _ _ _ 15).
  - repeat constructor.
    + exists 13. split; [lia|]. eexists. split; [reflexivity|].
      split; [reflexivity|]. repeat constructor; discriminate.
    + exists 14. split; [lia|]. eexists. split; [reflexivity|].
      split; [reflexivity|]. repeat constructor; discriminate.
  - rewrite length_append. cbn. lia.
  - rewrite !append_cons, append_empty.
    do 15 (rewrite search_cons;
           match goal with
           | |- ?here || _ = _ => change here with false
           end; rewrite orb_false_l).
    apply search_digits. exact Hid.
Qed.

Lemma featureServer_accepts_numbered_layer pre id :
  isLayerNumber id = true →
  RegExp_test (RegExp_new_i "FeatureServer\/\d")
              (pre +:+ "/FeatureServer/" +:+ id) = true.
Proof.
  intros Hid.
  change (search [ (AChar <$> String.list_ascii_of_string "FeatureServer/") ++ [ADigit] ]
                 (pre +:+ "/FeatureServer/" +:+ id) = true).
  destruct id as [|d rest]; [discriminate|]. cbn [isLayerNumber allDigits] in Hid.
  apply andb_prop in Hid as [Hd _].
  apply search_suffix. rewrite !append_cons, append_empty.
  rewrite search_cons.
  match goal with |- ?here || _ = _ => change here with false end.
  rewrite orb_false_l, search_cons.
  cbn [existsb matchSeq fmap list_fmap String.list_ascii_of_string app].
  rewrite Hd. reflexivity.
Qed.

Lemma featureServerGroup_accepts_root pre :
  RegExp_test (RegExp_new_i "FeatureServer$|FeatureServer/$")
              (pre +:+ "/FeatureServer") = true.
Proof.
  change (search [ (AChar <$> String.list_ascii_of_string "FeatureServer") ++ [AEnd];
                   (AChar <$> String.list_ascii_of_string "FeatureServer/") ++ [AEnd] ]
                 (pre +:+ "/FeatureServer") = true).
  apply search_suffix. reflexivity.
Qed.

(** X4.  Under the default rules the [/data] refinement turns a feature
    service group into a single feature layer: an item of type
    "Feature Service" whose url ends in "/FeatureServer" is matched by
    "ArcGIS FeatureServer Group", and once a response without [error]
    member lists a first layer with a numeric id, the item with that id
    appended is matched by "ArcGIS FeatureServer". *)
Theorem refinement_selects_feature_layer
    (item : ArcGisItem) (pre : string) (info : ArcGisItemInfo)
    (layer : ArcGisItemLayerInfo) (others : list ArcGisItemLayerInfo) :
  item_type item = "Feature Service" →
  item_url item = pre +:+ "/FeatureServer" →
  error info = None →
  layers info = Some (layer :: others) →
  isLayerNumber (layer_id layer) = true →
  isItemInSupportedFormats defaults (Some item) = Some featureServerGroupFormat
  ∧ item_url (refinedItem info item) = item_url item +:+ "/" +:+ layer_id layer
  ∧ isItemInSupportedFormats defaults (Some (refinedItem info item))
    = Some featureServerFormat.
Proof.
  intros Htype Hurl Herror Hlayers Hid.
  assert (refinedItem info item
          = set_item_url (item_url item +:+ "/" +:+ layer_id layer) item) as ->.
  { unfold refinedItem. rewrite Herror, Hlayers. reflexivity. }
  split; [|split; [reflexivity|]].
  - cbn [isItemInSupportedFormats]. rewrite isItemInSupportedFormats_loop_find.
    cbn [fmap list_fmap defaultSupportedFormats List.find].
    rewrite !ruleMatches_format by reflexivity. rewrite Htype, Hurl.
    rewrite featureServerGroup_accepts_root.
    test_type "Feature Service". reflexivity.
  - cbn [isItemInSupportedFormats]. rewrite isItemInSupportedFormats_loop_find.
    cbn [fmap list_fmap defaultSupportedFormats List.find].
    rewrite !ruleMatches_format by reflexivity.
    cbn [set_item_url item_type item_url]. rewrite Htype, Hurl.
    rewrite append_assoc.
    change ("/FeatureServer" +:+ "/" +:+ layer_id layer)
      with ("/FeatureServer/" +:+ layer_id layer).
    rewrite (featureServerGroup_rejects_numbered_layer _ _ Hid),
      (featureServer_accepts_numbered_layer _ _ Hid).
    test_type "Feature Service". reflexivity.
Qed.

Lemma refinement_selects_feature_layer_example :
  isItemInSupportedFormats defaults (Some featureService)
  = Some featureServerGroupFormat
  ∧ item_url (refinedItem layer0 featureService)
    = item_url featureService +:+ "/" +:+ "0"
  ∧ isItemInSupportedFormats defaults (Some (refinedItem layer0 featureService))
    = Some featureServerFormat.
Proof.
  apply (refinement_selects_feature_layer featureService
           "https://example.com/arcgis/rest/services/Foo" layer0
           {| layer_id := "0" |} []); reflexivity.
Defined.

End DefaultRules.

(** ** More on reference resolution *)

Section ReferenceStateFacts.
Context {RegExp : Type} `{RegExpOps RegExp}.
Variable env : Collaborators.

Local Abbreviation Reference := (ArcGisPortalItemReference RegExp).

Ltac run :=
  unfold mbind, Method_bind, mret, Method_ret, read, assign, await, throw,
    tryCatch; cbn beta iota.

(** What a load returns and what it leaves alone. *)
Lemma load_inv (group : option ArcGisPortalCatalogGroup) (r r1 : Reference) stratum :
  ArcGisPortalItemStratum_load env group r = (Ok stratum, r1) →
  stratum = {| arcgisPortalItemReference := this r;
               arcgisPortalCatalogGroup := group |}
  ∧ sameIdentity r r1 ∧ strata r1 = strata r.
Proof.
  unfold sameIdentity.
  destruct (_arcgisItem r) as [item|] eqn:Hitem.
  - rewrite (load_held _ _ _ _ Hitem). intros [= <- <-].
    destruct group; cbn; auto 10.
  - destruct (uniqueId r) as [id|] eqn:Hid.
    + rewrite (load_fresh _ _ _ _ Hitem Hid).
      destruct (loadJson_ArcGisItem env _); [|discriminate].
      intros [= <- <-]. cbn. auto 10.
    + rewrite (load_anonymous _ _ _ Hitem Hid). intros [= <- <-]. auto 10.
Qed.


(** X6.  When the request for the portal item fails, [forceLoadReference]
    throws the error of the request: no stratum is installed, no item and no
    format are recorded; only the portal root url has been assigned. *)
Theorem forceLoadReference_item_request_fails
    (r : Reference) (id : string) (e : Error) (previousTarget : option Model) :
  _arcgisItem r = None →
  uniqueId r = Some id →
  loadJson_ArcGisItem env (itemUrl env r) = Throw e →
  forceLoadReference env previousTarget r
  = (Throw e, set_portalRootUrl (url r) r).
Proof.
  intros Hitem Hid Hfail. unfold forceLoadReference, setArcgisStrata_this.
  run. rewrite (load_fresh _ _ _ _ Hitem Hid), Hfail. reflexivity.
Qed.


(** X8.  When the [/data] refinement leaves an item that no rule matches,
    and the item is not a tiled map service, [forceLoadReference] throws a
    [TypeError] (it reads the definition of the undefined format) instead
    of returning [undefined]. *)
Theorem forceLoadReference_refined_unmatched
    (r r1 : Reference) (item : ArcGisItem)
    (primary : PreparedSupportedFormat RegExp) (info : ArcGisItemInfo)
    (previousTarget : option Model) :
  setArcgisStrata_this env r = (Ok tt, r1) →
  _arcgisItem r1 = Some item →
  _supportedFormat r1 = Some primary →
  loadJson_ArcGisItemInfo env (dataUrl env r1 item) = Ok info →
  isItemInSupportedFormats (preparedSupportedFormats r1)
    (Some (refinedItem info item)) = None →
  isTiledMapService item = false →
  (forceLoadReference env previousTarget r).1 = Throw TypeError.
Proof.
  intros Hload Hitem Hprimary Hinfo Hnone Htiled.
  rewrite (forceLoadReference_loaded _ _ _ _ Hload), Hprimary.
  unfold mbind at 1, Method_bind at 1.
  rewrite (loadAdditionalPortalInfo_held _ _ _ Hitem), Hinfo.
  unfold mbind at 1, Method_bind at 1.
  rewrite (refineWithItemData_held _ _ _ Hitem).
  change (preparedSupportedFormats r1) with (preparedSupportedFormats r1) in Hnone.
  rewrite Hnone.
  unfold mbind at 1, Method_bind at 1. unfold tiledMapServiceCatch. run.
  cbn [_arcgisItem set_supportedFormat set_arcgisItem].
  unfold isTiledMapService in Htiled.
  rewrite refinedItem_type, refinedItem_typeKeywords, Htiled.
  unfold createTarget. run. reflexivity.
Qed.

Lemma setTrait_lookup_ne (stratumId trait other : string) (value : option Json)
    (st : gmap string Stratum) :
  stratumId ≠ other → setTrait stratumId trait value st !! other = st !! other.
Proof.
  intros Hne. unfold setTrait.
  destruct (st !! stratumId) as [[values|portal]|];
    rewrite ?lookup_insert_ne by exact Hne; reflexivity.
Qed.

Lemma itemProperties_lookup_ne (other : string) (properties : list (string * Json))
    (st : gmap string Stratum) :
  other ≠ "override" →
  foldl (λ st p, setTrait "override" p.1 (Some p.2) st) st properties !! other
  = st !! other.
Proof.
  intros Hne. revert st. induction properties as [|p properties IH]; intros st;
    [reflexivity|].
  cbn [foldl]. rewrite IH. apply setTrait_lookup_ne. congruence.
Qed.

(** The strata of a created target and of the reference afterwards. *)
Lemma createTarget_strata (r r' : Reference) (target : Model) :
  createTarget env r = (Ok (Some target), r') →
  sameIdentity r r'
  ∧ model_strata target !! stratumName = Some (portalStratumOf r)
  ∧ strata r' !! stratumName = strata r !! stratumName
  ∧ (∀ values, strata r !! "definition" = Some (TraitValues values) →
       model_strata target !! "definition"
       = Some (TraitValues (delete "url" values))
       ∧ strata r' !! "definition" = Some (TraitValues (delete "url" values))).
Proof.
  unfold createTarget, setArcgisStrata. run.
  destruct (_supportedFormat r) as [supportedFormat|]; [|discriminate].
  destruct (CatalogMemberFactory_create env _ _) as [model|]; [|discriminate].
  destruct (ArcGisPortalItemStratum_load env _ r) as [[stratum|e] r1] eqn:Hload;
    [|discriminate].
  destruct (load_inv _ _ _ _ Hload) as (-> & Hsame & Hstrata).
  assert (this r1 = this r ∧ _arcgisPortalCatalogGroup r1 = _arcgisPortalCatalogGroup r)
    as [Hthis Hgroup] by (destruct Hsame as (? & ? & _); auto).
  destruct (strata r1 !! "definition") as [definition|] eqn:Hdefinition; run;
    intros [= <- <-]; cbn [model_strata set_model_strata strata set_strata].
  - split; [exact Hsame|].
    rewrite itemProperties_lookup_ne by discriminate.
    assert (∀ m : gmap string Stratum,
              (setTrait "definition" "url" None {["definition" := definition]} ∪ m)
              !! stratumName = m !! stratumName) as Hother.
    { intros m. apply lookup_union_r. rewrite setTrait_lookup_ne by discriminate.
      apply lookup_singleton_ne. discriminate. }
    rewrite !Hother, lookup_insert_eq, Hstrata.
    split; [reflexivity|]. split; [reflexivity|].
    intros values Hvalues. rewrite Hstrata in Hdefinition.
    rewrite Hdefinition in Hvalues. injection Hvalues as ->.
    rewrite itemProperties_lookup_ne by discriminate.
    assert (∀ m : gmap string Stratum,
              (setTrait "definition" "url" None
                 {["definition" := TraitValues values]} ∪ m) !! "definition"
              = Some (TraitValues (delete "url" values))) as Hshared.
    { intros m. apply lookup_union_Some_l. unfold setTrait.
      rewrite lookup_singleton_eq, insert_singleton_eq. apply lookup_singleton_eq. }
    rewrite !Hshared. auto.
  - split; [exact Hsame|].
    rewrite itemProperties_lookup_ne by discriminate.
    rewrite lookup_insert_eq, Hstrata.
    split; [reflexivity|]. split; [reflexivity|].
    intros values Hvalues. rewrite Hstrata in Hdefinition. congruence.
Qed.

Lemma sameIdentity_trans (a b c : Reference) :
  sameIdentity a b → sameIdentity b c → sameIdentity a c.
Proof. unfold sameIdentity. intuition congruence. Qed.

Lemma loadAdditionalPortalInfo_state (r : Reference) :
  ∃ info, loadAdditionalPortalInfo env r = (Ok info, r).
Proof.
  unfold loadAdditionalPortalInfo. run.
  destruct (_arcgisItem r); run; [|eauto].
  destruct (loadJson_ArcGisItemInfo env _); eauto.
Qed.

Lemma refineWithItemData_state (info : option ArcGisItemInfo) (r : Reference) :
  ∃ r', refineWithItemData info r = (Ok tt, r')
        ∧ sameIdentity r r' ∧ strata r' = strata r.
Proof.
  unfold refineWithItemData, setSupportedFormatFromItem, sameIdentity. run.
  destruct info as [info|], (_arcgisItem r) as [item|];
    eexists; (split; [reflexivity|]); cbn; auto 10.
Qed.

Lemma tiledMapServiceCatch_state (r : Reference) :
  ∃ r', tiledMapServiceCatch r = (Ok tt, r')
        ∧ sameIdentity r r' ∧ strata r' = strata r.
Proof.
  unfold tiledMapServiceCatch, sameIdentity. run.
  destruct (_arcgisItem r) as [item|]; [|exists r; auto 10].
  destruct (_ && _); [|exists r; auto 10]. run.
  destruct (List.filter _ _) as [|f [|? ?]]; run;
    eexists; (split; [reflexivity|]); cbn; auto 10.
Qed.

(** X9.  A target returned by [forceLoadReference] holds, under the name
    "arcGisPortalDataset", a portal stratum that points to the reference,
    and so does the reference.  When the reference has a definition stratum,
    target and reference hold it as one object: in both it has lost its
    [url] and kept its other traits. *)
Theorem forceLoadReference_target_strata
    (r r' : Reference) (target : Model) (previousTarget : option Model) :
  forceLoadReference env previousTarget r = (Ok (Some target), r') →
  model_strata target !! stratumName = Some (portalStratumOf r)
  ∧ strata r' !! stratumName = Some (portalStratumOf r)
  ∧ (∀ values, strata r !! "definition" = Some (TraitValues values) →
       model_strata target !! "definition"
       = Some (TraitValues (delete "url" values))
       ∧ strata r' !! "definition" = Some (TraitValues (delete "url" values))).
Proof.
  destruct (setArcgisStrata_this env r) as [[[]|e] r1] eqn:Hload.
  2:{ unfold forceLoadReference. unfold mbind at 1, Method_bind at 1.
      rewrite Hload. discriminate. }
  rewrite (forceLoadReference_loaded _ _ _ _ Hload).
  destruct (setArcgisStrata_this_inv _ _ _ Hload) as (stratum & r0 & Hload0 & ->).
  destruct (load_inv _ _ _ _ Hload0) as (-> & Hsame0 & Hstrata0).
  set (r1 := set_strata _ r0) in *.
  assert (sameIdentity r r1) as Hsame1 by exact Hsame0.
  assert (strata r1 = <[stratumName := portalStratumOf r]> (strata r)) as Hstrata1.
  { unfold r1, portalStratumOf. cbn. rewrite Hstrata0. reflexivity. }
  destruct (_supportedFormat r1); [|discriminate].
  unfold mbind at 1, Method_bind at 1.
  destruct (loadAdditionalPortalInfo_state r1) as [info ->].
  unfold mbind at 1, Method_bind at 1.
  destruct (refineWithItemData_state info r1) as (r2 & -> & Hsame2 & Hstrata2).
  unfold mbind at 1, Method_bind at 1.
  destruct (tiledMapServiceCatch_state r2) as (r3 & -> & Hsame3 & Hstrata3).
  intros Htarget.
  destruct (createTarget_strata _ _ _ Htarget) as (_ & Hportal & Hkept & Hdefinition).
  assert (sameIdentity r r3) as (Hthis & Hgroup & _)
    by (eapply sameIdentity_trans; [|exact Hsame3];
        eapply sameIdentity_trans; eassumption).
  assert (strata r3 = <[stratumName := portalStratumOf r]> (strata r)) as Hstrata
    by congruence.
  assert (portalStratumOf r3 = portalStratumOf r) as Hof
    by (unfold portalStratumOf; congruence).
  split; [congruence|]. split.
  - rewrite Hkept, Hstrata. apply lookup_insert_eq.
  - intros values Hvalues. apply Hdefinition.
    rewrite Hstrata, lookup_insert_ne by discriminate. exact Hvalues.
Qed.

End ReferenceStateFacts.

(** ** The facts on reference resolution on examples *)


Lemma forceLoadReference_item_request_fails_offline :
  forceLoadReference offlinePortal None featureReference
  = (Throw RequestFailed, set_portalRootUrl (url featureReference) featureReference).
Proof.
  apply (forceLoadReference_item_request_fails offlinePortal featureReference
           ("portal/" +:+ item_id featureService) RequestFailed None).
  - reflexivity.
  - reflexivity.
  - reflexivity.
Defined.


Lemma forceLoadReference_refined_unmatched_roads :
  (forceLoadReference roadsPortal None featureReference).1 = Throw TypeError.
Proof.
  apply (forceLoadReference_refined_unmatched roadsPortal featureReference
           (setArcgisStrata_this roadsPortal featureReference).2
           featureService featureServerGroupFormat layerRoads None).
  - vm_compute. reflexivity.
  - vm_compute. reflexivity.
  - vm_compute. reflexivity.
  - vm_compute. reflexivity.
  - vm_compute. reflexivity.
  - vm_compute. reflexivity.
Defined.

Lemma forceLoadReference_target_strata_defined :
  ∃ target r',
    forceLoadReference topoPortal None definedReference = (Ok (Some target), r')
    ∧ model_strata target !! "definition"
      = Some (TraitValues (delete "url" definedValues))
    ∧ strata r' !! "definition"
      = Some (TraitValues (delete "url" definedValues)).
Proof.
  eexists _, _. split; [vm_compute; reflexivity|].
  refine (proj2 (proj2 (forceLoadReference_target_strata topoPortal
                          definedReference _ _ None _)) definedValues _).
  - vm_compute. reflexivity.
  - vm_compute. reflexivity.
Defined.

(** ** The loaded ImageServer stratum *)

(** X10.  A stratum returned by [ImageServerStratum.load] belongs to the item
    it was loaded for, the item has a uri, the stratum carries the token
    that was acquired and the metadata fetched with it, and the capabilities
    of that metadata include "Image". *)
Theorem ImageServerStratum_load_sound
    (env : ImageServerCollaborators) (item : ArcGisImageServerCatalogItem)
    (stratum : ImageServerStratum) :
  ImageServerStratum_load env item = Ok stratum →
  is_Some (uri item)
  ∧ _item stratum = item
  ∧ acquireToken env item = Ok (_token stratum)
  ∧ getJson env (serviceUrl env item (_token stratum)) = Some (imageServer stratum)
  ∧ ∃ c, capabilities (imageServer stratum) = Some c ∧ includes c "Image" = true.
Proof.
  unfold ImageServerStratum_load.
  destruct (uri item) as [u|] eqn:Huri; [|discriminate].
  destruct (acquireToken env item) as [token|e] eqn:Htoken; [|discriminate].
  cbn [mbind Result_bind].
  destruct (getJson env (serviceUrl env item token)) as [metadata|] eqn:Hjson;
    [|discriminate].
  destruct (capabilities metadata) as [c|] eqn:Hc; cbn [fmap option_fmap option_map default from_option id negb];
    [|discriminate].
  destruct (includes c "Image") eqn:Himage; cbn [negb]; [|discriminate].
  assert (Hdone : Ok {| _item := item; imageServer := metadata; _token := token |}
                  = Ok stratum →
                  is_Some (Some u)
                  ∧ _item stratum = item
                  ∧ Ok token = Ok (_token stratum)
                  ∧ getJson env (serviceUrl env item (_token stratum))
                    = Some (imageServer stratum)
                  ∧ ∃ c, capabilities (imageServer stratum) = Some c
                         ∧ includes c "Image" = true).
  { intros [= <-]. cbn. split; [eauto|]. split; [reflexivity|].
    split; [reflexivity|]. split; [exact Hjson|]. eauto. }
  destruct (truthy (proj4ServiceBaseUrl item)); [|exact Hdone].
  destruct (fullExtent metadata) as [extent|]; [|discriminate].
  destruct (checkProjection env _ _) as [[]|e]; [exact Hdone|discriminate].
Qed.

(** X11.  When the item has a uri and the token (if any) was acquired, a
    metadata request that fails, or that answers [null], makes
    [ImageServerStratum.load] throw the network error "invalid server". *)
Theorem ImageServerStratum_load_unreachable
    (env : ImageServerCollaborators) (item : ArcGisImageServerCatalogItem)
    (token : option string) :
  is_Some (uri item) →
  acquireToken env item = Ok token →
  (loadJson_ImageServer env (serviceUrl env item token) = Ok None
   ∨ ∃ e, loadJson_ImageServer env (serviceUrl env item token) = Throw e) →
  ImageServerStratum_load env item
  = Throw (NetworkRequestError
             (image_t env "models.arcGisService.invalidServerTitle")
             (image_t env "models.arcGisService.invalidServerMessage")).
Proof.
  intros [u Huri] Htoken Hfetch.
  unfold ImageServerStratum_load. rewrite Huri, Htoken. cbn [mbind Result_bind].
  unfold getJson. destruct Hfetch as [->|[e ->]]; reflexivity.
Qed.

(** ** The legend of an image service *)

Section UniqWith.
Context {A : Type} (key : A → string).

Local Abbreviation sameKey := (λ a b : A, String.eqb (key a) (key b)).
Local Abbreviation keep :=
  (λ (kept : list A) (a : A),
     if existsb (λ b, sameKey b a) kept then kept else kept ++ [a]).

Lemma existsb_sameKey (kept : list A) (a : A) :
  existsb (λ b, sameKey b a) kept = true ↔ In (key a) (key <$> kept).
Proof.
  rewrite existsb_exists, in_map_iff. split.
  - intros (b & Hb & Heq). apply String.eqb_eq in Heq. eauto.
  - intros (b & Heq & Hb). exists b. split; [exact Hb|].
    apply String.eqb_eq. exact Heq.
Qed.

Lemma uniqWith_keys (array kept : list A) (u : string) :
  In u (key <$> foldl keep kept array)
  ↔ In u (key <$> kept) ∨ In u (key <$> array).
Proof.
  revert kept. induction array as [|a array IH]; intros kept; cbn [foldl].
  - cbn. tauto.
  - rewrite IH. cbn [fmap list_fmap In].
    destruct (existsb (λ b, sameKey b a) kept) eqn:Hseen.
    + apply existsb_sameKey in Hseen. split; [tauto|].
      intros [?|[<-|?]]; auto.
    + rewrite fmap_app, in_app_iff. cbn. tauto.
Qed.

Lemma uniqWith_NoDup (array kept : list A) :
  NoDup (key <$> kept) → NoDup (key <$> foldl keep kept array).
Proof.
  revert kept. induction array as [|a array IH]; intros kept Hkept; cbn [foldl].
  - exact Hkept.
  - apply IH. destruct (existsb (λ b, sameKey b a) kept) eqn:Hseen; [exact Hkept|].
    rewrite fmap_app. apply NoDup_app. split; [exact Hkept|]. split.
    + intros u Hu Hin. cbn in Hin. rewrite list_elem_of_singleton in Hin. subst u.
      apply list_elem_of_In, existsb_sameKey in Hu. congruence.
    + cbn. apply NoDup_singleton.
Qed.

Lemma find_app_key (u : string) (l1 l2 : list A) :
  List.find (λ a, String.eqb (key a) u) (l1 ++ l2)
  = match List.find (λ a, String.eqb (key a) u) l1 with
    | Some x => Some x
    | None => List.find (λ a, String.eqb (key a) u) l2
    end.
Proof.
  induction l1 as [|a l1 IH]; [reflexivity|]. cbn.
  destruct (String.eqb (key a) u); [reflexivity|exact IH].
Qed.

Lemma uniqWith_find (array kept : list A) (u : string) :
  List.find (λ a, String.eqb (key a) u) (foldl keep kept array)
  = List.find (λ a, String.eqb (key a) u) (kept ++ array).
Proof.
  revert kept. induction array as [|a array IH]; intros kept; cbn [foldl].
  - rewrite app_nil_r. reflexivity.
  - rewrite IH. destruct (existsb (λ b, sameKey b a) kept) eqn:Hseen.
    + rewrite !find_app_key.
      destruct (List.find (λ a, String.eqb (key a) u) kept) as [x|] eqn:Hfind;
        [reflexivity|].
      cbn [List.find]. destruct (String.eqb (key a) u) eqn:Hau; [|reflexivity].
      exfalso. apply String.eqb_eq in Hau.
      apply existsb_exists in Hseen as (b & Hb & Hba).
      apply String.eqb_eq in Hba.
      pose proof (find_none _ _ Hfind b Hb) as Hnone. cbn in Hnone.
      rewrite Hba, Hau, String.eqb_refl in Hnone. discriminate.
    + rewrite <- app_assoc. reflexivity.
Qed.

End UniqWith.

Section LegendFacts.
Variable replaceUnderscoresIn : string → string.
Variable noDataRegex_test : string → bool.
Variable labelsRegex_test : string → bool.

Local Abbreviation legends :=
  (ImageServerLegendStratum_legends replaceUnderscoresIn noDataRegex_test
     labelsRegex_test).
Local Abbreviation pushed :=
  (pushedLegendItems replaceUnderscoresIn noDataRegex_test labelsRegex_test).

Local Abbreviation itemsOf :=
  (layerItems replaceUnderscoresIn noDataRegex_test labelsRegex_test).

Lemma pushedLegendItems_flat (layers : list LegendLayer) :
  pushed layers = layers ≫= itemsOf.
Proof.
  unfold pushedLegendItems.
  enough (∀ items,
            foldl (λ items l,
                     if noDataRegex_test (layerName l) || labelsRegex_test (layerName l)
                     then items
                     else foldl (λ items leg,
                                   items ++ [legendItemOf replaceUnderscoresIn l leg])
                                items (default [] (legend l)))
                  items layers
            = items ++ (layers ≫= itemsOf)) as H by exact (H []).
  induction layers as [|l layers IH]; intros items; cbn [foldl].
  - cbn. rewrite app_nil_r. reflexivity.
  - rewrite IH. cbn [mbind list_bind]. unfold layerItems at 2.
    destruct (noDataRegex_test (layerName l) || labelsRegex_test (layerName l)).
    + reflexivity.
    + rewrite app_assoc. f_equal.
      generalize (default [] (legend l)). intros legs. revert items.
      induction legs as [|leg legs IHlegs]; intros items; cbn [foldl].
      * cbn. rewrite app_nil_r. reflexivity.
      * rewrite IHlegs, <- app_assoc. reflexivity.
Qed.

(** X12.  The [legends] trait is always one legend, whose items show
    pairwise different images: exactly the images of the legend entries of
    the layers that neither regular expression matches. *)
Theorem legends_distinct_images (stratum : ImageServerLegendStratum) :
  ∃ items,
    legends stratum = [ {| legend_items := items |} ]
    ∧ NoDup (imageUrl <$> items)
    ∧ ∀ u, In u (imageUrl <$> items)
           ↔ ∃ l entries leg,
               In l (default [] (_legends stratum ?. legend_layers))
               ∧ noDataRegex_test (layerName l) = false
               ∧ labelsRegex_test (layerName l) = false
               ∧ legend l = Some entries
               ∧ In leg entries
               ∧ u = "data:" +:+ contentType leg +:+ ";base64," +:+ imageData leg.
Proof.
  eexists. split; [reflexivity|]. split.
  - apply (uniqWith_NoDup imageUrl). constructor.
  - intros u. unfold uniqWith. rewrite (uniqWith_keys imageUrl).
    rewrite pushedLegendItems_flat.
    generalize (default [] (_legends stratum ?. legend_layers)). intros layers.
    cbn [fmap list_fmap In]. rewrite in_map_iff. split.
    + intros [[]|(item & <- & Hitem)].
      apply list_elem_of_In, list_elem_of_bind in Hitem as (l & Hitem & Hl).
      unfold layerItems in Hitem.
      destruct (noDataRegex_test (layerName l)) eqn:HnoData;
        [cbn in Hitem; inversion Hitem|].
      destruct (labelsRegex_test (layerName l)) eqn:Hlabels;
        [cbn in Hitem; inversion Hitem|].
      cbn [orb] in Hitem.
      destruct (legend l) as [entries|] eqn:Hlegend;
        [|cbn in Hitem; inversion Hitem].
      cbn in Hitem. apply list_elem_of_fmap in Hitem as (leg & -> & Hleg).
      exists l, entries, leg. rewrite <- !list_elem_of_In. auto 10.
    + intros (l & entries & leg & Hl & HnoData & Hlabels & Hlegend & Hleg & ->).
      right. exists (legendItemOf replaceUnderscoresIn l leg).
      split; [reflexivity|].
      apply list_elem_of_In, list_elem_of_bind. exists l.
      split; [|apply list_elem_of_In; exact Hl].
      unfold layerItems. rewrite HnoData, Hlabels, Hlegend. cbn.
      apply list_elem_of_fmap. exists leg. split; [reflexivity|].
      apply list_elem_of_In. exact Hleg.
Qed.

(** X13.  Among legend entries with the same image the first one wins: the
    item shown for an image is the first item pushed for it, in the order
    of the layers and of their entries. *)
Theorem legends_first_entry_wins (stratum : ImageServerLegendStratum)
    (u : string) :
  List.find (λ item, String.eqb (imageUrl item) u)
    (legends stratum ≫= legend_items)
  = List.find (λ item, String.eqb (imageUrl item) u)
      (default [] (_legends stratum ?. legend_layers) ≫= itemsOf).
Proof.
  cbn [ImageServerLegendStratum_legends mbind list_bind legend_items].
  rewrite app_nil_r. unfold uniqWith. rewrite (uniqWith_find imageUrl).
  rewrite pushedLegendItems_flat. reflexivity.
Qed.

End LegendFacts.

(** X14.  Loading the legend of an item with a uri never fails: when the
    legend request fails the stratum holds no legends, and its [legends]
    trait is one legend without items. *)
Theorem ImageServerLegendStratum_load_request_fails
    (t : string → string) (legendUrl : ArcGisImageServerCatalogItem → string)
    (loadJson_Legends : string → Result (option Legends))
    (replaceUnderscoresIn : string → string)
    (noDataRegex_test labelsRegex_test : string → bool)
    (item : ArcGisImageServerCatalogItem) (e : Error) :
  is_Some (uri item) →
  loadJson_Legends (legendUrl item) = Throw e →
  ∃ stratum,
    ImageServerLegendStratum_load t legendUrl loadJson_Legends item = Ok stratum
    ∧ legend_item stratum = item
    ∧ ImageServerLegendStratum_legends replaceUnderscoresIn noDataRegex_test
        labelsRegex_test stratum
      = [ {| legend_items := [] |} ].
Proof.
  intros [u Huri] Hfail. unfold ImageServerLegendStratum_load.
  rewrite Huri, Hfail. eexists. split; [reflexivity|]. split; reflexivity.
Qed.

(** ** The imagery provider *)

Lemma setMember_assoc {A : Type} (key k : string) (value : A)
    (members : list (string * A)) :
  assoc k (setMember key value members)
  = if String.eqb key k then Some value else assoc k members.
Proof.
  induction members as [|[k' v'] members IH]; cbn [setMember assoc].
  - destruct (String.eqb key k); reflexivity.
  - destruct (String.eqb k' key) eqn:Hk'; cbn [assoc].
    + apply String.eqb_eq in Hk'. subst k'.
      destruct (String.eqb key k); reflexivity.
    + destruct (String.eqb k' k) eqn:Hk; [|exact IH].
      apply String.eqb_eq in Hk. subst k'.
      rewrite String.eqb_sym, Hk'. reflexivity.
Qed.

Lemma setMember_keys {A : Type} (key : string) (value : A)
    (members : list (string * A)) :
  fst <$> setMember key value members
  = if existsb (String.eqb key) (fst <$> members) then fst <$> members
    else (fst <$> members) ++ [key].
Proof.
  induction members as [|[k' v'] members IH]; cbn [setMember]; [reflexivity|].
  cbn [fmap list_fmap fst existsb]. rewrite (String.eqb_sym key k').
  destruct (String.eqb k' key) eqn:Hk'; cbn [orb fmap list_fmap fst].
  - apply String.eqb_eq in Hk'. subst k'. reflexivity.
  - fold (fmap (M := list) (@fst string A)). rewrite IH.
    destruct (existsb (String.eqb key) (fst <$> members)); reflexivity.
Qed.

Section ImageryProviderFacts.
Variable cleanAndProxyUrl : string → string.
Variable scaleDenominatorToLevel : option Z → option Z.
Variable TerriaError_from : string → Error.

Local Abbreviation createImageryProvider :=
  (_createImageryProvider cleanAndProxyUrl scaleDenominatorToLevel TerriaError_from).

Lemma wkidIs_eq (item : ImageServerItemTraits) (n : Z) :
  wkidIs item n = true ↔ traits_wkid item = Some n.
Proof.
  unfold wkidIs. destruct (traits_wkid item) as [wkid|].
  - rewrite Z.eqb_eq. split; [intros ->; reflexivity|intros [= ->]; reflexivity].
  - split; discriminate.
Qed.

Lemma wkidIs_ne (item : ImageServerItemTraits) (n : Z) :
  wkidIs item n = false ↔ traits_wkid item ≠ Some n.
Proof.
  rewrite <- wkidIs_eq. destruct (wkidIs item n); split; congruence.
Qed.

(** X15.  An imagery provider is created exactly when the item has a url
    and is tiled in web mercator (WKID 102100 or 102113) or in geographic
    coordinates (WKID 4326), and its tiling scheme is the one of that
    reference; an error is thrown exactly when the item has a url and any
    other WKID, or none; so an item without url gives no provider and no
    error, whatever its WKID. *)
Theorem createImageryProvider_wkid (item : ImageServerItemTraits)
    (time : option string) :
  ((∃ provider, createImageryProvider item time = Ok (Some provider))
   ↔ is_Some (traits_url item)
     ∧ (traits_wkid item = Some 102100%Z ∨ traits_wkid item = Some 102113%Z
        ∨ traits_wkid item = Some 4326%Z))
  ∧ ((∃ e, createImageryProvider item time = Throw e)
     ↔ is_Some (traits_url item)
       ∧ traits_wkid item ≠ Some 102100%Z ∧ traits_wkid item ≠ Some 102113%Z
       ∧ traits_wkid item ≠ Some 4326%Z)
  ∧ (∀ provider,
       createImageryProvider item time = Ok (Some provider) →
       (tilingScheme provider = WebMercatorTilingScheme
        ↔ traits_wkid item = Some 102100%Z ∨ traits_wkid item = Some 102113%Z)
       ∧ (tilingScheme provider = GeographicTilingScheme
          ↔ traits_wkid item = Some 4326%Z)).
Proof.
  unfold _createImageryProvider.
  destruct (traits_url item) as [url|].
  2:{ split; [|split].
      - split; [intros [? [=]]|intros [[? [=]] _]].
      - split; [intros [? [=]]|intros [[? [=]] _]].
      - intros ? [=]. }
  destruct (wkidIs item 102100) eqn:H1.
  { cbn. apply wkidIs_eq in H1. split; [|split].
    - split; eauto.
    - split; [intros [? [=]]|]. intros (_ & Hne & _). congruence.
    - intros ? [= <-]. cbn. split; [tauto|]. split; [discriminate|congruence]. }
  destruct (wkidIs item 102113) eqn:H2.
  { cbn. apply wkidIs_eq in H2. split; [|split].
    - split; eauto.
    - split; [intros [? [=]]|]. intros (_ & _ & Hne & _). congruence.
    - intros ? [= <-]. cbn. split; [tauto|]. split; [discriminate|congruence]. }
  destruct (wkidIs item 4326) eqn:H3.
  { cbn. apply wkidIs_eq in H3. split; [|split].
    - split; eauto.
    - split; [intros [? [=]]|]. intros (_ & _ & _ & Hne). congruence.
    - intros ? [= <-]. cbn. split; [|tauto].
      split; [discriminate|]. intros [?|?]; congruence. }
  cbn. apply wkidIs_ne in H1, H2, H3. split; [|split].
  - split; [intros [? [=]]|]. intros (_ & [?|[?|?]]); congruence.
  - split; [|eauto]. intros _. eauto.
  - intros ? [=].
Qed.

(** X16.  The parameters of a created provider are the flattened parameters
    of the item, with the member [time] set to the requested time when that
    is a non-empty string: every other member is untouched, and no member
    is added when the item already has a [time] parameter. *)
Theorem createImageryProvider_time (item : ImageServerItemTraits)
    (time : option string) (provider : ImageryProviderOptions) :
  createImageryProvider item time = Ok (Some provider) →
  match time with
  | Some (String c s) =>
      assoc "time" (parameters provider) = Some (JString (String c s))
      ∧ (∀ k, k ≠ "time" →
              assoc k (parameters provider) = assoc k (flattenedParameters item))
      ∧ fst <$> parameters provider
        = (if existsb (String.eqb "time") (fst <$> flattenedParameters item)
           then fst <$> flattenedParameters item
           else (fst <$> flattenedParameters item) ++ ["time"])
  | _ => parameters provider = flattenedParameters item
  end.
Proof.
  unfold _createImageryProvider.
  destruct (traits_url item) as [url|]; [|discriminate].
  destruct (if wkidIs item 102100 || wkidIs item 102113 then _ else _)
    as [scheme|e]; [|discriminate].
  cbn [mbind Result_bind]. intros [= <-]. cbn [parameters].
  destruct time as [[|c s]|]; [reflexivity| |reflexivity].
  cbn [String.eqb negb].
  split; [|split].
  - rewrite setMember_assoc. reflexivity.
  - intros k Hk. rewrite setMember_assoc.
    destruct (String.eqb "time" k) eqn:Heq; [|reflexivity].
    apply String.eqb_eq in Heq. congruence.
  - apply setMember_keys.
Qed.

End ImageryProviderFacts.

(** *** The image service example *)

Lemma ImageServerStratum_load_sound_elevation :
  _item {| _item := elevationItem; imageServer := imageServiceMetadata;
           _token := None |} = elevationItem
  ∧ ∃ c, capabilities imageServiceMetadata = Some c ∧ includes c "Image" = true.
Proof.
  pose proof (ImageServerStratum_load_sound
                (exampleImageCollaborators (Ok (Some imageServiceMetadata)))
                elevationItem
                {| _item := elevationItem; imageServer := imageServiceMetadata;
                   _token := None |}) as H.
  destruct H as (_ & Hitem & _ & _ & Hcapabilities).
  - vm_compute. reflexivity.
  - split; [exact Hitem|exact Hcapabilities].
Defined.

Lemma ImageServerStratum_load_unreachable_elevation :
  ImageServerStratum_load (exampleImageCollaborators (Throw RequestFailed))
    elevationItem
  = Throw (NetworkRequestError "models.arcGisService.invalidServerTitle"
                               "models.arcGisService.invalidServerMessage").
Proof.
  apply (ImageServerStratum_load_unreachable
           (exampleImageCollaborators (Throw RequestFailed)) elevationItem None).
  - eexists. reflexivity.
  - reflexivity.
  - right. exists RequestFailed. vm_compute. reflexivity.
Defined.

(** The shared swatch is shown once, under the label of its first entry;
    the no-data layer is left out. *)
Lemma legends_elevation :
  ImageServerLegendStratum_legends (λ s, s) exampleNoDataTest (λ _, false)
    elevationLegendStratum
  = [ {| legend_items :=
           [ {| legend_title := "Low";
                imageUrl := "data:image/png;base64,iVBORw0";
                imageWidth := Some 20%Z; imageHeight := Some 20%Z |};
             {| legend_title := "High";
                imageUrl := "data:image/png;base64,iVBORw1";
                imageWidth := Some 20%Z; imageHeight := Some 20%Z |} ] |} ].
Proof. vm_compute. reflexivity. Qed.

Lemma ImageServerLegendStratum_load_request_fails_elevation :
  ∃ stratum,
    ImageServerLegendStratum_load (λ key, key) exampleLegendUrl
      (λ _, Throw RequestFailed) elevationItem = Ok stratum
    ∧ legend_item stratum = elevationItem
    ∧ ImageServerLegendStratum_legends (λ s, s) exampleNoDataTest (λ _, false)
        stratum
      = [ {| legend_items := [] |} ].
Proof.
  apply (ImageServerLegendStratum_load_request_fails (λ key, key)
           exampleLegendUrl (λ _, Throw RequestFailed) (λ s, s)
           exampleNoDataTest (λ _, false) elevationItem RequestFailed).
  - eexists. reflexivity.
  - reflexivity.
Defined.

(** The requested time replaces the [time] parameter of the item in place. *)
Lemma createImageryProvider_time_elevation :
  parameters <$> match _createImageryProvider (λ url, url) (λ _, None)
                         (λ message, TerriaError "Error" message)
                         elevationTraits (Some "1700000000000") with
                 | Ok provider => provider
                 | Throw _ => None
                 end
  = Some [("time", JString "1700000000000"); ("format", JString "lerc")].
Proof. vm_compute. reflexivity. Qed.

Lemma createImageryProvider_time_example :
  ∃ provider,
    _createImageryProvider (λ url, url) (λ _, None)
      (λ message, TerriaError "Error" message)
      elevationTraits (Some "1700000000000") = Ok (Some provider)
    ∧ assoc "time" (parameters provider) = Some (JString "1700000000000")
    ∧ assoc "format" (parameters provider)
      = assoc "format" (flattenedParameters elevationTraits).
Proof.
  eexists. split; [vm_compute; reflexivity|].
  pose proof (createImageryProvider_time (λ url, url) (λ _, None)
                (λ message, TerriaError "Error" message)
                elevationTraits (Some "1700000000000") _
                ltac:(vm_compute; reflexivity)) as (Htime & Hother & _).
  split; [exact Htime|]. apply Hother. discriminate.
Defined.

(** A WKID other than the three is refused by name. *)
Lemma createImageryProvider_grid :
  _createImageryProvider (λ url, url) (λ _, None)
    (λ message, TerriaError "Error" message) gridTraits None
  = Throw (TerriaError "Error"
             "Tile spatial reference WKID 3857 is not supported.").
Proof. vm_compute. reflexivity. Qed.

(** ** More on the SDMX-JSON dataflow stratum *)

Lemma strictEq_Some (a : option string) (id : string) :
  strictEq a (Some id) = true ↔ a = Some id.
Proof.
  destruct a as [x|]; cbn; [|split; discriminate].
  rewrite String.eqb_eq. split; congruence.
Qed.

Lemma sublist_List_filter {A : Type} (test : A → bool) (l : list A) :
  sublist (List.filter test l) l.
Proof.
  induction l as [|x l IH]; [constructor|]. cbn.
  destruct (test x); constructor; exact IH.
Qed.

Lemma mapM_Throw {A B : Type} (f : A → Result B) (l : list A) (e : Error) :
  mapM f l = Throw e → ∃ x, In x l ∧ f x = Throw e.
Proof.
  induction l as [|x l IH]; [discriminate|]. cbn.
  destruct (f x) as [y|e'] eqn:Hx; cbn.
  - destruct (mapM f l) as [k|e'] eqn:Hl; cbn; [discriminate|].
    intros [= ->]. destruct (IH eq_refl) as (x' & Hin & Hx'). eauto.
  - intros [= ->]. eauto.
Qed.

Lemma mapM_Throw_only {A B : Type} (f : A → Result B) (l : list A) (e : Error) :
  (∀ y e', f y = Throw e' → e' = e) →
  (∃ x, In x l ∧ f x = Throw e) →
  mapM f l = Throw e.
Proof.
  intros Honly (x & Hin & Hx).
  induction l as [|y l IH]; [destruct Hin|]. cbn.
  destruct (f y) as [v|e'] eqn:Hy; cbn.
  - destruct Hin as [->|Hin]; [congruence|]. rewrite (IH Hin). reflexivity.
  - rewrite (Honly _ _ Hy). reflexivity.
Qed.

Lemma adds_setAdd : adds (λ value v, v = value) setAdd.
Proof.
  intros keys value. unfold setAdd.
  destruct (existsb (String.eqb value) keys) eqn:Hseen.
  - apply existsb_exists in Hseen as (k & Hk & Heq).
    apply String.eqb_eq in Heq. subst k. split; [auto|].
    intros v. split; [auto|]. intros [Hv| ->]; assumption.
  - split.
    + intros Hkeys. apply NoDup_app. split; [exact Hkeys|]. split.
      * intros v Hv Hin. apply list_elem_of_singleton in Hin. subst v.
        apply list_elem_of_In in Hv.
        assert (existsb (String.eqb value) keys = true); [|congruence].
        apply existsb_exists. exists value. split; [exact Hv|].
        apply String.eqb_refl.
      * apply NoDup_singleton.
    + intros v. rewrite in_app_iff. cbn. intuition congruence.
Qed.

Lemma adds_foldl {X : Type} (S : X → string → Prop)
    (step : list string → X → list string) :
  adds S step →
  adds (λ l v, ∃ x, In x l ∧ S x v) (λ keys l, foldl step keys l).
Proof.
  intros Hstep keys l. revert keys.
  induction l as [|x l IH]; intros keys; cbn [foldl].
  - split; [auto|]. intros v. split; [auto|]. intros [Hv|(y & [] & _)]. assumption.
  - destruct (IH (step keys x)) as (Hdistinct & Hmembers).
    destruct (Hstep keys x) as (Hdistinct' & Hmembers').
    split; [auto|]. intros v. rewrite Hmembers, Hmembers'. split.
    + intros [[Hv|Hv]|(y & Hy & Hv)]; [auto| |]; right;
        [exists x|exists y]; cbn; auto.
    + intros [Hv|(y & [<-|Hy] & Hv)]; [auto|auto|]. right. exists y. auto.
Qed.

Lemma adds_on {X Y : Type} (S : X → string → Prop)
    (step : list string → X → list string) (f : Y → X) :
  adds S step → adds (λ y, S (f y)) (λ keys y, step keys (f y)).
Proof. intros Hstep keys y. apply Hstep. Qed.

(** The allowed option ids: distinct, and those the constraints list. *)
Lemma allowedOptionIds_listed (constraints : list ContentConstraint)
    (dim : Component) :
  ∃ ids,
    allowedOptionIds (Some constraints) dim = Some ids
    ∧ NoDup ids
    ∧ ∀ value, In value ids ↔ listedBy constraints dim value.
Proof.
  eexists. split; [reflexivity|].
  pose proof (adds_foldl _ _
    (adds_on _ _ (λ constraint, default [] (cubeRegions constraint))
       (adds_foldl _ _
          (adds_on _ _
             (λ cubeRegion,
                List.filter (λ kv, strictEq (kv_id kv) (comp_id dim))
                            (default [] (keyValues cubeRegion)))
             (adds_foldl _ _
                (adds_on _ _ (λ regionKey, default [] (kv_values regionKey))
                   (adds_foldl _ _ adds_setAdd)))))) [] constraints)
    as (Hdistinct & Hmembers).
  split; [apply Hdistinct; constructor|].
  intros value. rewrite Hmembers. unfold listedBy. split.
  - intros [[]|(constraint & Hconstraint & cubeRegion & HcubeRegion
                & regionKey & HregionKey & v & Hv & ->)].
    apply filter_In in HregionKey as (HregionKey & Hid).
    exists constraint, cubeRegion, regionKey. auto.
  - intros (constraint & cubeRegion & regionKey & Hconstraint & HcubeRegion
            & HregionKey & Hid & Hvalue).
    right. exists constraint. split; [exact Hconstraint|].
    exists cubeRegion. split; [exact HcubeRegion|].
    exists regionKey. split; [apply filter_In; auto|].
    exists value. auto.
Qed.

(** X17.  The allowed option ids of a dimension are the union, without
    duplicates, of the values that the key values with the id of the
    dimension list in the cube regions of all the constraints; without a
    constraints array there are no allowed option ids. *)
Theorem allowedOptionIds_union (dim : Component) :
  allowedOptionIds None dim = None
  ∧ ∀ constraints,
      ∃ ids,
        allowedOptionIds (Some constraints) dim = Some ids
        ∧ NoDup ids
        ∧ ∀ value, In value ids ↔ listedBy constraints dim value.
Proof.
  split; [reflexivity|]. intros constraints.
  apply allowedOptionIds_listed.
Qed.

Section SdmxMoreFacts.
Variable parseSdmxUrn : option string → option SdmxUrn.
Variable stratum : SdmxJsonDataflowStratum.

Local Abbreviation ownDimensions := (dimensions parseSdmxUrn stratum).
Local Abbreviation traitsOf := (dimensionTraits parseSdmxUrn stratum).
Local Abbreviation optionsOf := (dimensionOptions parseSdmxUrn stratum).

(** What the callback of [dimensions] returns. *)
Lemma dimensionTraits_inv (constraints : option (list ContentConstraint))
    (dim : Component) (traits : SdmxDimension) :
  traitsOf constraints dim = Ok (Some traits) →
  optionsOf constraints dim = Some (sdim_options traits)
  ∧ sdim_id traits = comp_id dim
  ∧ sdim_disable traits = overrideValue stratum disable dim
  ∧ sdim_allowUndefined traits = overrideValue stratum allowUndefined dim
  ∧ (∀ id, sdim_selectedId traits = Some id → isOptionId id (sdim_options traits))
  ∧ (sdim_selectedId traits = None →
     isTrue (sdim_allowUndefined traits) = true
     ∨ ∃ first others, sdim_options traits = first :: others
                       ∧ option_id first = None).
Proof.
  unfold dimensionTraits.
  destruct (optionsOf constraints dim) as [options|]; [|discriminate].
  rewrite !orElse_overrideValue.
  destruct (isTrue (overrideValue stratum allowUndefined dim)) eqn:Hallow.
  - cbn [mbind Result_bind]. intros [= <-].
    cbn [sdim_options sdim_id sdim_disable sdim_allowUndefined sdim_selectedId].
    repeat (split; [reflexivity|]). split; [|auto].
    intros id.
    destruct (overrideValue stratum selectedId dim) as [selected|]; [|discriminate].
    destruct (existsb _ options) eqn:Hexists; [|discriminate].
    intros [= ->]. apply existsb_exists in Hexists as (o & Hin & Heq).
    apply strictEq_Some in Heq. unfold isOptionId. apply in_map_iff. eauto.
  - destruct options as [|first others]; [discriminate|].
    cbn [mbind Result_bind]. intros [= <-].
    cbn [sdim_options sdim_id sdim_disable sdim_allowUndefined sdim_selectedId].
    repeat (split; [reflexivity|]).
    assert (Hfirst : ∀ id, option_id first = Some id →
                           isOptionId id (first :: others)).
    { intros id Hid. left. exact Hid. }
    destruct (overrideValue stratum selectedId dim) as [selected|].
    + destruct (strictEq _ _ || existsb _ _) eqn:Hexists.
      * split; [|discriminate]. intros id [= ->].
        apply (existsb_exists
                 (λ option, strictEq (option_id option) (Some id))
                 (first :: others)) in Hexists as (o & Hin & Heq).
        apply strictEq_Some in Heq. unfold isOptionId. apply in_map_iff. eauto.
      * split; [exact Hfirst|]. intros Hnone. right. eauto.
    + split; [exact Hfirst|]. intros Hnone. right. eauto.
Qed.

(** X18.  In the dimensions of the stratum a selected id is always the id
    of one of the options of that dimension; a dimension without selected
    id either allows that through its overrides or has a first option
    without id. *)
Theorem dimensions_selectedId_is_option
    (own : list SdmxDimension) (d : SdmxDimension) :
  ownDimensions = Ok (Some own) →
  In d own →
  (∀ id, sdim_selectedId d = Some id → isOptionId id (sdim_options d))
  ∧ (sdim_selectedId d = None →
     isTrue (sdim_allowUndefined d) = true
     ∨ ∃ first others, sdim_options d = first :: others ∧ option_id first = None).
Proof.
  intros Hdimensions Hd.
  destruct (dimensions_elements _ _ _ Hdimensions) as (mapped & Hmapped & ->).
  apply list_elem_of_In, list_elem_of_omap in Hd as (traits & Hin & Htraits).
  destruct traits as [traits|]; [|discriminate]. cbn in Htraits.
  injection Htraits as ->.
  apply list_elem_of_lookup in Hin as (i & Hi).
  destruct (Forall2_lookup_r _ _ _ _ _ Hmapped Hi) as (dim & _ & Hdim).
  destruct (dimensionTraits_inv _ _ _ Hdim) as (_ & _ & _ & _ & Hsome & Hnone).
  split; assumption.
Qed.

(** The callback fails only on an empty option list. *)
Lemma dimensionTraits_Throw (constraints : option (list ContentConstraint))
    (dim : Component) (e : Error) :
  traitsOf constraints dim = Throw e
  ↔ e = TypeError
    ∧ optionsOf constraints dim = Some []
    ∧ isTrue (overrideValue stratum allowUndefined dim) = false.
Proof.
  unfold dimensionTraits.
  destruct (optionsOf constraints dim) as [options|].
  2:{ split; [discriminate|]. intros (_ & [=] & _). }
  rewrite !orElse_overrideValue.
  destruct (isTrue (overrideValue stratum allowUndefined dim)).
  - cbn. split; [discriminate|]. intros (_ & _ & [=]).
  - destruct options as [|first others]; cbn.
    + split; [intros [= <-]; auto|]. intros (-> & _). reflexivity.
    + split; [discriminate|]. intros (_ & [=] & _).
Qed.

(** X19.  The [dimensions] getter fails exactly when some enumerated
    dimension resolves to an empty option list while its overrides do not
    allow an undefined selection; the failure is the type error of reading
    the id of a first option that is not there. *)
Theorem dimensions_empty_options (e : Error) :
  ownDimensions = Throw e
  ↔ e = TypeError
    ∧ ∃ dim, In dim (enumeratedDimensions stratum)
             ∧ optionsOf (actualConstraints stratum) dim = Some []
             ∧ isTrue (overrideValue stratum allowUndefined dim) = false.
Proof.
  unfold dimensions, enumeratedDimensions.
  destruct (components stratum ?. (dl_dimensions ∘ dimensionList))
    as [[|dim0 dims]|]; unfold default; cbn [from_option id].
  - split; [discriminate|]. intros (_ & ? & [] & _).
  - fold (actualConstraints stratum).
    destruct (mapM _ _) as [mapped|e'] eqn:Hmapped; cbn [mbind Result_bind].
    + split; [discriminate|]. intros (-> & dim & Hin & Hoptions & Hallow).
      assert (mapM (traitsOf (actualConstraints stratum))
                   (List.filter isEnumeratedDimension (dim0 :: dims))
              = Throw TypeError) as Hthrow; [|congruence].
      apply mapM_Throw_only.
      * intros y e' He'. apply dimensionTraits_Throw in He'. tauto.
      * exists dim. split; [exact Hin|]. apply dimensionTraits_Throw. auto.
    + split.
      * intros [= <-]. apply mapM_Throw in Hmapped as (dim & Hin & Hdim).
        apply dimensionTraits_Throw in Hdim as (-> & Hoptions & Hallow). eauto.
      * intros (-> & dim & Hin & Hoptions & Hallow). f_equal.
        apply mapM_Throw in Hmapped as (dim' & _ & Hdim').
        apply dimensionTraits_Throw in Hdim'. tauto.
  - split; [discriminate|]. intros (_ & ? & [] & _).
Qed.


Local Abbreviation ownColumns := (dimensionColumns parseSdmxUrn stratum).

(** The options made from the codes of the codelist. *)
Lemma dimensionOptions_codes (constraints : list ContentConstraint)
    (dim : Component) (options : list DimensionOption) :
  fmap (M := list) asOption
  <$> match allowedOptionIds (Some constraints) dim with
      | Some (id :: ids) =>
          List.filter (λ code, match code_id code with
                               | Some c => existsb (String.eqb c) (id :: ids)
                               | None => false
                               end)
          <$> getCodelistByUrn parseSdmxUrn stratum (comp_enumeration dim)
              ?. codes
      | _ => getCodelistByUrn parseSdmxUrn stratum (comp_enumeration dim)
             ?. codes
      end
  = Some options →
  ∃ codelist all kept,
    getCodelistByUrn parseSdmxUrn stratum (comp_enumeration dim) = Some codelist
    ∧ codes codelist = Some all
    ∧ options = asOption <$> kept
    ∧ sublist kept all
    ∧ ∀ code,
        In code kept
        ↔ In code all
          ∧ ((∃ value, listedBy constraints dim value) →
             ∃ id, code_id code = Some id ∧ listedBy constraints dim id).
Proof.
  destruct (allowedOptionIds_listed constraints dim) as (ids & -> & _ & Hids).
  destruct (getCodelistByUrn parseSdmxUrn stratum (comp_enumeration dim))
    as [codelist|]; cbn [mbind option_bind]; [|destruct ids; discriminate].
  destruct (codes codelist) as [all|] eqn:Hall; [|destruct ids; discriminate].
  intros Hoptions. exists codelist, all.
  destruct ids as [|id ids].
  - exists all. split; [reflexivity|]. split; [exact Hall|].
    split; [cbn in Hoptions; congruence|].
    split; [reflexivity|]. intros code. split; [|tauto].
    intros Hcode. split; [exact Hcode|]. intros (value & Hvalue).
    apply Hids in Hvalue. destruct Hvalue.
  - eexists. split; [reflexivity|]. split; [exact Hall|].
    split; [cbn in Hoptions; injection Hoptions as <-; reflexivity|].
    split; [apply sublist_List_filter|]. intros code. rewrite filter_In.
    split.
    + intros (Hcode & Hlisted). split; [exact Hcode|]. intros _.
      destruct (code_id code) as [c|]; [|discriminate].
      exists c. split; [reflexivity|]. apply Hids.
      apply (existsb_exists (String.eqb c) (id :: ids)) in Hlisted
        as (k & Hk & Heq).
      apply String.eqb_eq in Heq. subst k. exact Hk.
    + intros (Hcode & Hlisted). split; [exact Hcode|].
      destruct Hlisted as (c & -> & Hc).
      { exists id. apply Hids. left. reflexivity. }
      apply (existsb_exists (String.eqb c) (id :: ids)). exists c. split; [apply Hids; exact Hc|].
      apply String.eqb_refl.
Qed.

(** X20.  The options of a dimension are those of its overrides (codelist
    level before concept level) when that list is not empty.  Otherwise
    they are made from the codes of the codelist of the dimension, in the
    order of the codelist: all of them when the constraints list no value
    for the dimension, else those whose id the constraints list. *)
Theorem dimensionOptions_source (constraints : list ContentConstraint)
    (dim : Component) :
  (∀ first others,
      overrideValue stratum override_options dim = Some (first :: others) →
      optionsOf (Some constraints) dim = Some (first :: others))
  ∧ (overrideValue stratum override_options dim = None
     ∨ overrideValue stratum override_options dim = Some [] →
     ∀ options,
       optionsOf (Some constraints) dim = Some options →
       ∃ codelist all kept,
         getCodelistByUrn parseSdmxUrn stratum (comp_enumeration dim)
         = Some codelist
         ∧ codes codelist = Some all
         ∧ options = asOption <$> kept
         ∧ sublist kept all
         ∧ ∀ code,
             In code kept
             ↔ In code all
               ∧ ((∃ value, listedBy constraints dim value) →
                  ∃ id, code_id code = Some id ∧ listedBy constraints dim id)).
Proof.
  unfold dimensionOptions. rewrite orElse_overrideValue. split.
  - intros first others ->. f_equal.
    generalize (first :: others). intros options.
    induction options as [|[] options IH]; [reflexivity|].
    cbn [fmap list_fmap] in *. f_equal. exact IH.
  - intros [-> | ->] options; apply dimensionOptions_codes.
Qed.

(** Every dimension column is named after its dimension, is a region column
    when it has a region type and hidden otherwise, and is not transformed. *)
Lemma dimensionColumn_shape (own : option (list SdmxDimension)) (dim : Component) :
  column_name (dimensionColumn parseSdmxUrn stratum own dim) = comp_id dim
  ∧ transformation (dimensionColumn parseSdmxUrn stratum own dim) = None
  ∧ (column_type (dimensionColumn parseSdmxUrn stratum own dim) = Some "region"
     ∧ is_Some (column_regionType (dimensionColumn parseSdmxUrn stratum own dim))
     ∨ column_type (dimensionColumn parseSdmxUrn stratum own dim) = Some "hidden"
       ∧ column_regionType (dimensionColumn parseSdmxUrn stratum own dim) = None).
Proof.
  unfold dimensionColumn. destruct (isTrue _); [cbn; auto|].
  cbn [column_name column_type column_regionType transformation].
  split; [reflexivity|]. split; [reflexivity|].
  match goal with
  | |- context [match ?regionType with Some _ => "region" | None => "hidden" end] =>
      destruct regionType
  end; eauto.
Qed.

Lemma dimensionColumns_inv (columns : list TableColumnTraits) :
  ownColumns = Ok columns →
  ∃ own, columns = dimensionColumn parseSdmxUrn stratum own <$> columnDimensions stratum.
Proof.
  unfold dimensionColumns, columnDimensions.
  destruct (components stratum ?. (dl_dimensions ∘ dimensionList)) as [dims|];
    unfold default; cbn [from_option id]; [|intros [= <-]; exists None; reflexivity].
  destruct (List.filter _ dims) as [|dim dims'].
  - intros [= <-]. exists None. reflexivity.
  - destruct ownDimensions as [own|e]; [|discriminate].
    intros [= <-]. exists own. reflexivity.
Qed.

(** The shape of the dimension columns. *)
Lemma dimensionColumns_Forall (columns : list TableColumnTraits) :
  ownColumns = Ok columns →
  Forall (λ column,
            is_Some (column_name column)
            ∧ transformation column = None
            ∧ (column_type column = Some "region"
               ∧ is_Some (column_regionType column)
               ∨ column_type column = Some "hidden"
                 ∧ column_regionType column = None))
         columns.
Proof.
  intros Hcolumns. destruct (dimensionColumns_inv _ Hcolumns) as (own & ->).
  apply Forall_forall. intros column Hcolumn.
  apply list_elem_of_fmap in Hcolumn as (dim & -> & Hdim).
  apply list_elem_of_In, filter_In in Hdim as (_ & Hid).
  apply bool_decide_eq_true in Hid.
  destruct (dimensionColumn_shape own dim) as (Hname & Hplain & Htype).
  rewrite Hname. auto.
Qed.

(** X21.  The dimension columns are one column per dimension with an id, in
    order and named by that id; each is a region column with a region type
    or a hidden column without one, and none is transformed. *)
Theorem dimensionColumns_shape (columns : list TableColumnTraits) :
  ownColumns = Ok columns →
  column_name <$> columns = comp_id <$> columnDimensions stratum
  ∧ Forall (λ column,
              is_Some (column_name column)
              ∧ transformation column = None
              ∧ (column_type column = Some "region"
                 ∧ is_Some (column_regionType column)
                 ∨ column_type column = Some "hidden"
                   ∧ column_regionType column = None))
           columns.
Proof.
  intros Hcolumns. split; [|apply dimensionColumns_Forall; exact Hcolumns].
  destruct (dimensionColumns_inv _ Hcolumns) as (own & ->).
  rewrite <- list_fmap_compose. apply list_fmap_ext. intros i dim _.
  apply dimensionColumn_shape.
Qed.

(** X22.  Without a time dimension the [styles] getter fails with the type
    error of reading the name of a first time column that is not there. *)
Theorem styles_without_time :
  components stratum ?. (timeDimensions ∘ dimensionList) = None
  ∨ components stratum ?. (timeDimensions ∘ dimensionList) = Some [] →
  styles parseSdmxUrn stratum = Throw TypeError.
Proof.
  unfold styles, timeColumns. intros [-> | ->]; reflexivity.
Qed.

(** X23.  When [styles] returns, it is one style, for the primary measure,
    which has either a chart or a region column and never both: the chart
    when no dimension column is a region column, else the name of the
    first region column. *)
Theorem styles_chart_or_region (found : list TableStyleTraits) :
  styles parseSdmxUrn stratum = Ok found →
  ∃ style columns,
    found = [style]
    ∧ ownColumns = Ok columns
    ∧ style_id style = activeStyle parseSdmxUrn stratum
    ∧ (is_Some (chart style) ↔ regionColumn style = None)
    ∧ (regionColumn style = None
       ↔ Forall (λ column, column_type column ≠ Some "region") columns)
    ∧ ∀ name, regionColumn style = Some name →
              ∃ before column after,
                columns = before ++ column :: after
                ∧ column_name column = Some name
                ∧ column_type column = Some "region"
                ∧ Forall (λ column, column_type column ≠ Some "region") before.
Proof.
  unfold styles.
  destruct (timeColumns parseSdmxUrn stratum) as [|firstTimeColumn others];
    [discriminate|].
  destruct ownColumns as [columns|e] eqn:Hcolumns; [|discriminate].
  cbn [mbind Result_bind]. intros [= <-].
  eexists _, columns. split; [reflexivity|]. split; [reflexivity|].
  cbn [style_id chart regionColumn]. split; [reflexivity|].
  pose proof (dimensionColumns_Forall _ Hcolumns) as Hshape.
  pose proof (find_first isRegionColumn columns) as Hfind.
  assert (Hregion : ∀ column, isRegionColumn column = true
                              ↔ column_type column = Some "region").
  { intros column. apply strictEq_Some. }
  assert (Hnot : ∀ l, Forall (λ y, isRegionColumn y = false) l
                      ↔ Forall (λ column, column_type column ≠ Some "region") l).
  { intros l. apply Forall_iff. intros column. rewrite <- Hregion.
    destruct (isRegionColumn column); split; congruence. }
  destruct (List.find isRegionColumn columns) as [column|].
  - destruct Hfind as (before & after & -> & Htest & Hbefore).
    apply Forall_app in Hshape as (_ & Hshape).
    apply Forall_cons in Hshape as (([name Hname] & _ & _) & _).
    cbn [mbind option_bind]. rewrite Hname. split; [|split].
    + split; [intros [? [=]]|discriminate].
    + split; [discriminate|]. intros Hnone.
      apply Forall_app in Hnone as (_ & Hnone).
      apply Forall_cons in Hnone as (Hnone & _).
      apply Hregion in Htest. contradiction.
    + intros ? [= <-]. exists before, column, after.
      split; [reflexivity|]. split; [exact Hname|].
      split; [apply Hregion; exact Htest|]. apply Hnot. exact Hbefore.
  - cbn [mbind option_bind]. split; [|split].
    + split; [reflexivity|eauto].
    + split; [|reflexivity]. intros _. apply Hnot. exact Hfind.
    + discriminate.
Qed.

(** X24.  The [columns] getter fails exactly when the data structure has a
    dimension with an id and the [dimensions] getter fails, and then with
    the same error; a structure without such dimensions never consults
    [dimensions]. *)
Theorem columns_fail_with_dimensions (e : Error) :
  columns parseSdmxUrn stratum = Throw e
  ↔ columnDimensions stratum ≠ [] ∧ ownDimensions = Throw e.
Proof.
  unfold columns, dimensionColumns, columnDimensions.
  destruct (components stratum ?. (dl_dimensions ∘ dimensionList)) as [dims|];
    unfold default; cbn [from_option id].
  - destruct (List.filter _ dims) as [|dim dims'].
    + cbn. split; [discriminate|]. intros [Hne _]. contradiction.
    + destruct ownDimensions as [own|e']; cbn.
      * split; [discriminate|]. intros [_ [=]].
      * split; [intros [= <-]; split; [discriminate|reflexivity]|].
        intros [_ [= <-]]. reflexivity.
  - cbn. split; [discriminate|]. intros [Hne _]. contradiction.
Qed.

End SdmxMoreFacts.

(** X25.  A stratum returned by [SdmxJsonDataflowStratum.load] belongs to the
    catalog item it was loaded for and was built from a structure response
    with data: its dataflow and data structure are the first ones of the
    response, its code lists, concept schemes and content constraints those
    of the response. *)
Theorem SdmxJsonDataflowStratum_load_sound
    (t : string → string) (proxyUrl : SdmxJsonCatalogItem → string → string)
    (loadSdmxJsonStructure : string → Result SdmxJsonStructureMessage)
    (item : SdmxJsonCatalogItem) (stratum : SdmxJsonDataflowStratum) :
  SdmxJsonDataflowStratum_load t proxyUrl loadSdmxJsonStructure item = Ok stratum →
  catalogItem stratum = item
  ∧ ∃ response content otherDataflows otherDataStructures,
      loadSdmxJsonStructure (structureUrl proxyUrl item) = Ok response
      ∧ data response = Some content
      ∧ dataflows content
        = Items (dataflow (sdmxJsonDataflow stratum) :: otherDataflows)
      ∧ dataStructures content
        = Items (dataStructure (sdmxJsonDataflow stratum) :: otherDataStructures)
      ∧ codelists (sdmxJsonDataflow stratum) = data_codelists content
      ∧ conceptSchemes (sdmxJsonDataflow stratum) = data_conceptSchemes content
      ∧ contentConstraints (sdmxJsonDataflow stratum)
        = data_contentConstraints content.
Proof.
  unfold SdmxJsonDataflowStratum_load. fold (structureUrl proxyUrl item).
  destruct (loadSdmxJsonStructure (structureUrl proxyUrl item))
    as [response|e]; [|discriminate].
  cbn [mbind Result_bind].
  destruct (data response) as [content|] eqn:Hdata; [|discriminate].
  destruct (dataflows content) as [|v|[|dataflow0 otherDataflows]] eqn:Hdataflows;
    try discriminate.
  destruct (dataStructures content) as [|v|[|dataStructure0 otherDataStructures]]
    eqn:HdataStructures; try discriminate.
  intros [= <-]. cbn. split; [reflexivity|].
  exists response, content, otherDataflows, otherDataStructures. auto 10.
Qed.

(** *** The facts on the variants of the example dataflow *)

Lemma dimensions_selectedId_is_option_quarterly :
  isOptionId "Q" [option_ "A" "Annual"; option_ "Q" "Quarterly"].
Proof.
  refine (proj1 (dimensions_selectedId_is_option exampleParseSdmxUrn
                   (exampleStratum [quarterly] ["AUD"])
                   _
                   {| sdim_id := Some "FREQ"; sdim_name := Some "Frequency";
                      sdim_options := [option_ "A" "Annual"; option_ "Q" "Quarterly"];
                      sdim_position := Some 1%Z; sdim_disable := None;
                      sdim_allowUndefined := None;
                      sdim_selectedId := Some "Q" |} _ _) "Q" _).
  - vm_compute. reflexivity.
  - right. left. reflexivity.
  - reflexivity.
Defined.

(** The stratum without state codes has no dimensions but a type error. *)
Lemma dimensions_empty_options_stateless :
  dimensions exampleParseSdmxUrn statelessStratum = Throw TypeError.
Proof. vm_compute. reflexivity. Qed.

(** Only Victoria is offered under the constraint. *)
Lemma dimensionOptions_victoriaOnly :
  dimensionOptions exampleParseSdmxUrn constrainedStratum (Some victoriaOnly)
    stateDimension
  = Some [option_ "2" "Victoria"]
  ∧ allowedOptionIds (Some victoriaOnly) stateDimension = Some ["2"; "9"].
Proof. split; vm_compute; reflexivity. Qed.

Lemma dimensionOptions_source_victoriaOnly :
  ∃ kept, [option_ "2" "Victoria"] = asOption <$> kept ∧ sublist kept stateCodes.
Proof.
  destruct (proj2 (dimensionOptions_source exampleParseSdmxUrn constrainedStratum
                     victoriaOnly stateDimension)
              ltac:(left; vm_compute; reflexivity)
              [option_ "2" "Victoria"]
              ltac:(vm_compute; reflexivity))
    as (codelist & all & kept & Hcodelist & Hall & Hoptions & Hkept & _).
  exists kept. split; [exact Hoptions|].
  vm_compute in Hcodelist. injection Hcodelist as <-.
  injection Hall as <-. exact Hkept.
Defined.

Lemma dimensionColumns_shape_example :
  column_name <$> [regionTyped "STATE" "State" "STE_2016";
                   hiddenColumn "FREQ" (Some "Frequency")]
  = comp_id <$> columnDimensions (exampleStratum [] ["AUD"]).
Proof.
  refine (proj1 (dimensionColumns_shape exampleParseSdmxUrn
                   (exampleStratum [] ["AUD"]) _ _)).
  vm_compute. reflexivity.
Defined.

Lemma styles_without_time_timeless :
  styles exampleParseSdmxUrn timelessStratum = Throw TypeError.
Proof.
  apply (styles_without_time exampleParseSdmxUrn timelessStratum).
  left. reflexivity.
Defined.

Lemma styles_chart_or_region_example :
  ∃ style,
    styles exampleParseSdmxUrn (exampleStratum [] ["AUD"]) = Ok [style]
    ∧ (is_Some (chart style) ↔ regionColumn style = None).
Proof.
  destruct (styles_chart_or_region exampleParseSdmxUrn
              (exampleStratum [] ["AUD"])
              (match styles exampleParseSdmxUrn (exampleStratum [] ["AUD"]) with
               | Ok found => found
               | Throw _ => []
               end)
              ltac:(vm_compute; reflexivity))
    as (style & columns & Hfound & _ & _ & Hchart & _).
  exists style. split; [|exact Hchart].
  rewrite <- Hfound. vm_compute. reflexivity.
Defined.

(** The columns of the stratum without state codes fail as its dimensions. *)
Lemma columns_fail_with_dimensions_stateless :
  columns exampleParseSdmxUrn statelessStratum = Throw TypeError.
Proof. vm_compute. reflexivity. Qed.

Lemma SdmxJsonDataflowStratum_load_sound_example :
  catalogItem (exampleStratum [] ["AUD"]) = exampleItem [] ["AUD"].
Proof.
  refine (proj1 (SdmxJsonDataflowStratum_load_sound exampleT exampleProxyUrl
                   (exampleStructureEndpoint exampleResponse)
                   (exampleItem [] ["AUD"]) (exampleStratum [] ["AUD"]) _)).
  vm_compute. reflexivity.
Defined.

(** ** Trait values of the ArcGIS strata *)


(** X27.  [duplicateLoadableStratum] of the portal item stratum ignores the
    new model: the copy refers to the same reference and gives the trait
    values of the original.  The copies of the image server stratum and of
    its legend stratum belong to the new model and keep the metadata, the
    token and the legends, so that they too give the trait values of the
    original. *)
Theorem duplicateLoadableStratum_keeps_traits :
  (∀ (RegExp : Type) (env : Collaborators)
     (deref : Handle → ArcGisPortalItemReference RegExp)
     (stratum : ArcGisPortalItemStratum) (newModel : Model),
      PortalItemStratum_traits env deref
        (PortalItemStratum_duplicateLoadableStratum stratum newModel)
      = PortalItemStratum_traits env deref stratum)
  ∧ (∀ (env : ImageServerCollaborators) (stratum : ImageServerStratum)
       (newModel : ArcGisImageServerCatalogItem),
        _item (ImageServerStratum_duplicateLoadableStratum stratum newModel)
        = newModel
        ∧ ImageServerStratum_traits env
            (ImageServerStratum_duplicateLoadableStratum stratum newModel)
          = ImageServerStratum_traits env stratum)
  ∧ (∀ (replaceUnderscoresIn : string → string)
       (noDataRegex_test labelsRegex_test : string → bool)
       (stratum : ImageServerLegendStratum)
       (newModel : ArcGisImageServerCatalogItem),
        legend_item (ImageServerLegendStratum_duplicateLoadableStratum stratum
                       newModel)
        = newModel
        ∧ ImageServerLegendStratum_legends replaceUnderscoresIn noDataRegex_test
            labelsRegex_test
            (ImageServerLegendStratum_duplicateLoadableStratum stratum newModel)
          = ImageServerLegendStratum_legends replaceUnderscoresIn
              noDataRegex_test labelsRegex_test stratum).
Proof.
  split; [|split].
  - intros RegExp env deref [reference group] newModel. reflexivity.
  - intros env stratum newModel. split; reflexivity.
  - intros replaceUnderscoresIn noDataRegex_test labelsRegex_test stratum newModel.
    split; reflexivity.
Qed.

(** ** The layers of a WMS group *)

(** Induction on a layer with its sub-layers. *)
Lemma WmsLayer_nested_ind (P : WmsLayer → Prop) :
  (∀ layer,
      (∀ layers, Layer layer = Some layers → Forall P layers) → P layer) →
  ∀ layer, P layer.
Proof.
  intros H. fix IH 1. intros [title name abstract query egbb llbb sub].
  apply H. cbn [Layer]. destruct sub as [layers|]; [|discriminate].
  intros ? [= <-]. induction layers as [|layer layers IHlayers]; constructor.
  - apply IH.
  - exact IHlayers.
Qed.

(** The nearest layer of the chain that has the property gives its value. *)
Lemma getInheritableProperty_nearest {A : Type} (chain : list WmsLayer)
    (name : WmsLayer → option A) :
  match getInheritableProperty chain name with
  | Some value =>
      ∃ before layer after,
        chain = before ++ layer :: after
        ∧ name layer = Some value
        ∧ Forall (λ layer, name layer = None) before
  | None => Forall (λ layer, name layer = None) chain
  end.
Proof.
  induction chain as [|layer chain IH]; cbn [getInheritableProperty];
    [constructor|].
  destruct (name layer) as [value|] eqn:Hlayer.
  - exists [], layer, chain. auto.
  - destruct (getInheritableProperty chain name) as [value|].
    + destruct IH as (before & found & after & -> & Hfound & Hbefore).
      exists (layer :: before), found, after. auto.
    + constructor; assumption.
Qed.

Section WebMapServiceGroupFacts.
Context {Rectangle : Type}.
Variable Rectangle_fromDegrees :
  option string → option string → option string → option string → Rectangle.
Variable viewModel : WebMapServiceGroupViewModel.

Local Abbreviation create := (createWmsDataSource Rectangle_fromDegrees viewModel).

Lemma fold_left_sources {X Y : Type} (step : list Y → X → list Y)
    (sources : X → list Y) (l : list X) :
  Forall (λ x, ∀ items, step items x = items ++ sources x) l →
  ∀ items, fold_left step l items = items ++ flat_map sources l.
Proof.
  induction 1 as [|x l Hx Hl IH]; intros items; cbn [fold_left flat_map].
  - rewrite app_nil_r. reflexivity.
  - rewrite Hx, IH, app_assoc. reflexivity.
Qed.

Lemma addLayer_sources (supportsJsonGetFeatureInfo : bool)
    (dataCustodian : option string) (layer : WmsLayer) :
  ∀ parent items,
    addLayer Rectangle_fromDegrees viewModel supportsJsonGetFeatureInfo
      dataCustodian parent items layer
    = items ++ layerSources Rectangle_fromDegrees viewModel
                 supportsJsonGetFeatureInfo dataCustodian parent layer.
Proof.
  induction layer as [layer IH] using WmsLayer_nested_ind.
  intros parent items. destruct layer as [title name abstract query egbb llbb sub].
  cbn [addLayer layerSources Layer Name] in *.
  destruct sub as [layers|]; [|reflexivity].
  specialize (IH layers eq_refl).
  rewrite (fold_left_sources _
             (layerSources Rectangle_fromDegrees viewModel
                supportsJsonGetFeatureInfo dataCustodian
                (mkWmsLayer title name abstract query egbb llbb (Some layers)
                 :: parent))).
  - destruct (nonEmpty name); [rewrite <- app_assoc|]; reflexivity.
  - eapply Forall_impl; [exact IH|]. intros sub Hsub items'. apply Hsub.
Qed.

(** X28.  [addLayersRecursively] keeps the items that the group holds and
    pushes the sources of the layers after them, in document order: for each
    layer its own source, then the sources of its sub-layers.  A layer
    without sub-layers always gets a source, a layer with sub-layers only
    when it has a non-empty name. *)
Theorem addLayersRecursively_sources (layers : list WmsLayer)
    (items : list (WebMapServiceDataSourceViewModel Rectangle))
    (parent : list WmsLayer) (supportsJsonGetFeatureInfo : bool)
    (dataCustodian : option string) :
  addLayersRecursively Rectangle_fromDegrees viewModel layers items parent
    supportsJsonGetFeatureInfo dataCustodian
  = items
    ++ flat_map (layerSources Rectangle_fromDegrees viewModel
                   supportsJsonGetFeatureInfo dataCustodian parent) layers.
Proof.
  unfold addLayersRecursively. apply fold_left_sources.
  apply Forall_forall. intros layer _ items'. apply addLayer_sources.
Qed.

(** X29.  A source asks for feature information as XML when the nearest
    layer with a [queryable] member, the layer itself or one of its parents,
    has a truthy one, and as GeoJSON when moreover the server offers JSON:
    GeoJSON is never asked for without XML. *)
Theorem createWmsDataSource_feature_info (layer : WmsLayer)
    (parent : list WmsLayer) (supportsJsonGetFeatureInfo : bool)
    (dataCustodian : option string) :
  (truthyJson (getFeatureInfoAsGeoJson
                 (create layer parent supportsJsonGetFeatureInfo dataCustodian))
   = truthyJson (getFeatureInfoAsXml
                   (create layer parent supportsJsonGetFeatureInfo dataCustodian))
     && supportsJsonGetFeatureInfo)
  ∧ (truthyJson (getFeatureInfoAsXml
                   (create layer parent supportsJsonGetFeatureInfo dataCustodian))
     = true
     ↔ ∃ before nearest after value,
         layer :: parent = before ++ nearest :: after
         ∧ Forall (λ layer, queryable layer = None) before
         ∧ queryable nearest = Some value
         ∧ truthyJson value = true).
Proof.
  cbn [createWmsDataSource getFeatureInfoAsGeoJson getFeatureInfoAsXml].
  pose proof (getInheritableProperty_nearest (layer :: parent) queryable) as Hnearest.
  destruct (getInheritableProperty (layer :: parent) queryable) as [value|];
    cbn [default from_option id].
  - split.
    + unfold andJs. destruct (truthyJson value) eqn:Hvalue; [reflexivity|].
      rewrite Hvalue. reflexivity.
    + destruct Hnearest as (before & nearest & after & Hchain & Hvalue & Hbefore).
      split.
      * intros Htruthy. exists before, nearest, after, value. auto.
      * intros (before' & nearest' & after' & value' & Hchain' & Hbefore'
                & Hvalue' & Htruthy).
        rewrite Hchain in Hchain'.
        assert (value' = value) as <-; [|exact Htruthy].
        clear - Hchain' Hbefore Hbefore' Hvalue Hvalue'.
        revert before' Hchain' Hbefore'.
        induction Hbefore as [|l before Hl Hbefore IH]; intros before' Hchain' Hbefore'.
        -- destruct Hbefore' as [|l' before' Hl' Hbefore'];
             cbn in Hchain'; injection Hchain' as -> Hrest; congruence.
        -- destruct Hbefore' as [|l' before' Hl' Hbefore'];
             cbn in Hchain'; injection Hchain' as -> Hrest; [congruence|].
           exact (IH _ Hrest Hbefore').
  - split; [reflexivity|]. cbn. split; [discriminate|].
    intros (before & nearest & after & value & Hchain & _ & Hvalue & _).
    rewrite Hchain in Hnearest. apply Forall_app in Hnearest as (_ & Hnearest).
    apply Forall_cons in Hnearest as (Hnone & _). congruence.
Qed.

(** X30.  The rectangle of a source comes from the nearest geographic
    bounding box of the layer or its parents; only when none of them has
    one, from the nearest lat-lon bounding box: a geographic bounding box of
    a parent is preferred to a lat-lon bounding box of the layer itself.
    The source has no rectangle exactly when neither the layer nor any
    parent has a box. *)
Theorem createWmsDataSource_rectangle (layer : WmsLayer)
    (parent : list WmsLayer) (supportsJsonGetFeatureInfo : bool)
    (dataCustodian : option string) :
  (∀ egbb,
      getInheritableProperty (layer :: parent) EX_GeographicBoundingBox
      = Some egbb →
      source_rectangle (create layer parent supportsJsonGetFeatureInfo
                          dataCustodian)
      = Some (Rectangle_fromDegrees (westBoundLongitude egbb)
                (southBoundLatitude egbb) (eastBoundLongitude egbb)
                (northBoundLatitude egbb)))
  ∧ (∀ llbb,
       Forall (λ layer, EX_GeographicBoundingBox layer = None) (layer :: parent) →
       getInheritableProperty (layer :: parent) LatLonBoundingBox = Some llbb →
       source_rectangle (create layer parent supportsJsonGetFeatureInfo
                           dataCustodian)
       = Some (Rectangle_fromDegrees (minx llbb) (miny llbb) (maxx llbb)
                 (maxy llbb)))
  ∧ (source_rectangle (create layer parent supportsJsonGetFeatureInfo
                         dataCustodian) = None
     ↔ Forall (λ layer, EX_GeographicBoundingBox layer = None
                        ∧ LatLonBoundingBox layer = None)
              (layer :: parent)).
Proof.
  cbn [createWmsDataSource source_rectangle].
  pose proof (getInheritableProperty_nearest (layer :: parent)
                EX_GeographicBoundingBox) as Hegbb.
  pose proof (getInheritableProperty_nearest (layer :: parent)
                LatLonBoundingBox) as Hllbb.
  destruct (getInheritableProperty (layer :: parent) EX_GeographicBoundingBox)
    as [egbb|].
  - split; [intros ? [= <-]; reflexivity|]. split.
    + intros llbb Hnone _.
      destruct Hegbb as (before & nearest & after & Hchain & Hvalue & _).
      rewrite Hchain in Hnone. apply Forall_app in Hnone as (_ & Hnone).
      apply Forall_cons in Hnone as (Hnone & _). congruence.
    + split; [discriminate|]. intros Hnone.
      destruct Hegbb as (before & nearest & after & Hchain & Hvalue & _).
      rewrite Hchain in Hnone. apply Forall_app in Hnone as (_ & Hnone).
      apply Forall_cons in Hnone as ((Hnone & _) & _). congruence.
  - split; [discriminate|].
    destruct (getInheritableProperty (layer :: parent) LatLonBoundingBox)
      as [llbb|].
    + split; [intros ? _ [= <-]; reflexivity|].
      split; [discriminate|]. intros Hnone.
      destruct Hllbb as (before & nearest & after & Hchain & Hvalue & _).
      rewrite Hchain in Hnone. apply Forall_app in Hnone as (_ & Hnone).
      apply Forall_cons in Hnone as ((_ & Hnone) & _). congruence.
    + split; [discriminate|]. split; [|reflexivity]. intros _.
      apply Forall_forall. intros l Hl.
      rewrite Forall_forall in Hegbb, Hllbb. auto.
Qed.

End WebMapServiceGroupFacts.

(** *** The example group *)

(** The root has no name and gets no source; the group and its two layers
    follow in document order. *)
Lemma addLayersRecursively_example :
  source_layers
  <$> addLayersRecursively degrees exampleGroup [wmsRoot] [] [] true None
  = [Some "hydro"; Some "rivers"; Some "lakes"].
Proof. vm_compute. reflexivity. Qed.

(** The layer [rivers] has a lat-lon box of its own, yet its rectangle is
    the geographic bounding box of its parent. *)
Lemma createWmsDataSource_rectangle_rivers :
  source_rectangle
    (createWmsDataSource degrees exampleGroup (wmsLeaf "rivers" (Some tasmania))
       [wmsGroup; wmsRoot] true None)
  = Some (degrees (Some "112") (Some "-44") (Some "154") (Some "-9")).
Proof.
  apply (proj1 (createWmsDataSource_rectangle degrees exampleGroup
                  (wmsLeaf "rivers" (Some tasmania)) [wmsGroup; wmsRoot]
                  true None) australia).
  reflexivity.
Defined.


Lemma createImageryProvider_wkid_elevation :
  ∃ provider,
    _createImageryProvider (λ url, url) (λ _, None)
      (λ message, TerriaError "Error" message) elevationTraits None
    = Ok (Some provider)
    ∧ tilingScheme provider = WebMercatorTilingScheme.
Proof.
  eexists. split; [vm_compute; reflexivity|].
  apply (proj2 (proj2 (createImageryProvider_wkid (λ url, url) (λ _, None)
                         (λ message, TerriaError "Error" message)
                         elevationTraits None)) _ ltac:(vm_compute; reflexivity)).
  left. reflexivity.
Defined.
